(** * conpot BACnet application: service handlers, indication dispatcher and
      response transmitter ([conpot/protocols/bacnet/bacnet_app.py])

    A shallow embedding of class [BACnetApp].  The application object is a
    record that is threaded through every call ([self]); a Python exception is
    an explicit [Raise] outcome.  What belongs to the bacpypes library (the
    PDU-type and service tables, the service decoders, the property readers)
    is gathered in the record [Bacpypes] and is a parameter of the model, as
    is the constructor of its application class, which [__init__] calls. *)

From Stdlib Require Import ZArith List String Ascii Bool Lia.
Import ListNotations.
Local Open Scope Z_scope.
Local Open Scope string_scope.

(** ** Exceptions and outcomes *)

Inductive exn : Type :=
| AttributeError
| RuntimeError (msg : string)
| InvalidParameterDatatype
| DecodingError
| TypeError
| KeyError
| IndexError
| ExecutionError (errorClass errorCode : string)
| OtherException (name : string).

Inductive outcome (A : Type) : Type :=
| Return (a : A)
| Raise (e : exn).

Arguments Return {A} a.
Arguments Raise {A} e.

Definition bind {A B : Type} (m : outcome A) (k : A -> outcome B) : outcome B :=
  match m with
  | Return a => k a
  | Raise e => Raise e
  end.

Notation "x <- m ;; k" := (bind m (fun x => k))
  (at level 61, m at next level, right associativity).

(** The [except] clauses of the module, as tests on the exception raised.
    bacpypes derives [ExecutionError] from [RuntimeError]. *)
Definition is_AttributeError (e : exn) : bool :=
  match e with AttributeError => true | _ => false end.

Definition is_RuntimeError (e : exn) : bool :=
  match e with RuntimeError _ | ExecutionError _ _ => true | _ => false end.

Definition is_InvalidParameterDatatype (e : exn) : bool :=
  match e with InvalidParameterDatatype => true | _ => false end.

Definition is_DecodingError (e : exn) : bool :=
  match e with DecodingError => true | _ => false end.

(** ** Identifiers and addresses *)

(** A BACnet object identifier, the Python tuple [(objectType, instance)]. *)
Definition ObjectIdentifier : Type := string * Z.

Definition oid_eqb (a b : ObjectIdentifier) : bool :=
  String.eqb (fst a) (fst b) && Z.eqb (snd a) (snd b).

Definition PropertyIdentifier : Type := string.

(** The socket address handed over by the datagram server, [(host, port)]. *)
Definition SockAddr : Type := string * Z.

(** [bacpypes.pdu.Address], by address kind. *)
Inductive Address : Type :=
| NullAddress
| LocalBroadcast
| LocalStation (host : string) (port : Z)
| RemoteBroadcast (net : Z)
| RemoteStation (net : Z) (station : string)
| GlobalBroadcast.

Inductive AddrType : Type :=
| nullAddr | localBroadcastAddr | localStationAddr
| remoteBroadcastAddr | remoteStationAddr | globalBroadcastAddr.

Definition addrType (a : Address) : AddrType :=
  match a with
  | NullAddress => nullAddr
  | LocalBroadcast => localBroadcastAddr
  | LocalStation _ _ => localStationAddr
  | RemoteBroadcast _ => remoteBroadcastAddr
  | RemoteStation _ _ => remoteStationAddr
  | GlobalBroadcast => globalBroadcastAddr
  end.

(** [PduAddress(address)] on a [(host, port)] tuple: a local station. *)
Definition PduAddress (address : SockAddr) : Address :=
  LocalStation (fst address) (snd address).

Definition address_eqb (a b : Address) : bool :=
  match a, b with
  | NullAddress, NullAddress => true
  | LocalBroadcast, LocalBroadcast => true
  | LocalStation h p, LocalStation h' p' => String.eqb h h' && Z.eqb p p'
  | RemoteBroadcast n, RemoteBroadcast n' => Z.eqb n n'
  | RemoteStation n s, RemoteStation n' s' => Z.eqb n n' && String.eqb s s'
  | GlobalBroadcast, GlobalBroadcast => true
  | _, _ => false
  end.

(** ** The device model *)

(** One entry of an object's [_properties]: only [prop.optional] is read. *)
Record Property : Type := { optional : bool }.

Module Obj.
(** A bacpypes object as far as the handlers look into it. *)
Record t : Type := {
  objectName : string;
  objectIdentifier : ObjectIdentifier;
  _properties : list (PropertyIdentifier * Property)
}.
End Obj.

Module Device.
(** The [LocalDeviceObject].  [objectList] holds the elements of the
    bacpypes array [device.objectList]; its Python [value] list carries the
    element count at index 0, so that [value[1:]] is every element and
    [value[2:]] every element but the first. *)
Record t : Type := {
  base : Obj.t;
  objectList : list ObjectIdentifier;
  maxApduLengthAccepted : Z;
  segmentationSupported : string;
  vendorIdentifier : Z
}.

Definition objectList_value_1 (d : t) : list ObjectIdentifier := objectList d.
Definition objectList_value_2 (d : t) : list ObjectIdentifier := tl (objectList d).
End Device.

(** ** Requests *)

Module WhoIsRequest.
Record t : Type := {
  deviceInstanceRangeLowLimit : option Z;
  deviceInstanceRangeHighLimit : option Z
}.
End WhoIsRequest.

Module WhoHasRequest.
(** [object_objectIdentifier] is [request.object.objectIdentifier]; it is
    [None] when the object is referenced by name. *)
Record t : Type := {
  deviceInstanceRangeLowLimit : option Z;
  deviceInstanceRangeHighLimit : option Z;
  object_objectIdentifier : option ObjectIdentifier;
  object_objectName : option string
}.
End WhoHasRequest.

Module ReadPropertyRequest.
Record t : Type := {
  objectIdentifier : option ObjectIdentifier;
  propertyIdentifier : PropertyIdentifier;
  propertyArrayIndex : option Z
}.
End ReadPropertyRequest.

Module PropertyReference.
Record t : Type := {
  propertyIdentifier : PropertyIdentifier;
  propertyArrayIndex : option Z
}.
End PropertyReference.

Module ReadAccessSpecification.
Record t : Type := {
  objectIdentifier : ObjectIdentifier;
  listOfPropertyReferences : list PropertyReference.t
}.
End ReadAccessSpecification.

Module ReadPropertyMultipleRequest.
Record t : Type := {
  listOfReadAccessSpecs : option (list ReadAccessSpecification.t)
}.
End ReadPropertyMultipleRequest.

Inductive RequestBody : Type :=
| ReqWhoIs (r : WhoIsRequest.t)
| ReqWhoHas (r : WhoHasRequest.t)
| ReqReadProperty (r : ReadPropertyRequest.t)
| ReqReadPropertyMultiple (r : ReadPropertyMultipleRequest.t)
| ReqOther (className : string).

(** A decoded service request: the PCI fields a response built with
    [context=request] copies, and the service parameters. *)
Record Request : Type := {
  pduSource : option Address;
  req_apduInvokeID : option Z;
  body : RequestBody
}.

(** Attribute access on the dynamically typed request: a class without the
    attribute raises [AttributeError]. *)
Definition get_deviceInstanceRangeLowLimit (request : Request) : outcome (option Z) :=
  match body request with
  | ReqWhoIs r => Return (WhoIsRequest.deviceInstanceRangeLowLimit r)
  | ReqWhoHas r => Return (WhoHasRequest.deviceInstanceRangeLowLimit r)
  | _ => Raise AttributeError
  end.

Definition get_deviceInstanceRangeHighLimit (request : Request) : outcome (option Z) :=
  match body request with
  | ReqWhoIs r => Return (WhoIsRequest.deviceInstanceRangeHighLimit r)
  | ReqWhoHas r => Return (WhoHasRequest.deviceInstanceRangeHighLimit r)
  | _ => Raise AttributeError
  end.

Definition get_object_objectIdentifier (request : Request) : outcome (option ObjectIdentifier) :=
  match body request with
  | ReqWhoHas r => Return (WhoHasRequest.object_objectIdentifier r)
  | _ => Raise AttributeError
  end.

Definition get_objectIdentifier (request : Request) : outcome (option ObjectIdentifier) :=
  match body request with
  | ReqReadProperty r => Return (ReadPropertyRequest.objectIdentifier r)
  | _ => Raise AttributeError
  end.

Definition get_propertyIdentifier (request : Request) : outcome PropertyIdentifier :=
  match body request with
  | ReqReadProperty r => Return (ReadPropertyRequest.propertyIdentifier r)
  | _ => Raise AttributeError
  end.

Definition get_propertyArrayIndex (request : Request) : outcome (option Z) :=
  match body request with
  | ReqReadProperty r => Return (ReadPropertyRequest.propertyArrayIndex r)
  | _ => Raise AttributeError
  end.

Definition get_listOfReadAccessSpecs (request : Request)
  : outcome (option (list ReadAccessSpecification.t)) :=
  match body request with
  | ReqReadPropertyMultiple r => Return (ReadPropertyMultipleRequest.listOfReadAccessSpecs r)
  | _ => Raise AttributeError
  end.

(** ** Property values and responses *)

Definition Datatype : Type := string.

(** A bacpypes [Any]: a value read from an object, or the result of
    [Any().cast_in(datatype(None))], the empty value of a datatype. *)
Inductive Any : Type :=
| AnyValue (datatype : Datatype) (text : string)
| AnyCastNone (datatype : Datatype).

Inductive ReadAccessResultElementChoice : Type :=
| propertyValue (v : Any)
| propertyAccessError (errorClass errorCode : string).

Module ReadAccessResultElement.
Record t : Type := {
  propertyIdentifier : PropertyIdentifier;
  propertyArrayIndex : option Z;
  readResult : ReadAccessResultElementChoice
}.
End ReadAccessResultElement.

Module ReadAccessResult.
Record t : Type := {
  objectIdentifier : ObjectIdentifier;
  listOfResults : list ReadAccessResultElement.t
}.
End ReadAccessResult.

Module IAmRequest.
Record t : Type := {
  pduDestination : Address;
  iAmDeviceIdentifier : option ObjectIdentifier;
  maxAPDULengthAccepted : Z;
  segmentationSupported : string;
  vendorID : Z
}.
End IAmRequest.

Module IHaveRequest.
(** [objectIdentifier] receives [obj[1]], the instance number alone. *)
Record t : Type := {
  pduDestination : Address;
  deviceIdentifier : option ObjectIdentifier;
  objectIdentifier : Z;
  objectName : string
}.
End IHaveRequest.

Module ReadPropertyACK.
(** [objectName] stays unset when the property is read from the root device. *)
Record t : Type := {
  pduDestination : Address;
  apduInvokeID : option Z;
  objectIdentifier : ObjectIdentifier;
  objectName : option string;
  propertyIdentifier : PropertyIdentifier;
  propertyValue : Any
}.
End ReadPropertyACK.

Module Error.
Record t : Type := {
  errorClass : string;
  errorCode : string;
  context : Request
}.
End Error.

Module ReadPropertyMultipleACK.
Record t : Type := {
  context : Request;
  listOfReadAccessResults : list ReadAccessResult.t
}.
End ReadPropertyMultipleACK.

Module ErrorPDU.
Record t : Type := { pduDestination : Address }.
End ErrorPDU.

Inductive Response : Type :=
| RespIAm (r : IAmRequest.t)
| RespIHave (r : IHaveRequest.t)
| RespReadPropertyACK (r : ReadPropertyACK.t)
| RespError (r : Error.t)
| RespReadPropertyMultipleACK (r : ReadPropertyMultipleACK.t)
| RespErrorPDU (r : ErrorPDU.t).

(** The destination a response carries: the field where the handler sets it,
    the source of the request for a response built with [context=request]. *)
Definition pduDestination (r : Response) : option Address :=
  match r with
  | RespIAm r => Some (IAmRequest.pduDestination r)
  | RespIHave r => Some (IHaveRequest.pduDestination r)
  | RespReadPropertyACK r => Some (ReadPropertyACK.pduDestination r)
  | RespError r => pduSource (Error.context r)
  | RespReadPropertyMultipleACK r => pduSource (ReadPropertyMultipleACK.context r)
  | RespErrorPDU r => Some (ErrorPDU.pduDestination r)
  end.

(** [isinstance(response_apdu, RejectPDU) or isinstance(response_apdu, ErrorPDU)];
    bacpypes' [Error] derives from [ErrorPDU]. *)
Definition is_Reject_or_ErrorPDU (r : Response) : bool :=
  match r with
  | RespError _ | RespErrorPDU _ => true
  | _ => false
  end.

(** ** The application object *)

Inductive BVLLFunction : Type := OriginalUnicastNPDU | OriginalBroadcastNPDU.

(** What [datagram_server.sendto] is given: the framed response and the
    socket address. *)
Record Datagram : Type := {
  bvlciFunction : BVLLFunction;
  payload : Response;
  sent_to : SockAddr
}.

Record BACnetApp : Type := {
  _response : option Response;
  _response_service : option string;
  localDevice : Device.t;
  objectName : list (string * Obj.t);
  objectIdentifier : list (ObjectIdentifier * Obj.t);
  deviceIdentifier : option ObjectIdentifier;
  datagram_server : list Datagram
}.

(** [BACnetApp.__init__]: the assignments, then its last statement,
    [super(BIPSimpleApplication, self).__init__()], which runs, without
    arguments and on the object just filled, the constructor of the bacpypes
    classes that follow [BIPSimpleApplication] in the method resolution
    order.  That constructor is library code: what it does to the fields is
    the parameter [Application_init]. *)
Definition init (Application_init : BACnetApp -> BACnetApp) (device : Device.t) : BACnetApp :=
  Application_init
    {| _response := None;
       _response_service := None;
       localDevice := device;
       objectName := [(Obj.objectName (Device.base device), Device.base device)];
       objectIdentifier := [(Obj.objectIdentifier (Device.base device), Device.base device)];
       deviceIdentifier := None;
       datagram_server := [] |}.

Definition set_response (self : BACnetApp) (r : option Response) : BACnetApp :=
  {| _response := r;
     _response_service := _response_service self;
     localDevice := localDevice self;
     objectName := objectName self;
     objectIdentifier := objectIdentifier self;
     deviceIdentifier := deviceIdentifier self;
     datagram_server := datagram_server self |}.

Definition set_response_service (self : BACnetApp) (s : string) : BACnetApp :=
  {| _response := _response self;
     _response_service := Some s;
     localDevice := localDevice self;
     objectName := objectName self;
     objectIdentifier := objectIdentifier self;
     deviceIdentifier := deviceIdentifier self;
     datagram_server := datagram_server self |}.

Definition sendto (self : BACnetApp) (d : Datagram) : BACnetApp :=
  {| _response := _response self;
     _response_service := _response_service self;
     localDevice := localDevice self;
     objectName := objectName self;
     objectIdentifier := objectIdentifier self;
     deviceIdentifier := deviceIdentifier self;
     datagram_server := datagram_server self ++ [d] |}.

(** Dictionary access [self.objectIdentifier[obj]] and [obj in self.objectIdentifier]. *)
Fixpoint dict_get {V : Type} (d : list (ObjectIdentifier * V)) (k : ObjectIdentifier) : option V :=
  match d with
  | [] => None
  | (k', v) :: d' => if oid_eqb k k' then Some v else dict_get d' k
  end.

Definition dict_getitem {V : Type} (d : list (ObjectIdentifier * V)) (k : ObjectIdentifier)
  : outcome V :=
  match dict_get d k with
  | Some v => Return v
  | None => Raise KeyError
  end.

Definition dict_contains {V : Type} (d : list (ObjectIdentifier * V)) (k : ObjectIdentifier) : bool :=
  match dict_get d k with Some _ => true | None => false end.

Definition update_registry (self : BACnetApp) (names : list (string * Obj.t))
    (identifiers : list (ObjectIdentifier * Obj.t)) (device : Device.t) : BACnetApp :=
  {| _response := _response self;
     _response_service := _response_service self;
     localDevice := device;
     objectName := names;
     objectIdentifier := identifiers;
     deviceIdentifier := deviceIdentifier self;
     datagram_server := datagram_server self |}.

Definition set_deviceIdentifier (self : BACnetApp) (i : ObjectIdentifier) : BACnetApp :=
  {| _response := _response self;
     _response_service := _response_service self;
     localDevice := localDevice self;
     objectName := objectName self;
     objectIdentifier := objectIdentifier self;
     deviceIdentifier := Some i;
     datagram_server := datagram_server self |}.

Definition append_object (device : Device.t) (i : ObjectIdentifier) : Device.t :=
  {| Device.base := Device.base device;
     Device.objectList := Device.objectList device ++ [i];
     Device.maxApduLengthAccepted := Device.maxApduLengthAccepted device;
     Device.segmentationSupported := Device.segmentationSupported device;
     Device.vendorIdentifier := Device.vendorIdentifier device |}.

(** [add_object]: both dictionaries and the object list of the device grow
    together.  An identifier is a pair here, so only the name can be empty. *)
Definition add_object (self : BACnetApp) (obj : Obj.t) : outcome BACnetApp :=
  let object_name := Obj.objectName obj in
  let object_identifier := Obj.objectIdentifier obj in
  if String.eqb object_name EmptyString then Raise (RuntimeError "object name required")
  else if existsb (fun kv => String.eqb object_name (fst kv)) (objectName self)
  then Raise (RuntimeError "object already added with the same name")
  else if dict_contains (objectIdentifier self) object_identifier
  then Raise (RuntimeError "object already added with the same identifier")
  else Return (update_registry self
                 (objectName self ++ [(object_name, obj)])
                 (objectIdentifier self ++ [(object_identifier, obj)])
                 (append_object (localDevice self) object_identifier)).

(** ** Who-Is and Who-Has *)

(** [list(self.objectIdentifier.keys())[0][1]]: the instance number in the
    first key of the identifier dictionary. *)
Definition first_key_instance (self : BACnetApp) : outcome Z :=
  match objectIdentifier self with
  | [] => Raise IndexError
  | (k, _) :: _ => Return (snd k)
  end.

(** The body of the [try] block that opens [whoIs] and [whoHas]: the value
    left in [execute]. *)
Definition range_check (self : BACnetApp) (request : Request) : outcome bool :=
  low <- get_deviceInstanceRangeLowLimit request ;;
  match low with
  | None => Return true
  | Some lo =>
      high <- get_deviceInstanceRangeHighLimit request ;;
      match high with
      | None => Return true
      | Some hi =>
          inst <- first_key_instance self ;;
          if ((lo >? inst)%Z && (inst >? hi)%Z)%bool then Return false else Return true
      end
  end.

(** [try: ... except AttributeError: execute = True]. *)
Definition execute_flag (self : BACnetApp) (request : Request) : outcome bool :=
  match range_check self request with
  | Return b => Return b
  | Raise e => if is_AttributeError e then Return true else Raise e
  end.

Definition whoIs (self : BACnetApp) (request : Request) (address : SockAddr)
    (invoke_key : option Z) (device : Device.t) : outcome BACnetApp :=
  execute <- execute_flag self request ;;
  if execute : bool then
    Return (set_response (set_response_service self "IAmRequest")
      (Some (RespIAm
        {| IAmRequest.pduDestination := PduAddress address;
           IAmRequest.iAmDeviceIdentifier := deviceIdentifier self;
           IAmRequest.maxAPDULengthAccepted := Device.maxApduLengthAccepted (localDevice self);
           IAmRequest.segmentationSupported := Device.segmentationSupported (localDevice self);
           IAmRequest.vendorID := Device.vendorIdentifier (localDevice self) |})))
  else Return self.

(** The [for obj in device.objectList.value[2:]] loop of [whoHas], with its
    [else] clause (only a log line) at the end of the list. *)
Fixpoint whoHas_loop (self : BACnetApp) (request : Request) (address : SockAddr)
    (objs : list ObjectIdentifier) : outcome BACnetApp :=
  match objs with
  | [] => Return self
  | obj :: rest =>
      rid <- get_object_objectIdentifier request ;;
      match rid with
      | None => Raise TypeError
      | Some rid =>
          if ((snd rid =? snd obj)%Z && String.eqb (fst rid) (fst obj))%bool then
            o <- dict_getitem (objectIdentifier self) obj ;;
            Return (set_response (set_response_service self "IHaveRequest")
              (Some (RespIHave
                {| IHaveRequest.pduDestination := PduAddress address;
                   IHaveRequest.deviceIdentifier := deviceIdentifier self;
                   IHaveRequest.objectIdentifier := snd obj;
                   IHaveRequest.objectName := Obj.objectName o |})))
          else whoHas_loop self request address rest
      end
  end.

Definition whoHas (self : BACnetApp) (request : Request) (address : SockAddr)
    (invoke_key : option Z) (device : Device.t) : outcome BACnetApp :=
  execute <- execute_flag self request ;;
  if execute : bool then
    whoHas_loop self request address (Device.objectList_value_2 device)
  else Return self.

Definition iAm (self : BACnetApp) : outcome BACnetApp := Return (set_response self None).

Definition iHave (self : BACnetApp) : outcome BACnetApp := Return (set_response self None).

(** ** The bacpypes library *)

(** A class of [apdu_types]: its [__name__] and its [pduType]. *)
Record ApduClass : Type := { apdu_name : string; pduType : Z }.

(** A request class of [confirmed_request_types] or
    [unconfirmed_request_types]: its [__name__] and its [serviceChoice]. *)
Record ServiceClass : Type := { service_name : string; serviceChoice : Z }.

Record APDU : Type := {
  apduType : Z;
  apduService : Z;
  apduInvokeID : option Z;
  pduData : list Z
}.

(** What [bacnet_app.py] imports from bacpypes.  [decode cls apdu] stands for
    [request = cls(); request.decode(apdu)]: the request object as the call
    leaves it, and the exception it raised, if any.  The readers return a
    value or raise. *)
Record Bacpypes : Type := {
  apdu_types : Z -> option ApduClass;
  confirmed_request_types : Z -> option ServiceClass;
  unconfirmed_request_types : Z -> option ServiceClass;
  ConfirmedServiceChoice : list (string * Z);
  UnconfirmedServiceChoice : list (string * Z);
  decode : ServiceClass -> APDU -> Request * option exn;
  read_property_to_any : Obj.t -> PropertyIdentifier -> option Z -> outcome Any;
  get_datatype : Obj.t -> PropertyIdentifier -> outcome (option Datatype);
  read_property_to_result_element :
    option Obj.t -> PropertyIdentifier -> option Z -> outcome ReadAccessResultElement.t
}.

Section Handlers.

Variable lib : Bacpypes.

(** ** Read-Property *)

Inductive read_step : Type :=
| ReadValue (v : Any)
| ReadError (errorClass errorCode : string).

(** The [try]/[except ExecutionError] block of [readProperty], the same for an
    object of the dictionary and for the root device: the value read, the
    empty value of the declared datatype on [unknownProperty], the error to
    answer otherwise.  Calling a [None] datatype is a [TypeError]. *)
Definition read_or_null (o : Obj.t) (pid : PropertyIdentifier) (idx : option Z)
  : outcome read_step :=
  match read_property_to_any lib o pid idx with
  | Return v => Return (ReadValue v)
  | Raise (ExecutionError cls code) =>
      if String.eqb code "unknownProperty" then
        datatype <- get_datatype lib o pid ;;
        match datatype with
        | Some d => Return (ReadValue (AnyCastNone d))
        | None => Raise TypeError
        end
      else Return (ReadError cls code)
  | Raise e => Raise e
  end.

(** The test of the loop of [readProperty] on one entry of the object list. *)
Definition readProperty_match (rid obj : ObjectIdentifier) : bool :=
  ((snd rid =? 4194303)%Z || (snd rid =? snd obj)%Z) && String.eqb (fst rid) (fst obj).

Definition unknownObject_Error (request : Request) : Response :=
  RespError {| Error.errorClass := "object";
               Error.errorCode := "unknownObject";
               Error.context := request |}.

(** The body of the loop of [readProperty] once an entry matches: [target] is
    the object read and [name] the object name put in the acknowledgement. *)
Definition readProperty_answer (self : BACnetApp) (request : Request) (address : SockAddr)
    (invoke_key : option Z) (obj : ObjectIdentifier) (target : Obj.t) (name : option string)
  : outcome BACnetApp :=
  pid <- get_propertyIdentifier request ;;
  idx <- get_propertyArrayIndex request ;;
  step <- read_or_null target pid idx ;;
  match step with
  | ReadError cls code =>
      Return (set_response self
        (Some (RespError {| Error.errorClass := cls;
                            Error.errorCode := code;
                            Error.context := request |})))
  | ReadValue property_value =>
      Return (set_response (set_response_service self "ComplexAckPDU")
        (Some (RespReadPropertyACK
          {| ReadPropertyACK.pduDestination := PduAddress address;
             ReadPropertyACK.apduInvokeID := invoke_key;
             ReadPropertyACK.objectIdentifier := obj;
             ReadPropertyACK.objectName := name;
             ReadPropertyACK.propertyIdentifier := pid;
             ReadPropertyACK.propertyValue := property_value |})))
  end.

(** The [for obj in device.objectList.value[1:]] loop of [readProperty]; its
    [else] clause, reached when no entry matched, is the empty-list case (the
    log line there evaluates [request.objectIdentifier[0]]). *)
Fixpoint readProperty_loop (self : BACnetApp) (request : Request) (address : SockAddr)
    (invoke_key : option Z) (objs : list ObjectIdentifier) : outcome BACnetApp :=
  match objs with
  | [] =>
      rid <- get_objectIdentifier request ;;
      match rid with
      | None => Raise TypeError
      | Some _ => Return (set_response self (Some (unknownObject_Error request)))
      end
  | obj :: rest =>
      rid <- get_objectIdentifier request ;;
      match rid with
      | None => Raise TypeError
      | Some rid =>
          if readProperty_match rid obj then
            if dict_contains (objectIdentifier self) obj then
              o <- dict_getitem (objectIdentifier self) obj ;;
              readProperty_answer self request address invoke_key obj o
                (Some (Obj.objectName o))
            else
              readProperty_answer self request address invoke_key obj
                (Device.base (localDevice self)) None
          else readProperty_loop self request address invoke_key rest
      end
  end.

Definition readProperty (self : BACnetApp) (request : Request) (address : SockAddr)
    (invoke_key : option Z) (device : Device.t) : outcome BACnetApp :=
  readProperty_loop self request address invoke_key (Device.objectList_value_1 device).

(** ** Read-Property-Multiple *)

Definition unknownObject_element (pid : PropertyIdentifier) (idx : option Z)
  : ReadAccessResultElement.t :=
  {| ReadAccessResultElement.propertyIdentifier := pid;
     ReadAccessResultElement.propertyArrayIndex := idx;
     ReadAccessResultElement.readResult := propertyAccessError "object" "unknownObject" |}.

(** [try: read_property_to_result_element(...) except Exception: <error element>]. *)
Definition read_element (obj : option Obj.t) (pid : PropertyIdentifier) (idx : option Z)
  : ReadAccessResultElement.t :=
  match read_property_to_result_element lib obj pid idx with
  | Return e => e
  | Raise _ => unknownObject_element pid idx
  end.

(** The "undefined property" test that drops an element. *)
Definition is_unknownProperty (e : ReadAccessResultElement.t) : bool :=
  match ReadAccessResultElement.readResult e with
  | propertyAccessError _ code => String.eqb code "unknownProperty"
  | propertyValue _ => false
  end.

Definition is_selector (pid : PropertyIdentifier) : bool :=
  String.eqb pid "all" || String.eqb pid "required" || String.eqb pid "optional".

(** The loop over [obj._properties.items()] for a selector. *)
Fixpoint select_properties (obj : Obj.t) (pid : PropertyIdentifier) (idx : option Z)
    (props : list (PropertyIdentifier * Property)) : list ReadAccessResultElement.t :=
  match props with
  | [] => []
  | (propId, prop) :: rest =>
      let others := select_properties obj pid idx rest in
      let read :=
        let e := read_element (Some obj) propId idx in
        if is_unknownProperty e then others else e :: others in
      if String.eqb propId "propertyList" then others
      else if String.eqb pid "all" then read
      else if String.eqb pid "required" && optional prop then others
      else if String.eqb pid "optional" && negb (optional prop) then others
      else read
  end.

(** What one property reference appends to the list of result elements. *)
Definition reference_results (obj : option Obj.t) (ref : PropertyReference.t)
  : list ReadAccessResultElement.t :=
  let pid := PropertyReference.propertyIdentifier ref in
  let idx := PropertyReference.propertyArrayIndex ref in
  if is_selector pid then
    match obj with
    | None => [unknownObject_element pid idx]
    | Some o => select_properties o pid idx (Obj._properties o)
    end
  else
    let e := read_element obj pid idx in
    if is_unknownProperty e then [] else [e].

(** The object a read-access specification designates: the identifier kept for
    the result and the object found, [None] when there is none. *)
Definition resolve (self : BACnetApp) (device : Device.t) (oid : ObjectIdentifier)
  : outcome (ObjectIdentifier * option Obj.t) :=
  let local := Device.base (localDevice self) in
  if oid_eqb oid ("device", 4194303) || oid_eqb oid (Obj.objectIdentifier local) then
    Return (Obj.objectIdentifier local, Some local)
  else
    match find (oid_eqb oid) (Device.objectList_value_2 device) with
    | Some device_obj =>
        o <- dict_getitem (objectIdentifier self) device_obj ;;
        Return (oid, Some o)
    | None => Return (oid, None)
    end.

Fixpoint readPropertyMultiple_loop (self : BACnetApp) (device : Device.t)
    (specs : list ReadAccessSpecification.t) : outcome (list ReadAccessResult.t) :=
  match specs with
  | [] => Return []
  | read_access_spec :: rest =>
      r <- resolve self device (ReadAccessSpecification.objectIdentifier read_access_spec) ;;
      let read_access_result :=
        {| ReadAccessResult.objectIdentifier := fst r;
           ReadAccessResult.listOfResults :=
             flat_map (reference_results (snd r))
               (ReadAccessSpecification.listOfPropertyReferences read_access_spec) |} in
      results <- readPropertyMultiple_loop self device rest ;;
      Return (read_access_result :: results)
  end.

Definition readPropertyMultiple (self : BACnetApp) (request : Request) (address : SockAddr)
    (invoke_key : option Z) (device : Device.t) : outcome BACnetApp :=
  specs <- get_listOfReadAccessSpecs request ;;
  match specs with
  | None => Raise TypeError
  | Some specs =>
      read_access_result_list <- readPropertyMultiple_loop self device specs ;;
      Return (set_response (set_response_service self "ComplexAckPDU")
        (Some (RespReadPropertyMultipleACK
          {| ReadPropertyMultipleACK.context := request;
             ReadPropertyMultipleACK.listOfReadAccessResults := read_access_result_list |})))
  end.

(** ** The indication dispatcher *)

Definition Handler : Type :=
  BACnetApp -> Request -> SockAddr -> option Z -> Device.t -> outcome BACnetApp.

(** What [getattr(self, key)] finds: a service handler, another attribute of
    the class (a method of another arity or a data attribute, whose call is a
    [TypeError]), or nothing ([AttributeError]). *)
Inductive attribute : Type :=
| IsHandler (h : Handler)
| NotAHandler
| NoAttribute.

Definition other_attributes : list string :=
  [ "get_objects_and_properties"; "add_object"; "add_property";
    "indication"; "response";
    "_request"; "_response"; "_response_service"; "localDevice";
    "objectName"; "objectIdentifier"; "datagram_server"; "deviceIdentifier" ].

Definition getattr (key : string) : attribute :=
  if String.eqb key "iAm" then IsHandler (fun self _ _ _ _ => iAm self)
  else if String.eqb key "iHave" then IsHandler (fun self _ _ _ _ => iHave self)
  else if String.eqb key "whoIs" then IsHandler whoIs
  else if String.eqb key "whoHas" then IsHandler whoHas
  else if String.eqb key "readProperty" then IsHandler readProperty
  else if String.eqb key "readPropertyMultiple" then IsHandler readPropertyMultiple
  else if existsb (String.eqb key) other_attributes then NotAHandler
  else NoAttribute.

(** The first name of the enumeration that carries the service choice: where
    the [for key, value in ...items()] loop stops. *)
Definition service_key (enumerations : list (string * Z)) (choice : Z) : option string :=
  option_map fst (find (fun kv => (choice =? snd kv)%Z) enumerations).

(** [try: getattr(self, key)(request, address, invoke_key, device)] with its
    [except AttributeError] clause.  No handler raises after it has written
    to [self], so the object the clause clears is the one the call received. *)
Definition call_handler (self : BACnetApp) (key : string) (request : Request)
    (address : SockAddr) (invoke_key : option Z) (device : Device.t) : outcome BACnetApp :=
  match getattr key with
  | NoAttribute => Return (set_response self None)
  | NotAHandler => Raise TypeError
  | IsHandler h =>
      match h self request address invoke_key device with
      | Return self' => Return self'
      | Raise e => if is_AttributeError e then Return (set_response self None) else Raise e
      end
  end.

Definition ErrorPDU_to (address : SockAddr) : Response :=
  RespErrorPDU {| ErrorPDU.pduDestination := PduAddress address |}.

Definition indication_confirmed (self : BACnetApp) (apdu : APDU) (address : SockAddr)
    (device : Device.t) : outcome BACnetApp :=
  match confirmed_request_types lib (apduService apdu) with
  | None => Raise AttributeError
  | Some apdu_service =>
      let (request, raised) := decode lib apdu_service apdu in
      let dispatch :=
        match service_key (ConfirmedServiceChoice lib) (serviceChoice apdu_service) with
        | Some key => call_handler self key request address (apduInvokeID apdu) device
        | None => Return (set_response self None)
        end in
      match raised with
      | None => dispatch
      | Some e =>
          if is_AttributeError e || is_RuntimeError e || is_InvalidParameterDatatype e
          then Return self
          else if is_DecodingError e then dispatch
          else Raise e
      end
  end.

Definition indication_unconfirmed (self : BACnetApp) (apdu : APDU) (address : SockAddr)
    (device : Device.t) : outcome BACnetApp :=
  match unconfirmed_request_types lib (apduService apdu) with
  | None => Raise AttributeError
  | Some apdu_service =>
      let (request, raised) := decode lib apdu_service apdu in
      let dispatch :=
        match service_key (UnconfirmedServiceChoice lib) (serviceChoice apdu_service) with
        | Some key => call_handler self key request address (apduInvokeID apdu) device
        | None =>
            Return (set_response (set_response_service self "ErrorPDU")
                      (Some (ErrorPDU_to address)))
        end in
      match raised with
      | None => dispatch
      | Some e =>
          if is_AttributeError e || is_RuntimeError e
          then Return (set_response self None)
          else if is_DecodingError e then dispatch
          else Raise e
      end
  end.

(** [indication].  The first log line reads [apdu_type.__name__], and the
    service branches [apdu_service.__name__]: a miss in the table, which
    leaves [None] in the variable, raises [AttributeError] there. *)
Definition indication (self : BACnetApp) (apdu : APDU) (address : SockAddr)
    (device : Device.t) : outcome BACnetApp :=
  match apdu_types lib (apduType apdu) with
  | None => Raise AttributeError
  | Some apdu_type =>
      if (pduType apdu_type =? 0)%Z then indication_confirmed self apdu address device
      else if (pduType apdu_type =? 1)%Z then indication_unconfirmed self apdu address device
      else if (pduType apdu_type =? 2)%Z then Return (set_response self None)
      else if (pduType apdu_type =? 3)%Z then Return (set_response self None)
      else if (pduType apdu_type =? 4)%Z then Return (set_response self None)
      else if (pduType apdu_type =? 5)%Z then Return (set_response self None)
      else if (pduType apdu_type =? 6)%Z then Return (set_response self None)
      else if (pduType apdu_type =? 7)%Z then Return (set_response self None)
      else if ((8 <=? pduType apdu_type)%Z && (pduType apdu_type <=? 15)%Z)%bool
           then Return (set_response self None)
      else Return (set_response self None)
  end.

(** ** The response transmitter *)

(** [response].  The encoders of the library (APDU, NPDU, BVLL) are taken to
    succeed; what is kept of the datagram is its BVLL function, the response
    it frames and the socket address given to [sendto]. *)
Definition response (self : BACnetApp) (response_apdu : option Response) (address : SockAddr)
  : outcome BACnetApp :=
  match response_apdu with
  | None => Return self
  | Some r =>
      match pduDestination r with
      | None => Raise AttributeError
      | Some destination =>
          xpdu <- match addrType destination with
                  | localStationAddr => Return OriginalUnicastNPDU
                  | localBroadcastAddr => Return OriginalBroadcastNPDU
                  | _ => Raise (RuntimeError "invalid destination address")
                  end ;;
          if is_Reject_or_ErrorPDU r then
            Return (sendto self {| bvlciFunction := xpdu; payload := r; sent_to := address |})
          else if address_eqb destination GlobalBroadcast then
            Return (sendto self
              {| bvlciFunction := xpdu; payload := r; sent_to := (EmptyString, snd address) |})
          else
            Return (sendto self {| bvlciFunction := xpdu; payload := r; sent_to := address |})
      end
  end.

End Handlers.

(** ** A reference configuration

    The device of the default template (instance 36113 with a binary input
    12 and an analog input 14), and a small instance of the library: the
    tables as bacpypes declares them (an excerpt for the services), the
    constructor of its application class, a decoder that hands back a given
    request, and readers over three properties. *)

Definition table_get {V : Type} (table : list (Z * V)) (k : Z) : option V :=
  option_map snd (find (fun kv => (k =? fst kv)%Z) table).

Definition stock_apdu_types : list (Z * ApduClass) :=
  [ (0, {| apdu_name := "ConfirmedRequestPDU"; pduType := 0 |});
    (1, {| apdu_name := "UnconfirmedRequestPDU"; pduType := 1 |});
    (2, {| apdu_name := "SimpleAckPDU"; pduType := 2 |});
    (3, {| apdu_name := "ComplexAckPDU"; pduType := 3 |});
    (4, {| apdu_name := "SegmentAckPDU"; pduType := 4 |});
    (5, {| apdu_name := "ErrorPDU"; pduType := 5 |});
    (6, {| apdu_name := "RejectPDU"; pduType := 6 |});
    (7, {| apdu_name := "AbortPDU"; pduType := 7 |}) ].

Definition stock_confirmed_request_types : list (Z * ServiceClass) :=
  [ (12, {| service_name := "ReadPropertyRequest"; serviceChoice := 12 |});
    (14, {| service_name := "ReadPropertyMultipleRequest"; serviceChoice := 14 |});
    (15, {| service_name := "WritePropertyRequest"; serviceChoice := 15 |}) ].

Definition stock_unconfirmed_request_types : list (Z * ServiceClass) :=
  [ (0, {| service_name := "IAmRequest"; serviceChoice := 0 |});
    (1, {| service_name := "IHaveRequest"; serviceChoice := 1 |});
    (6, {| service_name := "TimeSynchronizationRequest"; serviceChoice := 6 |});
    (7, {| service_name := "WhoHasRequest"; serviceChoice := 7 |});
    (8, {| service_name := "WhoIsRequest"; serviceChoice := 8 |}) ].

Definition stock_ConfirmedServiceChoice : list (string * Z) :=
  [ ("readProperty", 12); ("readPropertyMultiple", 14); ("writeProperty", 15) ].

Definition stock_UnconfirmedServiceChoice : list (string * Z) :=
  [ ("iAm", 0); ("iHave", 1); ("timeSynchronization", 6); ("whoHas", 7); ("whoIs", 8) ].

Definition example_datatype (pid : PropertyIdentifier) : option Datatype :=
  if String.eqb pid "objectName" then Some "CharacterString"
  else if String.eqb pid "presentValue" then Some "Real"
  else if String.eqb pid "description" then Some "CharacterString"
  else None.

Definition example_value (o : Obj.t) (pid : PropertyIdentifier) : option Any :=
  if String.eqb pid "objectName" then Some (AnyValue "CharacterString" (Obj.objectName o))
  else if String.eqb pid "presentValue" then Some (AnyValue "Real" "68.0")
  else None.

Definition example_read_property_to_any (o : Obj.t) (pid : PropertyIdentifier)
    (idx : option Z) : outcome Any :=
  match example_datatype pid, example_value o pid with
  | Some _, Some v => Return v
  | _, _ => Raise (ExecutionError "property" "unknownProperty")
  end.

Definition example_read_property_to_result_element (obj : option Obj.t)
    (pid : PropertyIdentifier) (idx : option Z) : outcome ReadAccessResultElement.t :=
  let element choice :=
    {| ReadAccessResultElement.propertyIdentifier := pid;
       ReadAccessResultElement.propertyArrayIndex := idx;
       ReadAccessResultElement.readResult := choice |} in
  match obj with
  | None => Return (element (propertyAccessError "object" "unknownObject"))
  | Some o =>
      match example_read_property_to_any o pid idx with
      | Return v => Return (element (propertyValue v))
      | Raise (ExecutionError cls code) => Return (element (propertyAccessError cls code))
      | Raise e => Raise e
      end
  end.

Definition example_library (decoded : Request * option exn) : Bacpypes :=
  {| apdu_types := table_get stock_apdu_types;
     confirmed_request_types := table_get stock_confirmed_request_types;
     unconfirmed_request_types := table_get stock_unconfirmed_request_types;
     ConfirmedServiceChoice := stock_ConfirmedServiceChoice;
     UnconfirmedServiceChoice := stock_UnconfirmedServiceChoice;
     decode := fun _ _ => decoded;
     read_property_to_any := example_read_property_to_any;
     get_datatype := fun _ pid => Return (example_datatype pid);
     read_property_to_result_element := example_read_property_to_result_element |}.

Definition example_device_object : Obj.t :=
  {| Obj.objectName := "Conpot BACnet";
     Obj.objectIdentifier := ("device", 36113);
     Obj._properties := [ ("objectName", {| optional := false |});
                          ("propertyList", {| optional := false |});
                          ("description", {| optional := true |}) ] |}.

Definition example_device : Device.t :=
  {| Device.base := example_device_object;
     Device.objectList := [("device", 36113)];
     Device.maxApduLengthAccepted := 1024;
     Device.segmentationSupported := "segmentedBoth";
     Device.vendorIdentifier := 15 |}.

Definition example_BI : Obj.t :=
  {| Obj.objectName := "BI 01";
     Obj.objectIdentifier := ("binaryInput", 12);
     Obj._properties := [ ("objectName", {| optional := false |});
                          ("presentValue", {| optional := false |});
                          ("description", {| optional := true |}) ] |}.

Definition example_AI : Obj.t :=
  {| Obj.objectName := "AI 01";
     Obj.objectIdentifier := ("analogInput", 14);
     Obj._properties := [ ("objectName", {| optional := false |});
                          ("presentValue", {| optional := false |});
                          ("description", {| optional := true |}) ] |}.

(** An application over that device with the device identifier set and the
    two objects added, the device itself being registered in both
    dictionaries as the assignments of [__init__] make them. *)
Definition example_app : BACnetApp :=
  {| _response := None;
     _response_service := None;
     localDevice := append_object (append_object example_device ("binaryInput", 12))
                                  ("analogInput", 14);
     objectName := [ ("Conpot BACnet", example_device_object);
                     ("BI 01", example_BI); ("AI 01", example_AI) ];
     objectIdentifier := [ (("device", 36113), example_device_object);
                           (("binaryInput", 12), example_BI);
                           (("analogInput", 14), example_AI) ];
     deviceIdentifier := Some ("device", 36113);
     datagram_server := [] |}.

(** The constructor of bacpypes' [Application] called without a device, as
    [__init__] calls it: it creates [objectName] and [objectIdentifier] anew,
    both empty, and assigns no other field of the model. *)
Definition stock_Application_init (self : BACnetApp) : BACnetApp :=
  update_registry self [] [] (localDevice self).

(** The same device and objects after that constructor: the device is the
    first entry of its object list and is in neither dictionary. *)
Definition loaded_app : BACnetApp :=
  {| _response := None;
     _response_service := None;
     localDevice := append_object (append_object example_device ("binaryInput", 12))
                                  ("analogInput", 14);
     objectName := [ ("BI 01", example_BI); ("AI 01", example_AI) ];
     objectIdentifier := [ (("binaryInput", 12), example_BI);
                           (("analogInput", 14), example_AI) ];
     deviceIdentifier := Some ("device", 36113);
     datagram_server := [] |}.

Definition example_address : SockAddr := ("192.0.2.7", 47808).

Definition request_of (b : RequestBody) : Request :=
  {| pduSource := None; req_apduInvokeID := None; body := b |}.

Definition who_is (low high : option Z) : Request :=
  request_of (ReqWhoIs {| WhoIsRequest.deviceInstanceRangeLowLimit := low;
                          WhoIsRequest.deviceInstanceRangeHighLimit := high |}).

Definition who_has (i : ObjectIdentifier) : Request :=
  request_of (ReqWhoHas {| WhoHasRequest.deviceInstanceRangeLowLimit := None;
                           WhoHasRequest.deviceInstanceRangeHighLimit := None;
                           WhoHasRequest.object_objectIdentifier := Some i;
                           WhoHasRequest.object_objectName := None |}).

Definition read_property (i : ObjectIdentifier) (pid : PropertyIdentifier) : Request :=
  request_of (ReqReadProperty {| ReadPropertyRequest.objectIdentifier := Some i;
                                 ReadPropertyRequest.propertyIdentifier := pid;
                                 ReadPropertyRequest.propertyArrayIndex := None |}).

Definition read_property_multiple (specs : list ReadAccessSpecification.t) : Request :=
  request_of (ReqReadPropertyMultiple
                {| ReadPropertyMultipleRequest.listOfReadAccessSpecs := Some specs |}).

Definition property_reference (pid : PropertyIdentifier) : PropertyReference.t :=
  {| PropertyReference.propertyIdentifier := pid;
     PropertyReference.propertyArrayIndex := None |}.

(** Two read-access specifications: one for an analog input the device does
    not own, one for analog input 14. *)
Definition example_specs : list ReadAccessSpecification.t :=
  [ {| ReadAccessSpecification.objectIdentifier := ("analogInput", 99);
       ReadAccessSpecification.listOfPropertyReferences :=
         [property_reference "presentValue"; property_reference "all"] |};
    {| ReadAccessSpecification.objectIdentifier := ("analogInput", 14);
       ReadAccessSpecification.listOfPropertyReferences :=
         [property_reference "presentValue"] |} ].

(** ** Loading the template

    [get_objects_and_properties] reads the template through lxml and builds
    the objects through bacpypes; what is embedded of it is what it computes
    itself: the property key it derives from a tag, the class name it derives
    from an object type, the object type it carries from one object to the
    next, and the calls of [add_object] it makes.  The string methods are
    those of Python on ASCII text. *)

Definition is_lower (c : Ascii.ascii) : bool :=
  (97 <=? Ascii.nat_of_ascii c)%nat && (Ascii.nat_of_ascii c <=? 122)%nat.

Definition is_upper (c : Ascii.ascii) : bool :=
  (65 <=? Ascii.nat_of_ascii c)%nat && (Ascii.nat_of_ascii c <=? 90)%nat.

Definition lower_char (c : Ascii.ascii) : Ascii.ascii :=
  if is_upper c then Ascii.ascii_of_nat (Ascii.nat_of_ascii c + 32) else c.

Definition upper_char (c : Ascii.ascii) : Ascii.ascii :=
  if is_lower c then Ascii.ascii_of_nat (Ascii.nat_of_ascii c - 32) else c.

(** [str.lower]. *)
Fixpoint lower (s : string) : string :=
  match s with
  | EmptyString => EmptyString
  | String c rest => String (lower_char c) (lower rest)
  end.

(** [str.title]: a cased character is put in upper case when the character
    before it is not cased, in lower case when it is. *)
Fixpoint title_from (previous_is_cased : bool) (s : string) : string :=
  match s with
  | EmptyString => EmptyString
  | String c rest =>
      if is_lower c || is_upper c then
        String (if previous_is_cased then lower_char c else upper_char c)
               (title_from true rest)
      else String c (title_from false rest)
  end.

Definition title (s : string) : string := title_from false s.

(** [re.sub] of a pattern that is one character class by the empty string. *)
Fixpoint re_sub_delete (cls : list Ascii.ascii) (s : string) : string :=
  match s with
  | EmptyString => EmptyString
  | String c rest =>
      if existsb (Ascii.eqb c) cls then re_sub_delete cls rest
      else String c (re_sub_delete cls rest)
  end.

(** [re.sub(a, b, s)] for two single characters. *)
Fixpoint re_sub_char (a b : Ascii.ascii) (s : string) : string :=
  match s with
  | EmptyString => EmptyString
  | String c rest => String (if Ascii.eqb c a then b else c) (re_sub_char a b rest)
  end.

(** The class of the pattern ["['_','-']"]: the quote, the underscore, the
    comma, and the range from the quote to the quote that ['-'] denotes
    inside brackets.  The hyphen is not a member. *)
Definition key_class : list Ascii.ascii := ["'"; "_"; ","]%char.

(** [prop_key = prop.tag.lower().title()], then
    [re.sub] of the pattern ["['_','-']"] by the empty string, then
    [prop_key[0].lower() + prop_key[1:]], which indexes an empty string
    when nothing is left. *)
Definition prop_key_of (tag : string) : outcome string :=
  let prop_key := title (lower tag) in
  let prop_key := re_sub_delete key_class prop_key in
  match prop_key with
  | EmptyString => Raise IndexError
  | String c rest => Return (String (lower_char c) rest)
  end.

(** [re.sub("-", " ", prop.text).lower().title()], then
    [re.sub] of the space by the empty string and [+ "Object"]: the name of the bacpypes
    class. *)
Definition object_type_of (text : string) : string :=
  re_sub_delete [" "%char] (title (lower (re_sub_char "-" " " text))) ++ "Object".

(** The first loop over the properties of one object, each given by its tag
    and its text: [object_type], a variable of the whole function, is
    assigned at each property whose tag is [object_type] and keeps its value
    otherwise, also from the object before. *)
Fixpoint object_type_after (object_type : option string) (property_list : list (string * string))
  : option string :=
  match property_list with
  | [] => object_type
  | (tag, text) :: rest =>
      if String.eqb tag "object_type"
      then object_type_after (Some (object_type_of text)) rest
      else object_type_after object_type rest
  end.

(** The calls [self.add_object(device_object)] of the loop over the objects
    of the template, in order; the first that raises ends the loading. *)
Fixpoint add_objects (self : BACnetApp) (objs : list Obj.t) : outcome BACnetApp :=
  match objs with
  | [] => Return self
  | obj :: rest => self' <- add_object self obj ;; add_objects self' rest
  end.

(** The words of a tag: a capital on the first letter, and the words joined
    by a separator. *)
Definition capitalize (w : string) : string :=
  match w with
  | EmptyString => EmptyString
  | String c rest => String (upper_char c) rest
  end.

Fixpoint all_lower (w : string) : bool :=
  match w with
  | EmptyString => true
  | String c rest => is_lower c && all_lower rest
  end.

Definition is_word (w : string) : bool :=
  match w with
  | EmptyString => false
  | String _ _ => all_lower w
  end.

Fixpoint join (sep : string) (words : list string) : string :=
  match words with
  | [] => EmptyString
  | [w] => w
  | w :: rest => w ++ sep ++ join sep rest
  end.

(** The dictionaries and the object list of the device name the same
    objects: the keys of the identifier dictionary are the object list, in
    order and without repetition, and no name is registered twice. *)
Definition consistent (self : BACnetApp) : Prop :=
  map fst (objectIdentifier self) = Device.objectList (localDevice self) /\
  NoDup (map fst (objectIdentifier self)) /\
  NoDup (map fst (objectName self)).

(** The example library with a reader that, like the one of bacpypes,
    refuses an array index on a property that is not an array. *)
Definition indexing_library (decoded : Request * option exn) : Bacpypes :=
  {| apdu_types := table_get stock_apdu_types;
     confirmed_request_types := table_get stock_confirmed_request_types;
     unconfirmed_request_types := table_get stock_unconfirmed_request_types;
     ConfirmedServiceChoice := stock_ConfirmedServiceChoice;
     UnconfirmedServiceChoice := stock_UnconfirmedServiceChoice;
     decode := fun _ _ => decoded;
     read_property_to_any := fun o pid idx =>
       match idx with
       | Some _ => Raise (ExecutionError "property" "propertyIsNotAnArray")
       | None => example_read_property_to_any o pid idx
       end;
     get_datatype := fun _ pid => Return (example_datatype pid);
     read_property_to_result_element := example_read_property_to_result_element |}.

(** The fields of the application that describe the device: the handlers
    and the dispatcher only read them. *)
Definition same_store (self self' : BACnetApp) : Prop :=
  localDevice self' = localDevice self /\
  objectName self' = objectName self /\
  objectIdentifier self' = objectIdentifier self /\
  deviceIdentifier self' = deviceIdentifier self /\
  datagram_server self' = datagram_server self.

(** ** Notions of the specification *)

(** The kinds of address that reach every station of a network. *)
Definition is_broadcast (a : Address) : bool :=
  match addrType a with
  | localBroadcastAddr | remoteBroadcastAddr | globalBroadcastAddr => true
  | _ => false
  end.

(** The device's instance number lies within [[low, high]]. *)
Definition within_range (low high inst : Z) : Prop := low <= inst <= high.

(** Resolution of a Read-Property target as the specification words it: the
    identifier of an object of the device's list (the device's own identifier
    is its first entry), or the device wildcard [("device", 4194303)]. *)
Definition names_object_or_device (device : Device.t) (rid : ObjectIdentifier) : bool :=
  existsb (oid_eqb rid) (Device.objectList device) || oid_eqb rid ("device", 4194303).

(** Every object of the list after the device itself is in the identifier
    dictionary: what [add_object] maintains. *)
Definition registered (self : BACnetApp) (device : Device.t) : Prop :=
  forall oid, In oid (Device.objectList_value_2 device) ->
    dict_contains (objectIdentifier self) oid = true.

(** A specification designates no object: neither the wildcard, nor the
    device, nor an entry of the list after it. *)
Definition unresolved (self : BACnetApp) (device : Device.t) (oid : ObjectIdentifier) : Prop :=
  oid <> ("device", 4194303) /\
  oid <> Obj.objectIdentifier (Device.base (localDevice self)) /\
  ~ In oid (Device.objectList_value_2 device).

(** The library reads a property of no object as an unknown-object access
    error, returned as an element or raised. *)
Definition reads_nothing_as_unknownObject (lib : Bacpypes) : Prop :=
  forall pid idx,
    (exists e, read_property_to_result_element lib None pid idx = Raise e) \/
    read_property_to_result_element lib None pid idx
      = Return (unknownObject_element pid idx).



(** * Properties *)

(** ** Equality tests *)

Lemma oid_eqb_eq (a b : ObjectIdentifier) : oid_eqb a b = true <-> a = b.
Proof.
  destruct a as [ta ia], b as [tb ib]; unfold oid_eqb; cbn [fst snd].
  rewrite andb_true_iff, String.eqb_eq, Z.eqb_eq.
  split; [intros [-> ->]; reflexivity | intros E; injection E; auto].
Qed.

Lemma oid_eqb_refl (a : ObjectIdentifier) : oid_eqb a a = true.
Proof. apply oid_eqb_eq; reflexivity. Qed.

Lemma oid_eqb_neq (a b : ObjectIdentifier) : oid_eqb a b = false <-> a <> b.
Proof.
  rewrite <- oid_eqb_eq. destruct (oid_eqb a b); split; intros H; congruence.
Qed.

(** The test of the loop of [whoHas] is equality of identifiers. *)
Lemma whoHas_test_eq (rid obj : ObjectIdentifier) :
  ((snd rid =? snd obj)%Z && String.eqb (fst rid) (fst obj))%bool = true <-> rid = obj.
Proof.
  destruct rid as [t i], obj as [t' i']; cbn [fst snd].
  rewrite andb_true_iff, String.eqb_eq, Z.eqb_eq.
  split; [intros [-> ->]; reflexivity | intros E; injection E; auto].
Qed.

Lemma dict_contains_get {V : Type} (d : list (ObjectIdentifier * V)) (k : ObjectIdentifier) :
  dict_contains d k = true -> exists v, dict_get d k = Some v.
Proof.
  unfold dict_contains. destruct (dict_get d k) as [v|]; [eauto | discriminate].
Qed.

(** ** The range filter *)

(** With both limits present the handler stays silent in one case only: the
    instance number strictly below the low limit and strictly above the high
    one. *)
Lemma execute_flag_paired (self : BACnetApp) (r : WhoIsRequest.t) src ik (lo hi inst : Z) :
  WhoIsRequest.deviceInstanceRangeLowLimit r = Some lo ->
  WhoIsRequest.deviceInstanceRangeHighLimit r = Some hi ->
  first_key_instance self = Return inst ->
  execute_flag self {| pduSource := src; req_apduInvokeID := ik; body := ReqWhoIs r |}
    = Return (negb ((lo >? inst)%Z && (inst >? hi)%Z)).
Proof.
  intros Hlo Hhi Hinst.
  unfold execute_flag, range_check, get_deviceInstanceRangeLowLimit,
    get_deviceInstanceRangeHighLimit; cbn [body bind].
  rewrite Hlo, Hhi, Hinst; cbn [bind].
  destruct ((lo >? inst)%Z && (inst >? hi)%Z)%bool; reflexivity.
Qed.

(** A range whose limits are in order never silences the handler, wherever
    the instance number lies. *)
Lemma execute_flag_ordered_limits (self : BACnetApp) (r : WhoIsRequest.t) src ik
    (lo hi inst : Z) :
  WhoIsRequest.deviceInstanceRangeLowLimit r = Some lo ->
  WhoIsRequest.deviceInstanceRangeHighLimit r = Some hi ->
  first_key_instance self = Return inst ->
  lo <= hi ->
  execute_flag self {| pduSource := src; req_apduInvokeID := ik; body := ReqWhoIs r |}
    = Return true.
Proof.
  intros Hlo Hhi Hinst Hord.
  rewrite (execute_flag_paired self r src ik lo hi inst Hlo Hhi Hinst).
  f_equal. apply negb_true_iff, andb_false_iff.
  destruct (Z.gtb_spec lo inst) as [H1|H1]; [right | left; reflexivity].
  destruct (Z.gtb_spec inst hi) as [H2|H2]; [lia | reflexivity].
Qed.

(** C1, the code at the failing input: a Who-Is for the range [[100, 200]]
    sent to the device of instance 36113, which the range excludes, is
    answered with an I-Am all the same. *)
Theorem whoIs_answers_a_range_that_excludes_the_device :
  first_key_instance example_app = Return 36113 /\
  ~ within_range 100 200 36113 /\
  exists self' r,
    whoIs example_app (who_is (Some 100) (Some 200)) example_address None
          (localDevice example_app) = Return self' /\
    _response self' = Some (RespIAm r) /\
    IAmRequest.iAmDeviceIdentifier r = Some ("device", 36113).
Proof.
  split; [reflexivity|]. split; [unfold within_range; lia|].
  eexists. eexists. split; [reflexivity|]. split; reflexivity.
Qed.

(** ** Who-Is *)

(** C7 as stated fails: the I-Am answering the Who-Is of the reference
    scenario is addressed to the requesting station, not to a broadcast
    address. *)
Lemma whoIs_iAm_is_not_broadcast :
  exists self' r,
    whoIs example_app (who_is (Some 500) (Some 50000)) example_address None
          (localDevice example_app) = Return self' /\
    _response self' = Some (RespIAm r) /\
    IAmRequest.pduDestination r = LocalStation "192.0.2.7" 47808 /\
    is_broadcast (IAmRequest.pduDestination r) = false.
Proof.
  eexists. eexists. split; [reflexivity|]. repeat split; reflexivity.
Qed.

(** C7, amended: a Who-Is that executes is answered with an I-Am that carries
    the device identifier, the maximum APDU length accepted, the segmentation
    supported and the vendor identifier of the device, and whose destination
    is the station address of the requester. *)
Theorem whoIs_iAm_contents (self : BACnetApp) (request : Request) (address : SockAddr)
    (invoke_key : option Z) (device : Device.t) :
  execute_flag self request = Return true ->
  exists self' r,
    whoIs self request address invoke_key device = Return self' /\
    _response self' = Some (RespIAm r) /\
    IAmRequest.iAmDeviceIdentifier r = deviceIdentifier self /\
    IAmRequest.maxAPDULengthAccepted r = Device.maxApduLengthAccepted (localDevice self) /\
    IAmRequest.segmentationSupported r = Device.segmentationSupported (localDevice self) /\
    IAmRequest.vendorID r = Device.vendorIdentifier (localDevice self) /\
    IAmRequest.pduDestination r = PduAddress address /\
    addrType (IAmRequest.pduDestination r) = localStationAddr.
Proof.
  intros Hex. unfold whoIs. rewrite Hex; cbn [bind].
  eexists. eexists. split; [reflexivity|]. cbn. repeat split; reflexivity.
Qed.

Lemma whoIs_iAm_contents_witness :
  execute_flag example_app (who_is None None) = Return true /\
  exists self' r,
    whoIs example_app (who_is None None) example_address None (localDevice example_app)
      = Return self' /\
    _response self' = Some (RespIAm r) /\
    IAmRequest.iAmDeviceIdentifier r = deviceIdentifier example_app /\
    IAmRequest.maxAPDULengthAccepted r = Device.maxApduLengthAccepted (localDevice example_app) /\
    IAmRequest.segmentationSupported r = Device.segmentationSupported (localDevice example_app) /\
    IAmRequest.vendorID r = Device.vendorIdentifier (localDevice example_app) /\
    IAmRequest.pduDestination r = PduAddress example_address /\
    addrType (IAmRequest.pduDestination r) = localStationAddr.
Proof.
  split; [reflexivity|].
  apply (whoIs_iAm_contents example_app (who_is None None) example_address None
           (localDevice example_app)).
  reflexivity.
Defined.

(** ** Who-Has *)

Section WhoHas.

Variables (self : BACnetApp) (address : SockAddr).
Variables (r : WhoHasRequest.t) (src : option Address) (ik : option Z).
Variable rid : ObjectIdentifier.

Let request : Request := {| pduSource := src; req_apduInvokeID := ik; body := ReqWhoHas r |}.

Hypothesis by_identifier : WhoHasRequest.object_objectIdentifier r = Some rid.

(** The loop passes over the entries that differ from the reference. *)
Lemma whoHas_loop_skip (before rest : list ObjectIdentifier) :
  (forall x, In x before -> x <> rid) ->
  whoHas_loop self request address (before ++ rest)%list
    = whoHas_loop self request address rest.
Proof.
  induction before as [|x before IH]; intros Hne; [reflexivity|].
  cbn [app whoHas_loop]. unfold get_object_objectIdentifier at 1; cbn [body request bind].
  rewrite by_identifier.
  destruct ((snd rid =? snd x)%Z && String.eqb (fst rid) (fst x))%bool eqn:E.
  - apply whoHas_test_eq in E. exfalso. apply (Hne x); [left; reflexivity | congruence].
  - apply IH. intros y Hy. apply Hne. right; exact Hy.
Qed.

Lemma whoHas_loop_hit (after : list ObjectIdentifier) (o : Obj.t) :
  dict_get (objectIdentifier self) rid = Some o ->
  whoHas_loop self request address (rid :: after)
    = Return (set_response (set_response_service self "IHaveRequest")
                (Some (RespIHave
                  {| IHaveRequest.pduDestination := PduAddress address;
                     IHaveRequest.deviceIdentifier := deviceIdentifier self;
                     IHaveRequest.objectIdentifier := snd rid;
                     IHaveRequest.objectName := Obj.objectName o |}))).
Proof.
  intros Hget. cbn [whoHas_loop]. unfold get_object_objectIdentifier; cbn [body request bind].
  rewrite by_identifier.
  rewrite (proj2 (whoHas_test_eq rid rid) eq_refl).
  unfold dict_getitem. rewrite Hget. reflexivity.
Qed.

Lemma whoHas_loop_miss (objs : list ObjectIdentifier) :
  (forall x, In x objs -> x <> rid) ->
  whoHas_loop self request address objs = Return self.
Proof.
  intros Hne. rewrite <- (app_nil_r objs). rewrite whoHas_loop_skip by exact Hne. reflexivity.
Qed.

End WhoHas.

(** C8, amended: a Who-Has that passes the range filter walks the object list
    of the device after the device's own entry; at the first object whose
    identifier is the one requested it answers I-Have with the device
    identifier, the instance number of that object and the name registered for
    it, and when no object there has that identifier it writes no response at
    all: the application is left as it was. *)
Theorem whoHas_first_match_or_nothing (self : BACnetApp) (r : WhoHasRequest.t)
    (src : option Address) (ik : option Z) (address : SockAddr) (invoke_key : option Z)
    (device : Device.t) (rid : ObjectIdentifier) :
  let request := {| pduSource := src; req_apduInvokeID := ik; body := ReqWhoHas r |} in
  WhoHasRequest.object_objectIdentifier r = Some rid ->
  execute_flag self request = Return true ->
  (forall (before after : list ObjectIdentifier) (o : Obj.t),
      Device.objectList_value_2 device = (before ++ rid :: after)%list ->
      ~ In rid before ->
      dict_get (objectIdentifier self) rid = Some o ->
      exists self' m,
        whoHas self request address invoke_key device = Return self' /\
        _response self' = Some (RespIHave m) /\
        IHaveRequest.deviceIdentifier m = deviceIdentifier self /\
        IHaveRequest.objectIdentifier m = snd rid /\
        IHaveRequest.objectName m = Obj.objectName o) /\
  (~ In rid (Device.objectList_value_2 device) ->
      whoHas self request address invoke_key device = Return self /\
      (_response self = None -> forall self',
          whoHas self request address invoke_key device = Return self' ->
          _response self' = None)).
Proof.
  intros request Hid Hex. split.
  - intros before after o Hlist Hfirst Hget.
    unfold whoHas. rewrite Hex; cbn [bind]. rewrite Hlist.
    unfold request. rewrite (whoHas_loop_skip self address r src ik rid Hid).
    + rewrite (whoHas_loop_hit self address r src ik rid Hid after o Hget).
      eexists. eexists. split; [reflexivity|]. cbn. repeat split; reflexivity.
    + intros x Hx E. apply Hfirst. rewrite <- E. exact Hx.
  - intros Hnone.
    assert (Hrun : whoHas self request address invoke_key device = Return self).
    { unfold whoHas. rewrite Hex; cbn [bind].
      apply (whoHas_loop_miss self address r src ik rid Hid).
      intros x Hx E. apply Hnone. rewrite <- E. exact Hx. }
    split; [exact Hrun|].
    intros Hempty self' Hrun'. rewrite Hrun in Hrun'. injection Hrun' as <-. exact Hempty.
Qed.

Lemma whoHas_first_match_or_nothing_witness :
  (exists self' m,
      whoHas example_app (who_has ("binaryInput", 12)) example_address None
             (localDevice example_app) = Return self' /\
      _response self' = Some (RespIHave m) /\
      IHaveRequest.deviceIdentifier m = Some ("device", 36113) /\
      IHaveRequest.objectIdentifier m = 12 /\
      IHaveRequest.objectName m = "BI 01") /\
  whoHas example_app (who_has ("analogValue", 3)) example_address None
         (localDevice example_app) = Return example_app.
Proof.
  split.
  - apply (proj1 (whoHas_first_match_or_nothing example_app
                    {| WhoHasRequest.deviceInstanceRangeLowLimit := None;
                       WhoHasRequest.deviceInstanceRangeHighLimit := None;
                       WhoHasRequest.object_objectIdentifier := Some ("binaryInput", 12);
                       WhoHasRequest.object_objectName := None |}
                    None None example_address None
                    (localDevice example_app) ("binaryInput", 12) eq_refl eq_refl)
             [] [("analogInput", 14)] example_BI).
    + reflexivity.
    + intros [].
    + reflexivity.
  - apply (proj2 (whoHas_first_match_or_nothing example_app
                    {| WhoHasRequest.deviceInstanceRangeLowLimit := None;
                       WhoHasRequest.deviceInstanceRangeHighLimit := None;
                       WhoHasRequest.object_objectIdentifier := Some ("analogValue", 3);
                       WhoHasRequest.object_objectName := None |}
                    None None example_address None
                    (localDevice example_app) ("analogValue", 3) eq_refl eq_refl)).
    cbn. intros [E|[E|[]]]; discriminate E.
Defined.

(** C8 as stated fails on the word "entire": the device's own identifier is
    the first entry of its object list and is registered under its name, yet
    a Who-Has for it, which passes the filter, is not answered. *)
Lemma whoHas_skips_the_device_entry :
  In ("device", 36113) (Device.objectList (localDevice example_app)) /\
  dict_get (objectIdentifier example_app) ("device", 36113) = Some example_device_object /\
  execute_flag example_app (who_has ("device", 36113)) = Return true /\
  whoHas example_app (who_has ("device", 36113)) example_address None
         (localDevice example_app) = Return example_app /\
  _response example_app = None.
Proof.
  split; [left; reflexivity|]. repeat split; reflexivity.
Qed.

(** ** Read-Property *)

Section ReadProperty.

Variable lib : Bacpypes.
Variables (self : BACnetApp) (address : SockAddr) (invoke_key : option Z).
Variables (r : ReadPropertyRequest.t) (src : option Address) (ik : option Z).
Variable rid : ObjectIdentifier.

Let request : Request :=
  {| pduSource := src; req_apduInvokeID := ik; body := ReqReadProperty r |}.

Hypothesis target_given : ReadPropertyRequest.objectIdentifier r = Some rid.

(** The loop stops at the first entry its test accepts. *)
Lemma readProperty_loop_found (objs : list ObjectIdentifier) (obj : ObjectIdentifier) :
  find (readProperty_match rid) objs = Some obj ->
  readProperty_loop lib self request address invoke_key objs
    = if dict_contains (objectIdentifier self) obj then
        o <- dict_getitem (objectIdentifier self) obj ;;
        readProperty_answer lib self request address invoke_key obj o (Some (Obj.objectName o))
      else
        readProperty_answer lib self request address invoke_key obj
          (Device.base (localDevice self)) None.
Proof.
  induction objs as [|x objs IH]; cbn [find]; [discriminate|].
  intros Hfind. cbn [readProperty_loop].
  unfold get_objectIdentifier at 1; cbn [body request bind]. rewrite target_given.
  destruct (readProperty_match rid x) eqn:E.
  - injection Hfind as ->. reflexivity.
  - apply IH, Hfind.
Qed.

(** With no entry accepted, the [else] clause of the loop answers. *)
Lemma readProperty_loop_not_found (objs : list ObjectIdentifier) :
  find (readProperty_match rid) objs = None ->
  readProperty_loop lib self request address invoke_key objs
    = Return (set_response self (Some (unknownObject_Error request))).
Proof.
  induction objs as [|x objs IH]; cbn [find readProperty_loop];
    unfold get_objectIdentifier at 1; cbn [body request bind]; rewrite target_given.
  - reflexivity.
  - destruct (readProperty_match rid x) eqn:E; [discriminate|]. exact IH.
Qed.

(** The answer on an unknown property whose datatype the object declares. *)
Lemma readProperty_answer_null (obj : ObjectIdentifier) (target : Obj.t) (name : option string)
    (cls : string) (d : Datatype) :
  read_property_to_any lib target (ReadPropertyRequest.propertyIdentifier r)
    (ReadPropertyRequest.propertyArrayIndex r) = Raise (ExecutionError cls "unknownProperty") ->
  get_datatype lib target (ReadPropertyRequest.propertyIdentifier r) = Return (Some d) ->
  readProperty_answer lib self request address invoke_key obj target name
    = Return (set_response (set_response_service self "ComplexAckPDU")
        (Some (RespReadPropertyACK
          {| ReadPropertyACK.pduDestination := PduAddress address;
             ReadPropertyACK.apduInvokeID := invoke_key;
             ReadPropertyACK.objectIdentifier := obj;
             ReadPropertyACK.objectName := name;
             ReadPropertyACK.propertyIdentifier := ReadPropertyRequest.propertyIdentifier r;
             ReadPropertyACK.propertyValue := AnyCastNone d |}))).
Proof.
  intros Hread Hdt. unfold readProperty_answer, get_propertyIdentifier, get_propertyArrayIndex.
  cbn [body request bind]. unfold read_or_null. rewrite Hread.
  cbn [String.eqb Ascii.eqb Bool.eqb]. rewrite Hdt. reflexivity.
Qed.

End ReadProperty.

Lemma find_none_iff {A : Type} (f : A -> bool) (l : list A) :
  find f l = None <-> forall x, In x l -> f x = false.
Proof.
  split.
  - intros H x Hx. exact (find_none f l H x Hx).
  - induction l as [|a l IH]; intros H; [reflexivity|]. cbn [find].
    rewrite (H a (or_introl eq_refl)). apply IH. intros x Hx. apply H. right; exact Hx.
Qed.

(** The test of the loop of [readProperty] fails exactly when the types
    differ, or the instance is neither the wildcard nor that of the entry. *)
Lemma readProperty_match_false (rid obj : ObjectIdentifier) :
  readProperty_match rid obj = false <->
  fst rid <> fst obj \/ (snd rid <> 4194303 /\ snd rid <> snd obj).
Proof.
  unfold readProperty_match.
  rewrite andb_false_iff, orb_false_iff, !Z.eqb_neq, <- String.eqb_neq. tauto.
Qed.

(** C3, the code at the failing input: [("analogInput", 4194303)] is neither
    the identifier of an object of the device nor the device wildcard, and
    Read-Property answers it with the present value of analog input 14, not
    with an error: the test of its loop accepts the instance number 4194303
    for an entry of any type.  Read-Property-Multiple, which compares with
    [('device', 4194303)], answers the same identifier with an unknown-object
    access error. *)
Theorem readProperty_wildcard_matches_any_type :
  names_object_or_device (localDevice example_app) ("analogInput", 4194303) = false /\
  (exists self' a,
     readProperty (example_library (who_is None None, None)) example_app
       (read_property ("analogInput", 4194303) "presentValue") example_address (Some 101)
       (localDevice example_app) = Return self' /\
     _response self' = Some (RespReadPropertyACK a) /\
     ReadPropertyACK.objectIdentifier a = ("analogInput", 14) /\
     ReadPropertyACK.propertyValue a = AnyValue "Real" "68.0") /\
  (exists self' ack,
     readPropertyMultiple (example_library (who_is None None, None)) example_app
       (read_property_multiple
          [ {| ReadAccessSpecification.objectIdentifier := ("analogInput", 4194303);
               ReadAccessSpecification.listOfPropertyReferences :=
                 [property_reference "presentValue"] |} ])
       example_address (Some 101) (localDevice example_app) = Return self' /\
     _response self' = Some (RespReadPropertyMultipleACK ack) /\
     ReadPropertyMultipleACK.listOfReadAccessResults ack
       = [ {| ReadAccessResult.objectIdentifier := ("analogInput", 4194303);
              ReadAccessResult.listOfResults :=
                [unknownObject_element "presentValue" None] |} ]).
Proof.
  split; [reflexivity|]. split.
  - eexists. eexists. split; [reflexivity|]. repeat split; reflexivity.
  - eexists. eexists. split; [reflexivity|]. split; reflexivity.
Qed.

(** The [else] clause of the loop of [readProperty]: when no entry of the
    object list passes the test of the loop, that is when each differs from
    the requested identifier by its type, or by its instance number while
    the requested one is not 4194303, the answer is Error with class
    "object" and code "unknownObject". *)
Lemma readProperty_unknown_object (lib : Bacpypes) (self : BACnetApp)
    (r : ReadPropertyRequest.t) (src : option Address) (ik : option Z) (address : SockAddr)
    (invoke_key : option Z) (device : Device.t) (rid : ObjectIdentifier) :
  let request := {| pduSource := src; req_apduInvokeID := ik; body := ReqReadProperty r |} in
  ReadPropertyRequest.objectIdentifier r = Some rid ->
  (forall obj, In obj (Device.objectList device) ->
     fst rid <> fst obj \/ (snd rid <> 4194303 /\ snd rid <> snd obj)) ->
  exists self' e,
    readProperty lib self request address invoke_key device = Return self' /\
    _response self' = Some (RespError e) /\
    Error.errorClass e = "object" /\
    Error.errorCode e = "unknownObject".
Proof.
  intros request Hid Hnone. unfold readProperty, Device.objectList_value_1.
  unfold request. rewrite (readProperty_loop_not_found lib self address invoke_key r src ik rid Hid).
  - eexists. eexists. split; [reflexivity|]. cbn. repeat split; reflexivity.
  - apply find_none_iff. intros x Hx. apply readProperty_match_false, Hnone, Hx.
Qed.

Lemma readProperty_unknown_object_witness :
  exists self' e,
    readProperty (example_library (who_is None None, None)) example_app
      (read_property ("analogInput", 15) "presentValue") example_address (Some 101)
      (localDevice example_app) = Return self' /\
    _response self' = Some (RespError e) /\
    Error.errorClass e = "object" /\
    Error.errorCode e = "unknownObject".
Proof.
  apply (readProperty_unknown_object (example_library (who_is None None, None)) example_app
           {| ReadPropertyRequest.objectIdentifier := Some ("analogInput", 15);
              ReadPropertyRequest.propertyIdentifier := "presentValue";
              ReadPropertyRequest.propertyArrayIndex := None |}
           None None example_address (Some 101) (localDevice example_app)
           ("analogInput", 15) eq_refl).
  cbn. intros obj [<-|[<-|[<-|[]]]]; cbn.
  - left; discriminate.
  - left; discriminate.
  - right; split; discriminate.
Defined.

(** C4: a Read-Property that resolves to an entry of the object list (an
    object of the dictionary, or else the root device) and names a property
    the object does not hold, for which the reader raises [unknownProperty],
    is answered with a Read-Property-Ack whose value is the empty value of the
    datatype declared for that property; the response is not an Error. *)
Theorem readProperty_unknown_property_null_ack (lib : Bacpypes) (self : BACnetApp)
    (r : ReadPropertyRequest.t) (src : option Address) (ik : option Z) (address : SockAddr)
    (invoke_key : option Z) (device : Device.t) (rid obj : ObjectIdentifier)
    (target : Obj.t) (cls : string) (d : Datatype) :
  let request := {| pduSource := src; req_apduInvokeID := ik; body := ReqReadProperty r |} in
  ReadPropertyRequest.objectIdentifier r = Some rid ->
  find (readProperty_match rid) (Device.objectList device) = Some obj ->
  target = match dict_get (objectIdentifier self) obj with
           | Some o => o
           | None => Device.base (localDevice self)
           end ->
  read_property_to_any lib target (ReadPropertyRequest.propertyIdentifier r)
    (ReadPropertyRequest.propertyArrayIndex r) = Raise (ExecutionError cls "unknownProperty") ->
  get_datatype lib target (ReadPropertyRequest.propertyIdentifier r) = Return (Some d) ->
  exists self' a,
    readProperty lib self request address invoke_key device = Return self' /\
    _response self' = Some (RespReadPropertyACK a) /\
    ReadPropertyACK.objectIdentifier a = obj /\
    ReadPropertyACK.propertyIdentifier a = ReadPropertyRequest.propertyIdentifier r /\
    ReadPropertyACK.propertyValue a = AnyCastNone d /\
    (forall e, _response self' <> Some (RespError e)).
Proof.
  intros request Hid Hfind Htarget Hread Hdt.
  unfold readProperty, Device.objectList_value_1, request.
  rewrite (readProperty_loop_found lib self address invoke_key r src ik rid Hid _ obj Hfind).
  unfold dict_contains, dict_getitem.
  destruct (dict_get (objectIdentifier self) obj) as [o|]; subst target; cbn [bind];
    rewrite (readProperty_answer_null lib self address invoke_key r src ik obj _ _ cls d Hread Hdt);
    eexists; eexists; (split; [reflexivity|]); cbn; repeat split; try reflexivity;
    intros e; discriminate.
Qed.

Lemma readProperty_unknown_property_null_ack_witness :
  exists self' a,
    readProperty (example_library (who_is None None, None)) example_app
      (read_property ("analogInput", 14) "description") example_address (Some 101)
      (localDevice example_app) = Return self' /\
    _response self' = Some (RespReadPropertyACK a) /\
    ReadPropertyACK.objectIdentifier a = ("analogInput", 14) /\
    ReadPropertyACK.propertyIdentifier a = "description" /\
    ReadPropertyACK.propertyValue a = AnyCastNone "CharacterString" /\
    (forall e, _response self' <> Some (RespError e)).
Proof.
  apply (readProperty_unknown_property_null_ack
           (example_library (who_is None None, None)) example_app
           {| ReadPropertyRequest.objectIdentifier := Some ("analogInput", 14);
              ReadPropertyRequest.propertyIdentifier := "description";
              ReadPropertyRequest.propertyArrayIndex := None |}
           None None example_address (Some 101) (localDevice example_app)
           ("analogInput", 14) ("analogInput", 14) example_AI "property" "CharacterString");
    reflexivity.
Defined.

(** ** The indication dispatcher *)

(** An APDU whose class in [apdu_types] has a PDU type other than 0
    (confirmed request) and 1 (unconfirmed request) makes the dispatcher
    return with the response cleared, and with nothing else of the
    application changed: no handler has run, nothing was sent. *)
Lemma indication_ignores_non_requests (lib : Bacpypes) (self : BACnetApp) (apdu : APDU)
    (address : SockAddr) (device : Device.t) (apdu_type : ApduClass) :
  apdu_types lib (apduType apdu) = Some apdu_type ->
  pduType apdu_type <> 0 ->
  pduType apdu_type <> 1 ->
  exists self',
    indication lib self apdu address device = Return self' /\
    _response self' = None /\
    _response_service self' = _response_service self /\
    localDevice self' = localDevice self /\
    objectName self' = objectName self /\
    objectIdentifier self' = objectIdentifier self /\
    deviceIdentifier self' = deviceIdentifier self /\
    datagram_server self' = datagram_server self.
Proof.
  intros Hcls H0 H1. exists (set_response self None).
  split; [|cbn; repeat split; reflexivity].
  unfold indication. rewrite Hcls.
  apply Z.eqb_neq in H0. apply Z.eqb_neq in H1. rewrite H0, H1.
  repeat match goal with |- context [if ?b then _ else _] => destruct b end; reflexivity.
Qed.

Lemma indication_ignores_non_requests_witness :
  exists self',
    indication (example_library (who_is None None, None)) example_app
      {| apduType := 5; apduService := 12; apduInvokeID := Some 101; pduData := [] |}
      example_address (localDevice example_app) = Return self' /\
    _response self' = None /\
    _response_service self' = _response_service example_app /\
    localDevice self' = localDevice example_app /\
    objectName self' = objectName example_app /\
    objectIdentifier self' = objectIdentifier example_app /\
    deviceIdentifier self' = deviceIdentifier example_app /\
    datagram_server self' = datagram_server example_app.
Proof.
  apply (indication_ignores_non_requests (example_library (who_is None None, None))
           example_app
           {| apduType := 5; apduService := 12; apduInvokeID := Some 101; pduData := [] |}
           example_address (localDevice example_app)
           {| apdu_name := "ErrorPDU"; pduType := 5 |}).
  - reflexivity.
  - cbn; lia.
  - cbn; lia.
Defined.

(** A PDU type the table of the library does not list never reaches the
    branches of the dispatcher: the first log line raises. *)
Lemma indication_unlisted_type_raises (lib : Bacpypes) (self : BACnetApp) (apdu : APDU)
    (address : SockAddr) (device : Device.t) :
  apdu_types lib (apduType apdu) = None ->
  indication lib self apdu address device = Raise AttributeError.
Proof. intros H. unfold indication. rewrite H. reflexivity. Qed.

(** C2, the code at the failing input: an APDU of the reserved type 9 is not
    ignored.  [apdu_types] lists the types 0 to 7, so [apdu_types.get] gives
    [None] and the first log line, which reads [apdu_type.__name__], raises
    [AttributeError]: the dispatcher does not return, and the branch it has
    for the reserved types, which clears the response, is not reached.  The
    same holds of every reserved type, whatever the application, the service
    octet and the requester. *)
Theorem indication_raises_on_a_reserved_type :
  table_get stock_apdu_types 9 = None /\
  indication (example_library (who_is None None, None)) example_app
    {| apduType := 9; apduService := 8; apduInvokeID := None; pduData := [] |}
    example_address (localDevice example_app) = Raise AttributeError /\
  Forall (fun reserved =>
            forall (decoded : Request * option exn) (self : BACnetApp) (service : Z)
                   (invoke_id : option Z) (data : list Z) (address : SockAddr)
                   (device : Device.t),
              indication (example_library decoded) self
                {| apduType := reserved; apduService := service;
                   apduInvokeID := invoke_id; pduData := data |}
                address device = Raise AttributeError)
         [8; 9; 10; 11; 12; 13; 14; 15].
Proof.
  split; [reflexivity|]. split; [reflexivity|].
  repeat constructor; intros; reflexivity.
Qed.

(** C5 as stated fails: an unconfirmed Who-Is whose decoding stops on a
    [DecodingError] is not dropped; the handler runs on the request as far as
    it was decoded and an I-Am is left as the reply. *)
Lemma indication_answers_after_DecodingError :
  exists self' r,
    indication (example_library (who_is None None, Some DecodingError)) example_app
      {| apduType := 1; apduService := 8; apduInvokeID := None; pduData := [] |}
      example_address (localDevice example_app) = Return self' /\
    _response self' = Some (RespIAm r).
Proof. eexists. eexists. split; reflexivity. Qed.

(** C5, amended: when decoding the service arguments raises [AttributeError]
    or [RuntimeError] (or [InvalidParameterDatatype], for a confirmed
    request), the dispatcher returns without raising and without running a
    handler: nothing is sent, no response is left where none was pending, and
    for an unconfirmed request the response is cleared. *)
Theorem indication_drops_undecodable_request (lib : Bacpypes) (self : BACnetApp) (apdu : APDU)
    (address : SockAddr) (device : Device.t) (apdu_type : ApduClass)
    (apdu_service : ServiceClass) (request : Request) (e : exn) :
  apdu_types lib (apduType apdu) = Some apdu_type ->
  (pduType apdu_type = 0 /\
   confirmed_request_types lib (apduService apdu) = Some apdu_service /\
   (e = AttributeError \/ (exists msg, e = RuntimeError msg) \/ e = InvalidParameterDatatype))
  \/
  (pduType apdu_type = 1 /\
   unconfirmed_request_types lib (apduService apdu) = Some apdu_service /\
   (e = AttributeError \/ (exists msg, e = RuntimeError msg))) ->
  decode lib apdu_service apdu = (request, Some e) ->
  exists self',
    indication lib self apdu address device = Return self' /\
    (pduType apdu_type = 1 -> _response self' = None) /\
    (_response self = None -> _response self' = None) /\
    localDevice self' = localDevice self /\
    objectIdentifier self' = objectIdentifier self /\
    datagram_server self' = datagram_server self.
Proof.
  intros Hcls Hcase Hdec. unfold indication. rewrite Hcls.
  destruct Hcase as [(Ht & Hsvc & He) | (Ht & Hsvc & He)]; rewrite Ht; cbn [Z.eqb Pos.eqb].
  - unfold indication_confirmed. rewrite Hsvc, Hdec.
    assert (Hcaught : (is_AttributeError e || is_RuntimeError e
                       || is_InvalidParameterDatatype e)%bool = true)
      by (destruct He as [->|[[msg ->]| ->]]; reflexivity).
    rewrite Hcaught. exists self.
    split; [reflexivity|]. split; [intros Habs; discriminate Habs|].
    repeat split; auto.
  - unfold indication_unconfirmed. rewrite Hsvc, Hdec.
    assert (Hcaught : (is_AttributeError e || is_RuntimeError e)%bool = true)
      by (destruct He as [->|[msg ->]]; reflexivity).
    rewrite Hcaught. exists (set_response self None).
    split; [reflexivity|]. cbn. repeat split; reflexivity.
Qed.

Lemma indication_drops_undecodable_request_witness :
  (exists self',
     indication (example_library (read_property ("analogInput", 14) "presentValue",
                                  Some InvalidParameterDatatype))
       (set_response example_app None)
       {| apduType := 0; apduService := 12; apduInvokeID := Some 101; pduData := [] |}
       example_address (localDevice example_app) = Return self' /\
     _response self' = None /\ datagram_server self' = []) /\
  (exists self',
     indication (example_library (who_is None None, Some (RuntimeError "invalid tag")))
       example_app
       {| apduType := 1; apduService := 8; apduInvokeID := None; pduData := [] |}
       example_address (localDevice example_app) = Return self' /\
     _response self' = None /\ datagram_server self' = []).
Proof.
  split.
  - destruct (indication_drops_undecodable_request
                (example_library (read_property ("analogInput", 14) "presentValue",
                                  Some InvalidParameterDatatype))
                (set_response example_app None)
                {| apduType := 0; apduService := 12; apduInvokeID := Some 101; pduData := [] |}
                example_address (localDevice example_app)
                {| apdu_name := "ConfirmedRequestPDU"; pduType := 0 |}
                {| service_name := "ReadPropertyRequest"; serviceChoice := 12 |}
                (read_property ("analogInput", 14) "presentValue")
                InvalidParameterDatatype
                eq_refl
                (or_introl (conj eq_refl (conj eq_refl (or_intror (or_intror eq_refl)))))
                eq_refl)
      as (self' & Hrun & _ & Hkeep & _ & _ & Hsent).
    exists self'. split; [exact Hrun|]. split; [apply Hkeep; reflexivity | exact Hsent].
  - destruct (indication_drops_undecodable_request
                (example_library (who_is None None, Some (RuntimeError "invalid tag")))
                example_app
                {| apduType := 1; apduService := 8; apduInvokeID := None; pduData := [] |}
                example_address (localDevice example_app)
                {| apdu_name := "UnconfirmedRequestPDU"; pduType := 1 |}
                {| service_name := "WhoIsRequest"; serviceChoice := 8 |}
                (who_is None None)
                (RuntimeError "invalid tag")
                eq_refl
                (or_intror (conj eq_refl (conj eq_refl
                   (or_intror (ex_intro _ "invalid tag" eq_refl)))))
                eq_refl)
      as (self' & Hrun & Hclear & _ & _ & _ & Hsent).
    exists self'. split; [exact Hrun|]. split; [apply Hclear; reflexivity | exact Hsent].
Defined.

(** A service choice for which the library registers no request class is not
    decoded at all: the log line of the branch reads [apdu_service.__name__]
    on [None] and raises, before the loop over the enumeration. *)
Lemma indication_unregistered_service_raises (lib : Bacpypes) (self : BACnetApp) (apdu : APDU)
    (address : SockAddr) (device : Device.t) (apdu_type : ApduClass) :
  apdu_types lib (apduType apdu) = Some apdu_type ->
  (pduType apdu_type = 0 /\ confirmed_request_types lib (apduService apdu) = None) \/
  (pduType apdu_type = 1 /\ unconfirmed_request_types lib (apduService apdu) = None) ->
  indication lib self apdu address device = Raise AttributeError.
Proof.
  intros Hcls [[Ht Hsvc]|[Ht Hsvc]]; unfold indication; rewrite Hcls, Ht; cbn [Z.eqb Pos.eqb].
  - unfold indication_confirmed. rewrite Hsvc. reflexivity.
  - unfold indication_unconfirmed. rewrite Hsvc. reflexivity.
Qed.

(** The [else] clauses of the two loops over the enumerations, reached by a
    request of a registered class whose service choice the enumeration does
    not name: the confirmed one clears the response, the unconfirmed one
    builds an ErrorPDU for the requester.  An enumerated library has no such
    class. *)
Lemma indication_unnamed_service_choice (lib : Bacpypes) (self : BACnetApp) (apdu : APDU)
    (address : SockAddr) (device : Device.t) (apdu_type : ApduClass)
    (apdu_service : ServiceClass) (request : Request) :
  apdu_types lib (apduType apdu) = Some apdu_type ->
  decode lib apdu_service apdu = (request, None) ->
  (pduType apdu_type = 0 ->
   confirmed_request_types lib (apduService apdu) = Some apdu_service ->
   service_key (ConfirmedServiceChoice lib) (serviceChoice apdu_service) = None ->
   indication lib self apdu address device = Return (set_response self None))
  /\
  (pduType apdu_type = 1 ->
   unconfirmed_request_types lib (apduService apdu) = Some apdu_service ->
   service_key (UnconfirmedServiceChoice lib) (serviceChoice apdu_service) = None ->
   indication lib self apdu address device
     = Return (set_response (set_response_service self "ErrorPDU")
                 (Some (ErrorPDU_to address)))).
Proof.
  intros Hcls Hdec. split; intros Ht Hsvc Hkey; unfold indication; rewrite Hcls, Ht;
    cbn [Z.eqb Pos.eqb].
  - unfold indication_confirmed. rewrite Hsvc, Hdec, Hkey. reflexivity.
  - unfold indication_unconfirmed. rewrite Hsvc, Hdec, Hkey. reflexivity.
Qed.




(** ** The response transmitter *)

(** C10: for a response that has a destination, the transmitter sends one
    datagram, framed as Original-Unicast-NPDU when the destination is a local
    station and as Original-Broadcast-NPDU when it is the local broadcast
    address; for a destination of any other kind it raises [RuntimeError] and
    sends nothing. *)
Theorem response_frames_by_destination_kind (self : BACnetApp) (r : Response)
    (address : SockAddr) (destination : Address) :
  pduDestination r = Some destination ->
  match addrType destination with
  | localStationAddr =>
      exists d, response self (Some r) address = Return (sendto self d) /\
                bvlciFunction d = OriginalUnicastNPDU /\ payload d = r
  | localBroadcastAddr =>
      exists d, response self (Some r) address = Return (sendto self d) /\
                bvlciFunction d = OriginalBroadcastNPDU /\ payload d = r
  | _ => exists msg, response self (Some r) address = Raise (RuntimeError msg)
  end.
Proof.
  intros Hdest. unfold response. rewrite Hdest.
  destruct destination; cbn [addrType bind address_eqb];
    try (eexists; reflexivity);
    destruct (is_Reject_or_ErrorPDU r);
    eexists; (split; [reflexivity | split; reflexivity]).
Qed.

Lemma response_frames_by_destination_kind_witness :
  (exists d,
     response example_app
       (Some (RespErrorPDU {| ErrorPDU.pduDestination := PduAddress example_address |}))
       example_address = Return (sendto example_app d) /\
     bvlciFunction d = OriginalUnicastNPDU /\
     payload d = RespErrorPDU {| ErrorPDU.pduDestination := PduAddress example_address |}) /\
  (exists msg,
     response example_app
       (Some (RespErrorPDU {| ErrorPDU.pduDestination := GlobalBroadcast |}))
       example_address = Raise (RuntimeError msg)).
Proof.
  split.
  - apply (response_frames_by_destination_kind example_app
             (RespErrorPDU {| ErrorPDU.pduDestination := PduAddress example_address |})
             example_address (PduAddress example_address) eq_refl).
  - apply (response_frames_by_destination_kind example_app
             (RespErrorPDU {| ErrorPDU.pduDestination := GlobalBroadcast |})
             example_address GlobalBroadcast eq_refl).
Defined.

(** A response that is [None] sends nothing. *)
Lemma response_None (self : BACnetApp) (address : SockAddr) :
  response self None address = Return self.
Proof. reflexivity. Qed.

(** The transmitter sends only to a local station or to the local broadcast
    address. *)
Lemma response_sends_only_to_local_destinations (self self' : BACnetApp) (r : Response)
    (address : SockAddr) :
  response self (Some r) address = Return self' ->
  exists destination,
    pduDestination r = Some destination /\
    (addrType destination = localStationAddr \/ addrType destination = localBroadcastAddr).
Proof.
  unfold response. destruct (pduDestination r) as [destination|]; [|discriminate].
  intros Hrun. exists destination. split; [reflexivity|].
  destruct destination; cbn [addrType bind] in *; try discriminate Hrun; auto.
Qed.

(** ** Read-Property-Multiple *)

Section ReadPropertyMultiple.

Variable lib : Bacpypes.
Variables (self : BACnetApp) (device : Device.t).

Lemma find_oid_none (oid : ObjectIdentifier) (l : list ObjectIdentifier) :
  ~ In oid l -> find (oid_eqb oid) l = None.
Proof.
  intros Hnot. apply find_none_iff. intros x Hx. apply oid_eqb_neq.
  intros ->. exact (Hnot Hx).
Qed.

(** An unresolved identifier is kept and yields no object. *)
Lemma resolve_unresolved (oid : ObjectIdentifier) :
  unresolved self device oid -> resolve self device oid = Return (oid, None).
Proof.
  intros (Hwild & Hdev & Hlist). unfold resolve.
  rewrite (proj2 (oid_eqb_neq _ _) Hwild), (proj2 (oid_eqb_neq _ _) Hdev); cbn [orb].
  rewrite (find_oid_none oid _ Hlist). reflexivity.
Qed.

(** On a registered object list the resolution never raises. *)
Lemma resolve_returns (oid : ObjectIdentifier) :
  registered self device -> exists r, resolve self device oid = Return r.
Proof.
  intros Hreg. unfold resolve.
  destruct (oid_eqb oid ("device", 4194303) || oid_eqb oid _)%bool; [eauto|].
  destruct (find (oid_eqb oid) (Device.objectList_value_2 device)) as [device_obj|] eqn:Hfind;
    [|eauto].
  apply find_some in Hfind. destruct Hfind as [Hin _].
  destruct (dict_contains_get _ _ (Hreg device_obj Hin)) as [o Ho].
  unfold dict_getitem. rewrite Ho. cbn [bind]. eauto.
Qed.

Hypothesis library_reads_nothing : reads_nothing_as_unknownObject lib.

(** Without an object, a property reference yields one unknown-object
    element, selector or not. *)
Lemma reference_results_no_object (ref : PropertyReference.t) :
  reference_results lib None ref
    = [unknownObject_element (PropertyReference.propertyIdentifier ref)
                             (PropertyReference.propertyArrayIndex ref)].
Proof.
  unfold reference_results.
  destruct (is_selector (PropertyReference.propertyIdentifier ref)); [reflexivity|].
  unfold read_element.
  destruct (library_reads_nothing (PropertyReference.propertyIdentifier ref)
              (PropertyReference.propertyArrayIndex ref)) as [[e He] | He];
    rewrite He; reflexivity.
Qed.

Lemma flat_map_no_object (refs : list PropertyReference.t) :
  flat_map (reference_results lib None) refs
    = map (fun ref => unknownObject_element (PropertyReference.propertyIdentifier ref)
                                            (PropertyReference.propertyArrayIndex ref)) refs.
Proof.
  induction refs as [|ref refs IH]; [reflexivity|].
  cbn [flat_map map]. rewrite reference_results_no_object, IH. reflexivity.
Qed.

(** The loop returns one result per specification, in order. *)
Lemma readPropertyMultiple_loop_results (specs : list ReadAccessSpecification.t) :
  registered self device ->
  exists results,
    readPropertyMultiple_loop lib self device specs = Return results /\
    Forall2 (fun spec result =>
               unresolved self device (ReadAccessSpecification.objectIdentifier spec) ->
               ReadAccessResult.objectIdentifier result
                 = ReadAccessSpecification.objectIdentifier spec /\
               ReadAccessResult.listOfResults result
                 = map (fun ref =>
                          unknownObject_element (PropertyReference.propertyIdentifier ref)
                                                (PropertyReference.propertyArrayIndex ref))
                       (ReadAccessSpecification.listOfPropertyReferences spec))
            specs results.
Proof.
  intros Hreg. induction specs as [|spec specs IH].
  - exists []. split; [reflexivity | constructor].
  - destruct IH as (results & Hloop & Hall).
    destruct (resolve_returns (ReadAccessSpecification.objectIdentifier spec) Hreg)
      as [found Hfound].
    cbn [readPropertyMultiple_loop]. rewrite Hfound; cbn [bind]. rewrite Hloop; cbn [bind].
    eexists. split; [reflexivity|]. constructor; [|exact Hall].
    intros Hun. rewrite (resolve_unresolved _ Hun) in Hfound. injection Hfound as <-.
    cbn [fst snd ReadAccessResult.objectIdentifier ReadAccessResult.listOfResults].
    split; [reflexivity | apply flat_map_no_object].
Qed.

End ReadPropertyMultiple.

(** C9: Read-Property-Multiple answers with one Read-Property-Multiple-Ack
    that holds one result per read-access specification, in order; for a
    specification whose identifier designates no object, the result lists, for
    every property reference, an access error of class "object" and code
    "unknownObject"; the response is never an Error nor an ErrorPDU. *)
Theorem readPropertyMultiple_single_ack (lib : Bacpypes) (self : BACnetApp)
    (r : ReadPropertyMultipleRequest.t) (src : option Address) (ik : option Z)
    (address : SockAddr) (invoke_key : option Z) (device : Device.t)
    (specs : list ReadAccessSpecification.t) :
  let request :=
    {| pduSource := src; req_apduInvokeID := ik; body := ReqReadPropertyMultiple r |} in
  ReadPropertyMultipleRequest.listOfReadAccessSpecs r = Some specs ->
  registered self device ->
  reads_nothing_as_unknownObject lib ->
  exists self' ack,
    readPropertyMultiple lib self request address invoke_key device = Return self' /\
    _response self' = Some (RespReadPropertyMultipleACK ack) /\
    (forall e, _response self' <> Some (RespError e)) /\
    (forall p, _response self' <> Some (RespErrorPDU p)) /\
    List.length (ReadPropertyMultipleACK.listOfReadAccessResults ack) = List.length specs /\
    Forall2 (fun spec result =>
               unresolved self device (ReadAccessSpecification.objectIdentifier spec) ->
               ReadAccessResult.objectIdentifier result
                 = ReadAccessSpecification.objectIdentifier spec /\
               ReadAccessResult.listOfResults result
                 = map (fun ref =>
                          {| ReadAccessResultElement.propertyIdentifier :=
                               PropertyReference.propertyIdentifier ref;
                             ReadAccessResultElement.propertyArrayIndex :=
                               PropertyReference.propertyArrayIndex ref;
                             ReadAccessResultElement.readResult :=
                               propertyAccessError "object" "unknownObject" |})
                       (ReadAccessSpecification.listOfPropertyReferences spec))
            specs (ReadPropertyMultipleACK.listOfReadAccessResults ack).
Proof.
  intros request Hspecs Hreg Hlib.
  destruct (readPropertyMultiple_loop_results lib self device Hlib specs Hreg)
    as (results & Hloop & Hall).
  unfold readPropertyMultiple, get_listOfReadAccessSpecs; cbn [body request bind].
  rewrite Hspecs, Hloop; cbn [bind].
  eexists. eexists. split; [reflexivity|]. cbn.
  split; [reflexivity|]. split; [intros e; discriminate|]. split; [intros p; discriminate|].
  split; [symmetry; exact (Forall2_length Hall) | exact Hall].
Qed.

Lemma example_app_registered : registered example_app (localDevice example_app).
Proof.
  intros oid Hin. cbn in Hin. destruct Hin as [<-|[<-|[]]]; reflexivity.
Qed.

Lemma example_library_reads_nothing (decoded : Request * option exn) :
  reads_nothing_as_unknownObject (example_library decoded).
Proof. intros pid idx. right. reflexivity. Qed.

Lemma readPropertyMultiple_single_ack_witness :
  exists self' ack,
    readPropertyMultiple (example_library (who_is None None, None)) example_app
      (read_property_multiple example_specs) example_address (Some 9)
      (localDevice example_app) = Return self' /\
    _response self' = Some (RespReadPropertyMultipleACK ack) /\
    (forall e, _response self' <> Some (RespError e)) /\
    (forall p, _response self' <> Some (RespErrorPDU p)) /\
    List.length (ReadPropertyMultipleACK.listOfReadAccessResults ack)
      = List.length example_specs /\
    Forall2 (fun spec result =>
               unresolved example_app (localDevice example_app)
                 (ReadAccessSpecification.objectIdentifier spec) ->
               ReadAccessResult.objectIdentifier result
                 = ReadAccessSpecification.objectIdentifier spec /\
               ReadAccessResult.listOfResults result
                 = map (fun ref =>
                          {| ReadAccessResultElement.propertyIdentifier :=
                               PropertyReference.propertyIdentifier ref;
                             ReadAccessResultElement.propertyArrayIndex :=
                               PropertyReference.propertyArrayIndex ref;
                             ReadAccessResultElement.readResult :=
                               propertyAccessError "object" "unknownObject" |})
                       (ReadAccessSpecification.listOfPropertyReferences spec))
            example_specs (ReadPropertyMultipleACK.listOfReadAccessResults ack).
Proof.
  apply (readPropertyMultiple_single_ack (example_library (who_is None None, None))
           example_app
           {| ReadPropertyMultipleRequest.listOfReadAccessSpecs := Some example_specs |}
           None None example_address (Some 9) (localDevice example_app) example_specs
           eq_refl).
  - intros oid Hin. cbn in Hin. destruct Hin as [<-|[<-|[]]]; reflexivity.
  - intros pid idx. right. reflexivity.
Defined.

(** The reference request, evaluated: the specification for the analog input
    the device does not own yields two unknown-object elements, the one for
    analog input 14 its present value. *)
Example readPropertyMultiple_example :
  exists self',
    readPropertyMultiple (example_library (who_is None None, None)) example_app
      (read_property_multiple example_specs) example_address (Some 9)
      (localDevice example_app) = Return self' /\
    _response self' = Some (RespReadPropertyMultipleACK
      {| ReadPropertyMultipleACK.context := read_property_multiple example_specs;
         ReadPropertyMultipleACK.listOfReadAccessResults :=
           [ {| ReadAccessResult.objectIdentifier := ("analogInput", 99);
                ReadAccessResult.listOfResults :=
                  [ unknownObject_element "presentValue" None;
                    unknownObject_element "all" None ] |};
             {| ReadAccessResult.objectIdentifier := ("analogInput", 14);
                ReadAccessResult.listOfResults :=
                  [ {| ReadAccessResultElement.propertyIdentifier := "presentValue";
                       ReadAccessResultElement.propertyArrayIndex := None;
                       ReadAccessResultElement.readResult :=
                         propertyValue (AnyValue "Real" "68.0") |} ] |} ] |}).
Proof. eexists. split; reflexivity. Qed.

(** ** Registration *)

Lemma dict_get_app_l {V : Type} (d d' : list (ObjectIdentifier * V)) (k : ObjectIdentifier)
    (v : V) :
  dict_get d k = Some v -> dict_get (d ++ d')%list k = Some v.
Proof.
  induction d as [|[k' v'] d IH]; cbn [dict_get app]; [discriminate|].
  destruct (oid_eqb k k'); auto.
Qed.

Lemma dict_get_app_new {V : Type} (d : list (ObjectIdentifier * V)) (k : ObjectIdentifier)
    (v : V) :
  dict_get d k = None -> dict_get (d ++ [(k, v)])%list k = Some v.
Proof.
  induction d as [|[k' v'] d IH]; cbn [dict_get app].
  - rewrite oid_eqb_refl. reflexivity.
  - destruct (oid_eqb k k'); [discriminate | exact IH].
Qed.

(** A fresh application over a device whose object list holds its own entry
    only has every later object registered, whatever the constructor of the
    library does to the dictionaries, and [add_object] keeps it so. *)
Lemma init_registered (Application_init : BACnetApp -> BACnetApp) (device : Device.t) :
  tl (Device.objectList (localDevice (init Application_init device))) = [] ->
  registered (init Application_init device) (localDevice (init Application_init device)).
Proof.
  intros Hone oid Hin. unfold Device.objectList_value_2 in Hin. rewrite Hone in Hin.
  destruct Hin.
Qed.

Lemma add_object_registered (self self' : BACnetApp) (obj : Obj.t) :
  registered self (localDevice self) ->
  add_object self obj = Return self' ->
  registered self' (localDevice self').
Proof.
  intros Hreg. unfold add_object.
  destruct (String.eqb (Obj.objectName obj) EmptyString); [discriminate|].
  destruct (existsb _ (objectName self)); [discriminate|].
  destruct (dict_contains (objectIdentifier self) (Obj.objectIdentifier obj)) eqn:Hnew;
    [discriminate|].
  intros Hrun. injection Hrun as <-.
  intros oid Hin.
  unfold Device.objectList_value_2 in Hin.
  cbn [localDevice update_registry append_object Device.objectList objectIdentifier] in Hin |- *.
  unfold dict_contains in Hnew |- *.
  destruct (dict_get (objectIdentifier self) (Obj.objectIdentifier obj)) eqn:Hget;
    [discriminate|].
  assert (Hcases : In oid (Device.objectList_value_2 (localDevice self))
                   \/ oid = Obj.objectIdentifier obj).
  { unfold Device.objectList_value_2.
    destruct (Device.objectList (localDevice self)) as [|first others];
      cbn [app tl] in Hin; [destruct Hin|].
    apply in_app_or in Hin. cbn [tl].
    destruct Hin as [Hin|[<-|[]]]; [left; exact Hin | right; reflexivity]. }
  destruct Hcases as [Hold| ->].
  - destruct (dict_contains_get _ _ (Hreg oid Hold)) as [o Ho].
    rewrite (dict_get_app_l _ _ _ _ Ho). reflexivity.
  - rewrite (dict_get_app_new _ _ obj Hget). reflexivity.
Qed.

(** What the constructor, the device identifier of the template and two
    calls of [add_object] build: [loaded_app] with the constructor of the
    library, [example_app] with one that leaves the dictionaries as the
    assignments of [__init__] made them. *)
Example loaded_app_built :
  add_objects (set_deviceIdentifier (init stock_Application_init example_device)
                                    ("device", 36113))
              [example_BI; example_AI] = Return loaded_app.
Proof. reflexivity. Qed.

Example example_app_built :
  add_objects (set_deviceIdentifier (init (fun self => self) example_device)
                                    ("device", 36113))
              [example_BI; example_AI] = Return example_app.
Proof. reflexivity. Qed.

(** The two differ in the dictionaries only: [loaded_app] is registered as
    well, and the requests of the reference scenario are answered alike. The
    range filter of Who-Is reads the instance number of the first key, 12
    there, and still answers the range from 100 to 200; Who-Has finds the
    binary input and not the device; Read-Property answers the wildcard
    instance for an analog input, and reads the device from the root device,
    without an object name. *)
Lemma loaded_app_registered : registered loaded_app (localDevice loaded_app).
Proof.
  intros oid Hin. cbn in Hin. destruct Hin as [<-|[<-|[]]]; reflexivity.
Qed.

Example loaded_app_answers :
  first_key_instance loaded_app = Return 12 /\
  (exists self' r,
     whoIs loaded_app (who_is (Some 100) (Some 200)) example_address None
           (localDevice loaded_app) = Return self' /\
     _response self' = Some (RespIAm r) /\
     IAmRequest.iAmDeviceIdentifier r = Some ("device", 36113)) /\
  (exists self' m,
     whoHas loaded_app (who_has ("binaryInput", 12)) example_address None
            (localDevice loaded_app) = Return self' /\
     _response self' = Some (RespIHave m) /\
     IHaveRequest.objectName m = "BI 01") /\
  whoHas loaded_app (who_has ("device", 36113)) example_address None
         (localDevice loaded_app) = Return loaded_app /\
  (exists self' a,
     readProperty (example_library (who_is None None, None)) loaded_app
       (read_property ("analogInput", 4194303) "presentValue") example_address (Some 101)
       (localDevice loaded_app) = Return self' /\
     _response self' = Some (RespReadPropertyACK a) /\
     ReadPropertyACK.objectIdentifier a = ("analogInput", 14)) /\
  (exists self' a,
     readProperty (example_library (who_is None None, None)) loaded_app
       (read_property ("device", 36113) "objectName") example_address (Some 101)
       (localDevice loaded_app) = Return self' /\
     _response self' = Some (RespReadPropertyACK a) /\
     ReadPropertyACK.objectIdentifier a = ("device", 36113) /\
     ReadPropertyACK.objectName a = None /\
     ReadPropertyACK.propertyValue a = AnyValue "CharacterString" "Conpot BACnet").
Proof.
  split; [reflexivity|].
  split; [eexists; eexists; split; [reflexivity|]; split; reflexivity|].
  split; [eexists; eexists; split; [reflexivity|]; split; reflexivity|].
  split; [reflexivity|].
  split; eexists; eexists; (split; [reflexivity|]); repeat split; reflexivity.
Qed.

(** ** The shared response field *)

(** A handler that answers nothing leaves the field as it found it: after a
    Who-Is was answered, a Who-Has for an object the device does not own
    returns with the I-Am still in place. *)
Example whoHas_miss_keeps_the_pending_response :
  exists self1 self2 r,
    whoIs example_app (who_is None None) example_address None (localDevice example_app)
      = Return self1 /\
    whoHas self1 (who_has ("analogValue", 3)) example_address None (localDevice self1)
      = Return self2 /\
    _response self2 = Some (RespIAm r).
Proof. eexists. eexists. eexists. split; [reflexivity|]. split; reflexivity. Qed.

(** Likewise for the dispatcher: a confirmed request whose decoding raises
    one of the exceptions it drops returns with the response of the previous
    datagram still in place, where the unconfirmed branch clears it. *)
Example confirmed_decode_failure_keeps_the_pending_response :
  exists self1 self2 r,
    whoIs example_app (who_is None None) example_address None (localDevice example_app)
      = Return self1 /\
    indication (example_library (read_property ("analogInput", 14) "presentValue",
                                 Some InvalidParameterDatatype))
      self1 {| apduType := 0; apduService := 12; apduInvokeID := Some 101; pduData := [] |}
      example_address (localDevice self1) = Return self2 /\
    _response self2 = Some (RespIAm r).
Proof. eexists. eexists. eexists. split; [reflexivity|]. split; reflexivity. Qed.

(** ** Registration of objects *)

Lemma dict_get_none_iff {V : Type} (d : list (ObjectIdentifier * V)) (k : ObjectIdentifier) :
  dict_get d k = None <-> ~ In k (map fst d).
Proof.
  induction d as [|[k' v] d IH]; cbn [dict_get map fst In].
  - split; [intros _ [] | reflexivity].
  - destruct (oid_eqb k k') eqn:E.
    + apply oid_eqb_eq in E. subst k'. split; [discriminate | intros H; exfalso; apply H; left; reflexivity].
    + apply oid_eqb_neq in E. rewrite IH. split.
      * intros H [H'|H']; [apply E; symmetry; exact H' | exact (H H')].
      * intros H H'. apply H. right; exact H'.
Qed.

Lemma dict_get_app_other {V : Type} (d : list (ObjectIdentifier * V)) (k k' : ObjectIdentifier)
    (v : V) :
  k' <> k -> dict_get (d ++ [(k, v)])%list k' = dict_get d k'.
Proof.
  intros Hne. induction d as [|[k0 v0] d IH]; cbn [dict_get app].
  - rewrite (proj2 (oid_eqb_neq k' k) Hne). reflexivity.
  - destruct (oid_eqb k' k0); [reflexivity | exact IH].
Qed.

Lemma name_absent (names : list (string * Obj.t)) (n : string) :
  existsb (fun kv => String.eqb n (fst kv)) names = false -> ~ In n (map fst names).
Proof.
  induction names as [|[n' o] names IH]; cbn [existsb map fst In]; [intros _ []|].
  rewrite orb_false_iff. intros [Hne Hrest] [Heq|Hin].
  - subst n'. rewrite String.eqb_refl in Hne. discriminate.
  - exact (IH Hrest Hin).
Qed.

Lemma NoDup_snoc {A : Type} (l : list A) (x : A) :
  NoDup l -> ~ In x l -> NoDup (l ++ [x]).
Proof.
  intros Hl Hx. induction Hl as [|y l Hy Hl IH]; cbn [app].
  - constructor; [intros [] | constructor].
  - constructor.
    + intros Hin. apply in_app_or in Hin. destruct Hin as [Hin|[->|[]]].
      * exact (Hy Hin).
      * apply Hx. left; reflexivity.
    + apply IH. intros Hin. apply Hx. right; exact Hin.
Qed.

(** What a successful [add_object] has checked and what it returns. *)
Lemma add_object_returns (self self' : BACnetApp) (obj : Obj.t) :
  add_object self obj = Return self' ->
  Obj.objectName obj <> EmptyString /\
  ~ In (Obj.objectName obj) (map fst (objectName self)) /\
  dict_get (objectIdentifier self) (Obj.objectIdentifier obj) = None /\
  self' = update_registry self
            (objectName self ++ [(Obj.objectName obj, obj)])
            (objectIdentifier self ++ [(Obj.objectIdentifier obj, obj)])
            (append_object (localDevice self) (Obj.objectIdentifier obj)).
Proof.
  unfold add_object.
  destruct (String.eqb (Obj.objectName obj) EmptyString) eqn:Hname; [discriminate|].
  destruct (existsb _ (objectName self)) eqn:Hnames; [discriminate|].
  unfold dict_contains.
  destruct (dict_get (objectIdentifier self) (Obj.objectIdentifier obj)) eqn:Hget;
    [discriminate|].
  intros Hrun. injection Hrun as <-.
  split; [apply String.eqb_neq; exact Hname|].
  split; [apply name_absent; exact Hnames|].
  split; reflexivity.
Qed.

(** [add_object] keeps the state consistent. *)
Lemma add_object_keeps_consistent (self self' : BACnetApp) (obj : Obj.t) :
  consistent self ->
  add_object self obj = Return self' ->
  consistent self'.
Proof.
  intros (Hkeys & Hids & Hnames) Hrun.
  destruct (add_object_returns self self' obj Hrun) as (_ & Hname & Hget & ->).
  unfold consistent.
  cbn [objectIdentifier objectName localDevice update_registry append_object Device.objectList].
  rewrite !map_app. cbn [map fst]. split; [rewrite Hkeys; reflexivity|]. split.
  - apply NoDup_snoc; [exact Hids | apply dict_get_none_iff; exact Hget].
  - apply NoDup_snoc; [exact Hnames | exact Hname].
Qed.





(** X2: after a successful [add_object] the object is found under its
    identifier, every other identifier resolves as before, the identifier is
    the last entry of the object list of the device, and the pending response
    and what was sent are untouched. *)
Theorem add_object_then_lookup (self self' : BACnetApp) (obj : Obj.t) :
  add_object self obj = Return self' ->
  dict_get (objectIdentifier self') (Obj.objectIdentifier obj) = Some obj /\
  (forall k, k <> Obj.objectIdentifier obj ->
     dict_get (objectIdentifier self') k = dict_get (objectIdentifier self) k) /\
  Device.objectList (localDevice self')
    = (Device.objectList (localDevice self) ++ [Obj.objectIdentifier obj])%list /\
  _response self' = _response self /\
  datagram_server self' = datagram_server self.
Proof.
  intros Hrun.
  destruct (add_object_returns self self' obj Hrun) as (_ & _ & Hget & ->).
  cbn [objectIdentifier localDevice update_registry append_object Device.objectList
       _response datagram_server].
  split; [apply dict_get_app_new; exact Hget|].
  split; [intros k Hk; apply dict_get_app_other; exact Hk|].
  repeat split; reflexivity.
Qed.

Lemma add_object_then_lookup_witness :
  let obj := {| Obj.objectName := "AV 01"; Obj.objectIdentifier := ("analogValue", 3);
                Obj._properties := [] |} in
  exists self',
    add_object example_app obj = Return self' /\
    dict_get (objectIdentifier self') ("analogValue", 3) = Some obj /\
    Device.objectList (localDevice self')
      = [("device", 36113); ("binaryInput", 12); ("analogInput", 14); ("analogValue", 3)].
Proof.
  intros obj. eexists. split; [reflexivity|].
  destruct (add_object_then_lookup example_app _ obj eq_refl) as (Hget & _ & Hlist & _).
  split; [exact Hget | exact Hlist].
Defined.

(** What the loop of registrations appends, whatever the state it starts
    from: the objects given, in order, to both dictionaries and to the object
    list of the device; the other fields are left alone. *)
Lemma add_objects_appends (objs : list Obj.t) :
  forall self self' : BACnetApp,
    add_objects self objs = Return self' ->
    objectName self'
      = (objectName self ++ map (fun o => (Obj.objectName o, o)) objs)%list /\
    objectIdentifier self'
      = (objectIdentifier self ++ map (fun o => (Obj.objectIdentifier o, o)) objs)%list /\
    Device.objectList (localDevice self')
      = (Device.objectList (localDevice self) ++ map Obj.objectIdentifier objs)%list /\
    Device.base (localDevice self') = Device.base (localDevice self) /\
    _response self' = _response self /\
    _response_service self' = _response_service self /\
    deviceIdentifier self' = deviceIdentifier self /\
    datagram_server self' = datagram_server self.
Proof.
  induction objs as [|obj objs IH]; intros self self' Hrun; cbn [add_objects] in Hrun.
  - injection Hrun as <-. cbn [map]. rewrite !app_nil_r. repeat split; reflexivity.
  - destruct (add_object self obj) as [self1|e] eqn:Hadd; cbn [bind] in Hrun; [|discriminate].
    destruct (IH self1 self' Hrun)
      as (Hnames & Hdict & Hlist & Hbase & Hresp & Hsvc & Hdev & Hsent).
    destruct (add_object_returns self self1 obj Hadd) as (_ & _ & _ & ->).
    cbn [objectName objectIdentifier localDevice update_registry append_object
         Device.objectList Device.base _response _response_service deviceIdentifier
         datagram_server] in Hnames, Hdict, Hlist, Hbase, Hresp, Hsvc, Hdev, Hsent.
    cbn [map]. rewrite <- !app_assoc in Hnames, Hdict, Hlist.
    cbn [app] in Hnames, Hdict, Hlist.
    repeat split; assumption.
Qed.

(** Each object the loop has accepted was new to the state the loop started
    from, by its identifier and by its name. *)
Lemma add_objects_fresh (objs : list Obj.t) :
  forall self self' : BACnetApp,
    add_objects self objs = Return self' ->
    forall o, In o objs ->
      ~ In (Obj.objectIdentifier o) (map fst (objectIdentifier self)) /\
      ~ In (Obj.objectName o) (map fst (objectName self)).
Proof.
  induction objs as [|obj objs IH]; intros self self' Hrun o Hin; [destruct Hin|].
  cbn [add_objects] in Hrun.
  destruct (add_object self obj) as [self1|e] eqn:Hadd; cbn [bind] in Hrun; [|discriminate].
  destruct (add_object_returns self self1 obj Hadd) as (_ & Hname & Hget & Hself1).
  destruct Hin as [<-|Hin].
  - split; [apply dict_get_none_iff; exact Hget | exact Hname].
  - destruct (IH self1 self' Hrun o Hin) as [Hid' Hname'].
    rewrite Hself1 in Hid', Hname'.
    cbn [objectName objectIdentifier update_registry] in Hid', Hname'.
    rewrite map_app in Hid', Hname'.
    split; intros Hold; [apply Hid' | apply Hname']; apply in_or_app; left; exact Hold.
Qed.

(** The objects the loop has accepted differ from one another, by their
    identifiers and by their names. *)
Lemma add_objects_distinct (objs : list Obj.t) :
  forall self self' : BACnetApp,
    add_objects self objs = Return self' ->
    NoDup (map Obj.objectIdentifier objs) /\ NoDup (map Obj.objectName objs).
Proof.
  induction objs as [|obj objs IH]; intros self self' Hrun; cbn [map];
    [split; constructor|].
  cbn [add_objects] in Hrun.
  destruct (add_object self obj) as [self1|e] eqn:Hadd; cbn [bind] in Hrun; [|discriminate].
  destruct (IH self1 self' Hrun) as [Hids Hnames].
  destruct (add_object_returns self self1 obj Hadd) as (_ & _ & _ & Hself1).
  split; constructor; try assumption; intros Hdup; apply in_map_iff in Hdup;
    destruct Hdup as (o & Hsame & Hin);
    destruct (add_objects_fresh objs self1 self' Hrun o Hin) as [Hid' Hname'];
    rewrite Hself1 in Hid', Hname';
    cbn [objectName objectIdentifier update_registry] in Hid', Hname';
    rewrite map_app in Hid', Hname'; cbn [map fst] in Hid', Hname'.
  - apply Hid'. apply in_or_app. right. left. symmetry. exact Hsame.
  - apply Hname'. apply in_or_app. right. left. symmetry. exact Hsame.
Qed.

(** Each object the loop has accepted is found under its identifier, and what
    was found before the loop is found after it. *)
Lemma add_objects_keeps_lookup (objs : list Obj.t) (self self' : BACnetApp)
    (k : ObjectIdentifier) (v : Obj.t) :
  add_objects self objs = Return self' ->
  dict_get (objectIdentifier self) k = Some v ->
  dict_get (objectIdentifier self') k = Some v.
Proof.
  intros Hrun Hget.
  destruct (add_objects_appends objs self self' Hrun) as (_ & -> & _).
  apply dict_get_app_l. exact Hget.
Qed.

Lemma add_objects_lookup (objs : list Obj.t) :
  forall (self self' : BACnetApp) (obj : Obj.t),
    add_objects self objs = Return self' ->
    In obj objs ->
    dict_get (objectIdentifier self') (Obj.objectIdentifier obj) = Some obj.
Proof.
  induction objs as [|o objs IH]; intros self self' obj Hrun Hin; [destruct Hin|].
  cbn [add_objects] in Hrun.
  destruct (add_object self o) as [self1|e] eqn:Hadd; cbn [bind] in Hrun; [|discriminate].
  destruct Hin as [->|Hin]; [|exact (IH self1 self' obj Hrun Hin)].
  apply (add_objects_keeps_lookup objs self1 self' _ _ Hrun).
  destruct (add_object_returns self self1 obj Hadd) as (_ & _ & Hget & ->).
  cbn [objectIdentifier update_registry]. apply dict_get_app_new. exact Hget.
Qed.

(** A name or an identifier that is registered is refused, wherever it stands
    in its dictionary. *)
Lemma add_object_rejects_registered (self : BACnetApp) (other : Obj.t) :
  In (Obj.objectName other) (map fst (objectName self)) \/
  In (Obj.objectIdentifier other) (map fst (objectIdentifier self)) ->
  exists msg, add_object self other = Raise (RuntimeError msg).
Proof.
  intros Hin. unfold add_object.
  destruct (String.eqb (Obj.objectName other) EmptyString); [eauto|].
  destruct (existsb _ (objectName self)) eqn:Hnames; [eauto|].
  apply name_absent in Hnames.
  destruct Hin as [Hname|Hid]; [contradiction|].
  unfold dict_contains.
  destruct (dict_get (objectIdentifier self) (Obj.objectIdentifier other)) eqn:Hget; [eauto|].
  apply dict_get_none_iff in Hget. contradiction.
Qed.

(** X3: an object is never registered twice.  Once [add_object] has accepted
    an object, and whatever objects have been registered after it, its
    identifier and its name each stand once among the keys of their
    dictionary, and a call of [add_object] for an object of the same name or
    of the same identifier raises [RuntimeError]. *)
Theorem add_object_rejects_duplicates (self self1 self2 : BACnetApp) (obj other : Obj.t)
    (later : list Obj.t) :
  add_object self obj = Return self1 ->
  add_objects self1 later = Return self2 ->
  (exists before after,
     map fst (objectIdentifier self2) = (before ++ Obj.objectIdentifier obj :: after)%list /\
     ~ In (Obj.objectIdentifier obj) before /\ ~ In (Obj.objectIdentifier obj) after) /\
  (exists before after,
     map fst (objectName self2) = (before ++ Obj.objectName obj :: after)%list /\
     ~ In (Obj.objectName obj) before /\ ~ In (Obj.objectName obj) after) /\
  (Obj.objectName other = Obj.objectName obj \/
   Obj.objectIdentifier other = Obj.objectIdentifier obj ->
   exists msg, add_object self2 other = Raise (RuntimeError msg)).
Proof.
  intros Hadd Hrun.
  destruct (add_object_returns self self1 obj Hadd) as (_ & Hname & Hget & Hself1).
  destruct (add_objects_appends later self1 self2 Hrun) as (Hnames & Hdict & _).
  rewrite Hself1 in Hnames, Hdict. cbn [objectName objectIdentifier update_registry] in Hnames, Hdict.
  assert (Hkeys : map fst (objectIdentifier self2)
                  = (map fst (objectIdentifier self) ++
                     Obj.objectIdentifier obj :: map Obj.objectIdentifier later)%list).
  { rewrite Hdict, !map_app, map_map, <- app_assoc. reflexivity. }
  assert (Hnamekeys : map fst (objectName self2)
                      = (map fst (objectName self) ++
                         Obj.objectName obj :: map Obj.objectName later)%list).
  { rewrite Hnames, !map_app, map_map, <- app_assoc. reflexivity. }
  assert (Hlater : forall o, In o later ->
                     Obj.objectIdentifier o <> Obj.objectIdentifier obj /\
                     Obj.objectName o <> Obj.objectName obj).
  { intros o Hin. destruct (add_objects_fresh later self1 self2 Hrun o Hin) as [Hid' Hname'].
    rewrite Hself1 in Hid', Hname'. cbn [objectName objectIdentifier update_registry] in Hid', Hname'.
    rewrite map_app in Hid', Hname'. cbn [map fst] in Hid', Hname'.
    split; intros Hsame; [apply Hid' | apply Hname']; apply in_or_app; right; left;
      symmetry; exact Hsame. }
  split; [|split].
  - exists (map fst (objectIdentifier self)), (map Obj.objectIdentifier later).
    split; [exact Hkeys|]. split; [apply dict_get_none_iff; exact Hget|].
    intros Hdup. apply in_map_iff in Hdup. destruct Hdup as (o & Hsame & Hin).
    exact (proj1 (Hlater o Hin) Hsame).
  - exists (map fst (objectName self)), (map Obj.objectName later).
    split; [exact Hnamekeys|]. split; [exact Hname|].
    intros Hdup. apply in_map_iff in Hdup. destruct Hdup as (o & Hsame & Hin).
    exact (proj2 (Hlater o Hin) Hsame).
  - intros Hsame. apply add_object_rejects_registered.
    destruct Hsame as [-> | ->]; [left; rewrite Hnamekeys | right; rewrite Hkeys];
      apply in_or_app; right; left; reflexivity.
Qed.

Lemma add_object_rejects_duplicates_witness :
  let obj := {| Obj.objectName := "AV 01"; Obj.objectIdentifier := ("analogValue", 3);
                Obj._properties := [] |} in
  let later := {| Obj.objectName := "AV 02"; Obj.objectIdentifier := ("analogValue", 4);
                  Obj._properties := [] |} in
  let other := {| Obj.objectName := "AV 03"; Obj.objectIdentifier := ("analogValue", 3);
                  Obj._properties := [] |} in
  exists self1 self2 msg,
    add_object example_app obj = Return self1 /\
    add_objects self1 [later] = Return self2 /\
    add_object self2 other = Raise (RuntimeError msg).
Proof.
  intros obj later other.
  destruct (add_object_rejects_duplicates example_app _ _ obj other [later] eq_refl eq_refl)
    as (_ & _ & Hrefused).
  destruct (Hrefused (or_intror eq_refl)) as [msg Hmsg].
  eexists. eexists. exists msg. split; [reflexivity|]. split; [reflexivity | exact Hmsg].
Defined.

(** X4: the registrations of the loader, from whatever state the constructor
    has left.  The objects accepted are appended, in the order given, to the
    identifier dictionary and to the object list of the device; they differ
    from one another and were not registered before; each is found under its
    identifier, and what was found before is still found; an object list that
    was registered stays registered; the first key of the identifier
    dictionary, which the range filter reads, is the one it was, and on a
    dictionary that was empty it is the identifier of the first object given;
    the pending response, the device identifier and what was sent are left
    alone. *)
Theorem add_objects_registers_in_order (self self' : BACnetApp) (objs : list Obj.t) :
  add_objects self objs = Return self' ->
  objectIdentifier self'
    = (objectIdentifier self ++ map (fun o => (Obj.objectIdentifier o, o)) objs)%list /\
  Device.objectList (localDevice self')
    = (Device.objectList (localDevice self) ++ map Obj.objectIdentifier objs)%list /\
  NoDup (map Obj.objectIdentifier objs) /\
  (forall obj, In obj objs ->
     dict_get (objectIdentifier self) (Obj.objectIdentifier obj) = None /\
     dict_get (objectIdentifier self') (Obj.objectIdentifier obj) = Some obj) /\
  (forall k v, dict_get (objectIdentifier self) k = Some v ->
     dict_get (objectIdentifier self') k = Some v) /\
  (registered self (localDevice self) -> registered self' (localDevice self')) /\
  first_key_instance self'
    = match objectIdentifier self, objs with
      | [], obj :: _ => Return (snd (Obj.objectIdentifier obj))
      | _, _ => first_key_instance self
      end /\
  _response self' = _response self /\
  deviceIdentifier self' = deviceIdentifier self /\
  datagram_server self' = datagram_server self.
Proof.
  intros Hrun.
  destruct (add_objects_appends objs self self' Hrun)
    as (_ & Hdict & Hlist & _ & Hresp & _ & Hdev & Hsent).
  split; [exact Hdict|]. split; [exact Hlist|].
  split; [exact (proj1 (add_objects_distinct objs self self' Hrun))|].
  split.
  { intros obj Hin. split.
    - apply dict_get_none_iff. exact (proj1 (add_objects_fresh objs self self' Hrun obj Hin)).
    - exact (add_objects_lookup objs self self' obj Hrun Hin). }
  split; [intros k v; apply (add_objects_keeps_lookup objs self self' k v Hrun)|].
  split.
  { clear Hdict Hlist Hresp Hdev Hsent. revert self self' Hrun.
    induction objs as [|obj objs IH]; intros self self' Hrun Hreg; cbn [add_objects] in Hrun.
    - injection Hrun as <-. exact Hreg.
    - destruct (add_object self obj) as [self1|e] eqn:Hadd; cbn [bind] in Hrun; [|discriminate].
      exact (IH self1 self' Hrun (add_object_registered self self1 obj Hreg Hadd)). }
  split; [|repeat split; assumption].
  unfold first_key_instance. rewrite Hdict.
  destruct (objectIdentifier self) as [|[k v] d]; destruct objs as [|obj objs]; reflexivity.
Qed.

Lemma add_objects_registers_in_order_witness :
  exists self',
    add_objects (set_deviceIdentifier (init stock_Application_init example_device)
                                      ("device", 36113))
                [example_BI; example_AI] = Return self' /\
    map fst (objectIdentifier self') = [("binaryInput", 12); ("analogInput", 14)] /\
    Device.objectList (localDevice self')
      = [("device", 36113); ("binaryInput", 12); ("analogInput", 14)] /\
    dict_get (objectIdentifier self') ("analogInput", 14) = Some example_AI /\
    first_key_instance self' = Return 12 /\
    deviceIdentifier self' = Some ("device", 36113).
Proof.
  eexists. split; [reflexivity|].
  destruct (add_objects_registers_in_order
              (set_deviceIdentifier (init stock_Application_init example_device)
                                    ("device", 36113))
              _ [example_BI; example_AI] eq_refl)
    as (Hdict & Hlist & _ & Hget & _ & _ & Hfirst & _ & Hdev & _).
  split; [rewrite Hdict; reflexivity|]. split; [exact Hlist|].
  split; [exact (proj2 (Hget example_AI (or_intror (or_introl eq_refl))))|].
  split; [exact Hfirst | exact Hdev].
Defined.

(** The first place of an identifier in a list. *)
Lemma oid_in_split_first (l : list ObjectIdentifier) (x : ObjectIdentifier) :
  In x l -> exists before after, l = (before ++ x :: after)%list /\ ~ In x before.
Proof.
  induction l as [|a l IH]; intros Hin; [destruct Hin|].
  destruct (oid_eqb a x) eqn:E.
  - apply oid_eqb_eq in E. subst a. exists [], l. split; [reflexivity | intros []].
  - apply oid_eqb_neq in E. destruct Hin as [Heq|Hin]; [contradiction|].
    destruct (IH Hin) as (before & after & -> & Hfirst).
    exists (a :: before), after. split; [reflexivity|].
    intros [Heq|Hb]; [exact (E Heq) | exact (Hfirst Hb)].
Qed.

(** X5: every object registered through [add_objects] is discoverable,
    whatever the state the registrations started from, provided the object
    list of the device was not empty then (it holds the device's own entry,
    which the loop of [whoHas] skips): a Who-Has for the identifier of the
    object that passes the range filter is answered with an I-Have that
    carries the name of that very object, the instance number of its
    identifier, the device identifier the application holds, and the station
    address of the requester. *)
Theorem whoHas_answers_for_every_added_object (self0 self : BACnetApp) (objs : list Obj.t)
    (obj : Obj.t) (r : WhoHasRequest.t) (src : option Address)
    (ik : option Z) (address : SockAddr) (invoke_key : option Z) :
  let request := {| pduSource := src; req_apduInvokeID := ik; body := ReqWhoHas r |} in
  Device.objectList (localDevice self0) <> [] ->
  add_objects self0 objs = Return self ->
  In obj objs ->
  WhoHasRequest.object_objectIdentifier r = Some (Obj.objectIdentifier obj) ->
  execute_flag self request = Return true ->
  exists self' m,
    whoHas self request address invoke_key (localDevice self) = Return self' /\
    _response self' = Some (RespIHave m) /\
    IHaveRequest.objectName m = Obj.objectName obj /\
    IHaveRequest.objectIdentifier m = snd (Obj.objectIdentifier obj) /\
    IHaveRequest.deviceIdentifier m = deviceIdentifier self0 /\
    IHaveRequest.pduDestination m = PduAddress address.
Proof.
  intros request Hdevice Hrun Hin Hid Hex.
  destruct (add_objects_appends objs self0 self Hrun) as (_ & _ & Hlist & _ & _ & _ & Hdev & _).
  assert (Hget := add_objects_lookup objs self0 self obj Hrun Hin).
  assert (Htail : In (Obj.objectIdentifier obj) (Device.objectList_value_2 (localDevice self))).
  { unfold Device.objectList_value_2. rewrite Hlist.
    destruct (Device.objectList (localDevice self0)) as [|first others]; [contradiction|].
    cbn [app tl]. apply in_or_app. right. apply in_map. exact Hin. }
  destruct (oid_in_split_first _ _ Htail) as (before & after & Hsplit & Hfirst).
  unfold whoHas. rewrite Hex; cbn [bind]. rewrite Hsplit. unfold request.
  rewrite (whoHas_loop_skip self address r src ik _ Hid).
  - rewrite (whoHas_loop_hit self address r src ik _ Hid after obj Hget).
    eexists. eexists. split; [reflexivity|]. cbn. rewrite Hdev. repeat split; reflexivity.
  - intros x Hx E. apply Hfirst. rewrite <- E. exact Hx.
Qed.

Lemma whoHas_answers_for_every_added_object_witness :
  exists self self' m,
    add_objects (set_deviceIdentifier (init stock_Application_init example_device)
                                      ("device", 36113))
                [example_BI; example_AI] = Return self /\
    whoHas self (who_has ("analogInput", 14)) example_address None (localDevice self)
      = Return self' /\
    _response self' = Some (RespIHave m) /\
    IHaveRequest.objectName m = "AI 01" /\
    IHaveRequest.objectIdentifier m = 14 /\
    IHaveRequest.deviceIdentifier m = Some ("device", 36113).
Proof.
  exists loaded_app.
  destruct (whoHas_answers_for_every_added_object
              (set_deviceIdentifier (init stock_Application_init example_device)
                                    ("device", 36113))
              loaded_app [example_BI; example_AI] example_AI
              {| WhoHasRequest.deviceInstanceRangeLowLimit := None;
                 WhoHasRequest.deviceInstanceRangeHighLimit := None;
                 WhoHasRequest.object_objectIdentifier := Some ("analogInput", 14);
                 WhoHasRequest.object_objectName := None |}
              None None example_address None)
    as (self' & m & Hrun & Hresp & Hname & Hinst & Hdev & _).
  - cbn. discriminate.
  - reflexivity.
  - right. left. reflexivity.
  - reflexivity.
  - reflexivity.
  - exists self', m. split; [reflexivity|].
    split; [exact Hrun|]. split; [exact Hresp|]. split; [exact Hname|].
    split; [exact Hinst | exact Hdev].
Defined.

(** ** Read-Property on registered objects *)

Lemma readProperty_answer_value (lib : Bacpypes) (self : BACnetApp) (address : SockAddr)
    (invoke_key : option Z) (r : ReadPropertyRequest.t) (src : option Address) (ik : option Z)
    (obj : ObjectIdentifier) (target : Obj.t) (name : option string) (v : Any) :
  let request := {| pduSource := src; req_apduInvokeID := ik; body := ReqReadProperty r |} in
  read_property_to_any lib target (ReadPropertyRequest.propertyIdentifier r)
    (ReadPropertyRequest.propertyArrayIndex r) = Return v ->
  readProperty_answer lib self request address invoke_key obj target name
    = Return (set_response (set_response_service self "ComplexAckPDU")
        (Some (RespReadPropertyACK
          {| ReadPropertyACK.pduDestination := PduAddress address;
             ReadPropertyACK.apduInvokeID := invoke_key;
             ReadPropertyACK.objectIdentifier := obj;
             ReadPropertyACK.objectName := name;
             ReadPropertyACK.propertyIdentifier := ReadPropertyRequest.propertyIdentifier r;
             ReadPropertyACK.propertyValue := v |}))).
Proof.
  intros request Hread.
  unfold readProperty_answer, get_propertyIdentifier, get_propertyArrayIndex.
  cbn [body request bind]. unfold read_or_null. rewrite Hread. reflexivity.
Qed.

(** Whatever the reader does, an acknowledgement built by the body of the
    loop names the entry and carries the name it was given. *)
Lemma readProperty_answer_ack (lib : Bacpypes) (self self' : BACnetApp) (request : Request)
    (address : SockAddr) (invoke_key : option Z) (obj : ObjectIdentifier) (target : Obj.t)
    (name : option string) (a : ReadPropertyACK.t) :
  readProperty_answer lib self request address invoke_key obj target name = Return self' ->
  _response self' = Some (RespReadPropertyACK a) ->
  ReadPropertyACK.objectIdentifier a = obj /\ ReadPropertyACK.objectName a = name /\
  ReadPropertyACK.apduInvokeID a = invoke_key.
Proof.
  unfold readProperty_answer.
  destruct (get_propertyIdentifier request) as [pid|]; cbn [bind]; [|discriminate].
  destruct (get_propertyArrayIndex request) as [idx|]; cbn [bind]; [|discriminate].
  destruct (read_or_null lib target pid idx) as [[v|cls code]|]; cbn [bind];
    [| |discriminate]; intros Hrun; injection Hrun as <-; cbn [_response set_response];
    intros Hresp; [|discriminate].
  injection Hresp as <-. repeat split; reflexivity.
Qed.

(** X6: a Read-Property-Ack is about an entry of the object list that passes
    the test of the loop for the identifier requested, and it carries the
    name of the object that the identifier dictionary holds for that entry;
    for an entry the dictionary does not hold, which is read from the root
    device, it carries no name. *)
Theorem readProperty_ack_names_the_registered_object (lib : Bacpypes) (self self' : BACnetApp)
    (r : ReadPropertyRequest.t) (src : option Address) (ik : option Z) (address : SockAddr)
    (invoke_key : option Z) (device : Device.t) (a : ReadPropertyACK.t) :
  let request := {| pduSource := src; req_apduInvokeID := ik; body := ReqReadProperty r |} in
  readProperty lib self request address invoke_key device = Return self' ->
  _response self' = Some (RespReadPropertyACK a) ->
  In (ReadPropertyACK.objectIdentifier a) (Device.objectList device) /\
  (exists rid, ReadPropertyRequest.objectIdentifier r = Some rid /\
               readProperty_match rid (ReadPropertyACK.objectIdentifier a) = true) /\
  ReadPropertyACK.objectName a
    = option_map Obj.objectName
        (dict_get (objectIdentifier self) (ReadPropertyACK.objectIdentifier a)) /\
  ReadPropertyACK.apduInvokeID a = invoke_key.
Proof.
  intros request Hrun Hresp.
  unfold readProperty, Device.objectList_value_1 in Hrun.
  destruct (ReadPropertyRequest.objectIdentifier r) as [rid|] eqn:Hid.
  - destruct (find (readProperty_match rid) (Device.objectList device)) as [obj|] eqn:Hfind.
    + unfold request in Hrun.
      rewrite (readProperty_loop_found lib self address invoke_key r src ik rid Hid _ obj Hfind)
        in Hrun.
      apply find_some in Hfind. destruct Hfind as [Hin Hmatch].
      unfold dict_contains, dict_getitem in Hrun.
      destruct (dict_get (objectIdentifier self) obj) as [o|] eqn:Hget; cbn [bind] in Hrun;
        destruct (readProperty_answer_ack lib self self' _ address invoke_key obj _ _ a
                    Hrun Hresp) as (Hobj & Hname & Hinvoke);
        rewrite Hobj, Hget; cbn [option_map];
        (split; [exact Hin|]); (split; [exists rid; split; [reflexivity | exact Hmatch]|]);
        split; assumption.
    + unfold request in Hrun.
      rewrite (readProperty_loop_not_found lib self address invoke_key r src ik rid Hid _ Hfind)
        in Hrun.
      injection Hrun as <-. discriminate Hresp.
  - exfalso. unfold request in Hrun.
    destruct (Device.objectList device); cbn [readProperty_loop] in Hrun;
      unfold get_objectIdentifier in Hrun; cbn [body bind] in Hrun; rewrite Hid in Hrun;
      discriminate Hrun.
Qed.

Lemma readProperty_ack_names_the_registered_object_witness :
  (exists self' a,
     readProperty (example_library (who_is None None, None)) example_app
       (read_property ("device", 4194303) "objectName") example_address (Some 5)
       (localDevice example_app) = Return self' /\
     _response self' = Some (RespReadPropertyACK a) /\
     ReadPropertyACK.objectIdentifier a = ("device", 36113) /\
     ReadPropertyACK.objectName a = Some "Conpot BACnet") /\
  (exists self' a,
     readProperty (example_library (who_is None None, None)) loaded_app
       (read_property ("device", 4194303) "objectName") example_address (Some 5)
       (localDevice loaded_app) = Return self' /\
     _response self' = Some (RespReadPropertyACK a) /\
     ReadPropertyACK.objectIdentifier a = ("device", 36113) /\
     ReadPropertyACK.objectName a = None).
Proof.
  split.
  - eexists. eexists. split; [reflexivity|]. split; [reflexivity|].
    split; [reflexivity|].
    exact (proj1 (proj2 (proj2
      (readProperty_ack_names_the_registered_object
         (example_library (who_is None None, None)) example_app _
         {| ReadPropertyRequest.objectIdentifier := Some ("device", 4194303);
            ReadPropertyRequest.propertyIdentifier := "objectName";
            ReadPropertyRequest.propertyArrayIndex := None |}
         None None example_address (Some 5) (localDevice example_app) _
         eq_refl eq_refl)))).
  - eexists. eexists. split; [reflexivity|]. split; [reflexivity|].
    split; [reflexivity|].
    exact (proj1 (proj2 (proj2
      (readProperty_ack_names_the_registered_object
         (example_library (who_is None None, None)) loaded_app _
         {| ReadPropertyRequest.objectIdentifier := Some ("device", 4194303);
            ReadPropertyRequest.propertyIdentifier := "objectName";
            ReadPropertyRequest.propertyArrayIndex := None |}
         None None example_address (Some 5) (localDevice loaded_app) _
         eq_refl eq_refl)))).
Defined.

(** X7: when the reader fails on the matched object with an
    [ExecutionError] other than [unknownProperty], Read-Property answers an
    Error that carries the class and the code of the exception, both
    propagated, with the request as its context; the service name recorded
    for the response is left as it was. *)
Theorem readProperty_propagates_read_error (lib : Bacpypes) (self : BACnetApp)
    (r : ReadPropertyRequest.t) (src : option Address) (ik : option Z) (address : SockAddr)
    (invoke_key : option Z) (device : Device.t) (rid obj : ObjectIdentifier)
    (target : Obj.t) (cls code : string) :
  let request := {| pduSource := src; req_apduInvokeID := ik; body := ReqReadProperty r |} in
  ReadPropertyRequest.objectIdentifier r = Some rid ->
  find (readProperty_match rid) (Device.objectList device) = Some obj ->
  target = match dict_get (objectIdentifier self) obj with
           | Some o => o
           | None => Device.base (localDevice self)
           end ->
  read_property_to_any lib target (ReadPropertyRequest.propertyIdentifier r)
    (ReadPropertyRequest.propertyArrayIndex r) = Raise (ExecutionError cls code) ->
  code <> "unknownProperty" ->
  exists self' e,
    readProperty lib self request address invoke_key device = Return self' /\
    _response self' = Some (RespError e) /\
    Error.errorClass e = cls /\
    Error.errorCode e = code /\
    Error.context e = request /\
    _response_service self' = _response_service self.
Proof.
  intros request Hid Hfind Htarget Hread Hcode.
  unfold readProperty, Device.objectList_value_1, request.
  rewrite (readProperty_loop_found lib self address invoke_key r src ik rid Hid _ obj Hfind).
  assert (Hanswer : forall name,
    readProperty_answer lib self
      {| pduSource := src; req_apduInvokeID := ik; body := ReqReadProperty r |}
      address invoke_key obj target name
    = Return (set_response self
        (Some (RespError {| Error.errorClass := cls; Error.errorCode := code;
                            Error.context :=
                              {| pduSource := src; req_apduInvokeID := ik;
                                 body := ReqReadProperty r |} |})))).
  { intros name. unfold readProperty_answer, get_propertyIdentifier, get_propertyArrayIndex.
    cbn [body bind]. unfold read_or_null. rewrite Hread.
    rewrite (proj2 (String.eqb_neq code "unknownProperty") Hcode). reflexivity. }
  unfold dict_contains, dict_getitem.
  destruct (dict_get (objectIdentifier self) obj) as [o|]; subst target; cbn [bind];
    rewrite Hanswer; eexists; eexists; (split; [reflexivity|]); cbn; repeat split; reflexivity.
Qed.

Lemma readProperty_propagates_read_error_witness :
  let request :=
    request_of (ReqReadProperty {| ReadPropertyRequest.objectIdentifier := Some ("analogInput", 14);
                                   ReadPropertyRequest.propertyIdentifier := "presentValue";
                                   ReadPropertyRequest.propertyArrayIndex := Some 2 |}) in
  exists self' e,
    readProperty (indexing_library (who_is None None, None)) example_app request
      example_address (Some 5) (localDevice example_app) = Return self' /\
    _response self' = Some (RespError e) /\
    Error.errorClass e = "property" /\
    Error.errorCode e = "propertyIsNotAnArray".
Proof.
  intros request.
  destruct (readProperty_propagates_read_error (indexing_library (who_is None None, None))
              example_app
              {| ReadPropertyRequest.objectIdentifier := Some ("analogInput", 14);
                 ReadPropertyRequest.propertyIdentifier := "presentValue";
                 ReadPropertyRequest.propertyArrayIndex := Some 2 |}
              None None example_address (Some 5) (localDevice example_app)
              ("analogInput", 14) ("analogInput", 14) example_AI
              "property" "propertyIsNotAnArray"
              eq_refl eq_refl eq_refl eq_refl)
    as (self' & e & Hrun & Hresp & Hcls & Hcode & _).
  - discriminate.
  - exists self', e. repeat split; assumption.
Defined.

Lemma readProperty_match_exact (rid x : ObjectIdentifier) :
  snd rid <> 4194303 -> (readProperty_match rid x = true <-> x = rid).
Proof.
  intros Hnw. destruct rid as [t i], x as [t' i']; unfold readProperty_match; cbn [fst snd] in *.
  rewrite andb_true_iff, orb_true_iff, !Z.eqb_eq, String.eqb_eq.
  split.
  - intros [[Hw|Hi] Ht]; [contradiction | subst; reflexivity].
  - intros E. injection E as -> ->. auto.
Qed.

Lemma find_unique {A : Type} (f : A -> bool) (l : list A) (a : A) :
  (forall x, f x = true <-> x = a) -> In a l -> find f l = Some a.
Proof.
  intros Hf. induction l as [|x l IH]; intros Hin; [destruct Hin|]. cbn [find].
  destruct (f x) eqn:E.
  - apply Hf in E. subst x. reflexivity.
  - destruct Hin as [->|Hin]; [|exact (IH Hin)].
    rewrite (proj2 (Hf a) eq_refl) in E. discriminate.
Qed.

(** X8: every object registered through [add_objects] is readable under its
    identifier (4194303, the wildcard, apart), whatever the state the
    registrations started from: a Read-Property for it is answered with a
    Read-Property-Ack that carries that identifier, the name of that very
    object, the invoke id given, and the value the reader returns for that
    object. *)
Theorem readProperty_reads_every_added_object (lib : Bacpypes) (self0 self : BACnetApp)
    (objs : list Obj.t) (obj : Obj.t) (r : ReadPropertyRequest.t)
    (src : option Address) (ik : option Z) (address : SockAddr) (invoke_key : option Z)
    (v : Any) :
  let request := {| pduSource := src; req_apduInvokeID := ik; body := ReqReadProperty r |} in
  add_objects self0 objs = Return self ->
  In obj objs ->
  ReadPropertyRequest.objectIdentifier r = Some (Obj.objectIdentifier obj) ->
  snd (Obj.objectIdentifier obj) <> 4194303 ->
  read_property_to_any lib obj (ReadPropertyRequest.propertyIdentifier r)
    (ReadPropertyRequest.propertyArrayIndex r) = Return v ->
  exists self' a,
    readProperty lib self request address invoke_key (localDevice self) = Return self' /\
    _response self' = Some (RespReadPropertyACK a) /\
    ReadPropertyACK.objectIdentifier a = Obj.objectIdentifier obj /\
    ReadPropertyACK.objectName a = Some (Obj.objectName obj) /\
    ReadPropertyACK.apduInvokeID a = invoke_key /\
    ReadPropertyACK.propertyIdentifier a = ReadPropertyRequest.propertyIdentifier r /\
    ReadPropertyACK.propertyValue a = v /\
    ReadPropertyACK.pduDestination a = PduAddress address.
Proof.
  intros request Hrun Hin Hid Hnw Hread.
  destruct (add_objects_appends objs self0 self Hrun) as (_ & _ & Hobjs & _).
  assert (Hget := add_objects_lookup objs self0 self obj Hrun Hin).
  assert (Hfind : find (readProperty_match (Obj.objectIdentifier obj))
                       (Device.objectList (localDevice self))
                  = Some (Obj.objectIdentifier obj)).
  { apply find_unique; [intros x; apply readProperty_match_exact; exact Hnw|].
    rewrite Hobjs. apply in_or_app. right. apply in_map. exact Hin. }
  unfold readProperty, Device.objectList_value_1, request.
  rewrite (readProperty_loop_found lib self address invoke_key r src ik _ Hid _ _ Hfind).
  unfold dict_contains, dict_getitem. rewrite Hget. cbn [bind].
  rewrite (readProperty_answer_value lib self address invoke_key r src ik _ obj _ v Hread).
  eexists. eexists. split; [reflexivity|]. cbn. repeat split; reflexivity.
Qed.

Lemma readProperty_reads_every_added_object_witness :
  exists self self' a,
    add_objects (set_deviceIdentifier (init stock_Application_init example_device)
                                      ("device", 36113))
                [example_BI; example_AI] = Return self /\
    readProperty (example_library (who_is None None, None)) self
      (read_property ("analogInput", 14) "presentValue") example_address (Some 101)
      (localDevice self) = Return self' /\
    _response self' = Some (RespReadPropertyACK a) /\
    ReadPropertyACK.objectIdentifier a = ("analogInput", 14) /\
    ReadPropertyACK.objectName a = Some "AI 01" /\
    ReadPropertyACK.propertyValue a = AnyValue "Real" "68.0".
Proof.
  exists loaded_app.
  destruct (readProperty_reads_every_added_object
              (example_library (who_is None None, None))
              (set_deviceIdentifier (init stock_Application_init example_device)
                                    ("device", 36113))
              loaded_app [example_BI; example_AI] example_AI
              {| ReadPropertyRequest.objectIdentifier := Some ("analogInput", 14);
                 ReadPropertyRequest.propertyIdentifier := "presentValue";
                 ReadPropertyRequest.propertyArrayIndex := None |}
              None None example_address (Some 101) (AnyValue "Real" "68.0")
              eq_refl (or_intror (or_introl eq_refl)) eq_refl)
    as (self' & a & Hrun & Hresp & Hobj & Hname & _ & _ & Hval & _).
  - cbn. lia.
  - reflexivity.
  - exists self', a. split; [reflexivity|]. repeat split; assumption.
Defined.

(** ** Read-Property-Multiple: what the results hold *)

Section ReadPropertyMultipleResults.

Variable lib : Bacpypes.

Lemma is_unknownProperty_false (e : ReadAccessResultElement.t) :
  is_unknownProperty e = false <->
  forall cls, ReadAccessResultElement.readResult e <> propertyAccessError cls "unknownProperty".
Proof.
  unfold is_unknownProperty. destruct (ReadAccessResultElement.readResult e) as [v|cls code].
  - split; [intros _ cls; discriminate | reflexivity].
  - rewrite String.eqb_neq. split.
    + intros Hne cls' E. injection E as _ E. exact (Hne E).
    + intros H E. subst code. exact (H cls eq_refl).
Qed.

Lemma select_properties_defined (obj : Obj.t) (pid : PropertyIdentifier) (idx : option Z)
    (props : list (PropertyIdentifier * Property)) :
  Forall (fun e => is_unknownProperty e = false) (select_properties lib obj pid idx props).
Proof.
  induction props as [|[propId prop] props IH]; cbn [select_properties]; [constructor|].
  assert (Hread : Forall (fun e => is_unknownProperty e = false)
            (if is_unknownProperty (read_element lib (Some obj) propId idx)
             then select_properties lib obj pid idx props
             else read_element lib (Some obj) propId idx
                  :: select_properties lib obj pid idx props)).
  { destruct (is_unknownProperty (read_element lib (Some obj) propId idx)) eqn:E;
      [exact IH | constructor; [exact E | exact IH]]. }
  destruct (String.eqb propId "propertyList"); [exact IH|].
  destruct (String.eqb pid "all"); [exact Hread|].
  destruct (String.eqb pid "required" && optional prop)%bool; [exact IH|].
  destruct (String.eqb pid "optional" && negb (optional prop))%bool; [exact IH | exact Hread].
Qed.

Lemma reference_results_defined (obj : option Obj.t) (ref : PropertyReference.t) :
  Forall (fun e => is_unknownProperty e = false) (reference_results lib obj ref).
Proof.
  unfold reference_results.
  destruct (is_selector (PropertyReference.propertyIdentifier ref)).
  - destruct obj as [o|]; [apply select_properties_defined|].
    constructor; [reflexivity | constructor].
  - destruct (is_unknownProperty (read_element lib obj _ _)) eqn:E;
      [constructor | constructor; [exact E | constructor]].
Qed.

(** Each result of the loop is labelled with the identifier the resolution
    kept and lists what the references yield on the object it found. *)
Lemma readPropertyMultiple_loop_resolved (self : BACnetApp) (device : Device.t)
    (specs : list ReadAccessSpecification.t) :
  forall results,
    readPropertyMultiple_loop lib self device specs = Return results ->
    Forall2 (fun spec result =>
               exists found,
                 resolve self device (ReadAccessSpecification.objectIdentifier spec)
                   = Return found /\
                 ReadAccessResult.objectIdentifier result = fst found /\
                 ReadAccessResult.listOfResults result
                   = flat_map (reference_results lib (snd found))
                       (ReadAccessSpecification.listOfPropertyReferences spec))
            specs results.
Proof.
  induction specs as [|spec specs IH]; intros results Hrun; cbn [readPropertyMultiple_loop] in Hrun.
  - injection Hrun as <-. constructor.
  - destruct (resolve self device (ReadAccessSpecification.objectIdentifier spec))
      as [found|] eqn:Hfound; cbn [bind] in Hrun; [|discriminate].
    destruct (readPropertyMultiple_loop lib self device specs) as [rest|]; cbn [bind] in Hrun;
      [|discriminate].
    injection Hrun as <-. constructor; [|apply IH; reflexivity].
    exists found. split; [exact Hfound|]. split; reflexivity.
Qed.

End ReadPropertyMultipleResults.

(** X9: a Read-Property-Multiple-Ack never reports an unknown property:
    whatever the library returns, no element of any result list is an access
    error with code "unknownProperty"; such elements are left out. *)
Theorem readPropertyMultiple_omits_unknownProperty (lib : Bacpypes) (self self' : BACnetApp)
    (request : Request) (address : SockAddr) (invoke_key : option Z) (device : Device.t)
    (ack : ReadPropertyMultipleACK.t) :
  readPropertyMultiple lib self request address invoke_key device = Return self' ->
  _response self' = Some (RespReadPropertyMultipleACK ack) ->
  Forall (fun result =>
            Forall (fun e => forall cls,
                      ReadAccessResultElement.readResult e
                        <> propertyAccessError cls "unknownProperty")
                   (ReadAccessResult.listOfResults result))
         (ReadPropertyMultipleACK.listOfReadAccessResults ack).
Proof.
  unfold readPropertyMultiple.
  destruct (get_listOfReadAccessSpecs request) as [[specs|]|]; cbn [bind]; try discriminate.
  destruct (readPropertyMultiple_loop lib self device specs) as [results|] eqn:Hloop;
    cbn [bind]; [|discriminate].
  intros Hrun Hresp. injection Hrun as <-. cbn [_response set_response] in Hresp.
  injection Hresp as <-. cbn [ReadPropertyMultipleACK.listOfReadAccessResults].
  pose proof (readPropertyMultiple_loop_resolved lib self device specs results Hloop) as Hall.
  clear Hloop. induction Hall as [|spec result specs results (found & _ & _ & Hlist) _ IH];
    constructor; [|exact IH].
  rewrite Hlist. apply Forall_flat_map. apply Forall_forall. intros ref _.
  eapply Forall_impl; [|apply reference_results_defined].
  intros e He. apply is_unknownProperty_false. exact He.
Qed.

Lemma readPropertyMultiple_omits_unknownProperty_witness :
  let specs :=
    [ {| ReadAccessSpecification.objectIdentifier := ("analogInput", 14);
         ReadAccessSpecification.listOfPropertyReferences :=
           [property_reference "description"; property_reference "presentValue"] |} ] in
  exists self' ack,
    readPropertyMultiple (example_library (who_is None None, None)) example_app
      (read_property_multiple specs) example_address None (localDevice example_app)
      = Return self' /\
    _response self' = Some (RespReadPropertyMultipleACK ack) /\
    map (fun result => List.length (ReadAccessResult.listOfResults result))
        (ReadPropertyMultipleACK.listOfReadAccessResults ack) = [1%nat] /\
    Forall (fun result =>
              Forall (fun e => forall cls,
                        ReadAccessResultElement.readResult e
                          <> propertyAccessError cls "unknownProperty")
                     (ReadAccessResult.listOfResults result))
           (ReadPropertyMultipleACK.listOfReadAccessResults ack).
Proof.
  intros specs. eexists. eexists. split; [reflexivity|]. split; [reflexivity|].
  split; [reflexivity|].
  apply (readPropertyMultiple_omits_unknownProperty
           (example_library (who_is None None, None)) example_app _
           (read_property_multiple specs) example_address None (localDevice example_app) _
           eq_refl eq_refl).
Defined.

(** X10: the selectors of Read-Property-Multiple are the selector "all" on a
    part of the properties: "required" on those that are not optional,
    "optional" on those that are, and "all" itself never reads the
    "propertyList" property. *)
Theorem select_properties_by_optionality (lib : Bacpypes) (obj : Obj.t) (idx : option Z)
    (props : list (PropertyIdentifier * Property)) :
  select_properties lib obj "required" idx props
    = select_properties lib obj "all" idx (filter (fun p => negb (optional (snd p))) props) /\
  select_properties lib obj "optional" idx props
    = select_properties lib obj "all" idx (filter (fun p => optional (snd p)) props) /\
  select_properties lib obj "all" idx props
    = select_properties lib obj "all" idx
        (filter (fun p => negb (String.eqb (fst p) "propertyList")) props).
Proof.
  assert (Era : String.eqb "required" "all" = false) by reflexivity.
  assert (Eoa : String.eqb "optional" "all" = false) by reflexivity.
  assert (Eor : String.eqb "optional" "required" = false) by reflexivity.
  assert (Erq : String.eqb "required" "optional" = false) by reflexivity.
  assert (Err : String.eqb "required" "required" = true) by reflexivity.
  assert (Eoo : String.eqb "optional" "optional" = true) by reflexivity.
  assert (Eaa : String.eqb "all" "all" = true) by reflexivity.
  induction props as [|[propId [opt]] props (IHr & IHo & IHa)]; [repeat split; reflexivity|].
  cbn [filter select_properties optional snd fst].
  rewrite Era, Eoa, Eor, Erq, Err, Eoo, Eaa. cbn [andb].
  destruct (String.eqb propId "propertyList") eqn:Epl; destruct opt; cbn [negb filter];
    cbn [select_properties]; rewrite ?Epl, ?Eaa, ?IHr, ?IHo, <- ?IHa; repeat split; reflexivity.
Qed.




(** ** What the handlers and the dispatcher leave alone *)

Lemma same_store_refl (self : BACnetApp) : same_store self self.
Proof. repeat split. Qed.

Lemma same_store_set_response (self : BACnetApp) (r : option Response) :
  same_store self (set_response self r).
Proof. repeat split. Qed.

Lemma same_store_answer (self : BACnetApp) (s : string) (r : option Response) :
  same_store self (set_response (set_response_service self s) r).
Proof. repeat split. Qed.

Lemma whoIs_same_store (self self' : BACnetApp) (request : Request) (address : SockAddr)
    (invoke_key : option Z) (device : Device.t) :
  whoIs self request address invoke_key device = Return self' -> same_store self self'.
Proof.
  unfold whoIs. destruct (execute_flag self request) as [[|]|]; cbn [bind];
    intros Hrun; try discriminate; injection Hrun as <-;
    [apply same_store_answer | apply same_store_refl].
Qed.

Lemma whoHas_loop_same_store (self self' : BACnetApp) (request : Request) (address : SockAddr)
    (objs : list ObjectIdentifier) :
  whoHas_loop self request address objs = Return self' -> same_store self self'.
Proof.
  induction objs as [|obj objs IH]; cbn [whoHas_loop].
  - intros Hrun. injection Hrun as <-. apply same_store_refl.
  - destruct (get_object_objectIdentifier request) as [[rid|]|]; cbn [bind]; try discriminate.
    destruct ((snd rid =? snd obj)%Z && String.eqb (fst rid) (fst obj))%bool; [|exact IH].
    destruct (dict_getitem (objectIdentifier self) obj) as [o|]; cbn [bind]; [|discriminate].
    intros Hrun. injection Hrun as <-. apply same_store_answer.
Qed.

Lemma whoHas_same_store (self self' : BACnetApp) (request : Request) (address : SockAddr)
    (invoke_key : option Z) (device : Device.t) :
  whoHas self request address invoke_key device = Return self' -> same_store self self'.
Proof.
  unfold whoHas. destruct (execute_flag self request) as [[|]|]; cbn [bind];
    try discriminate.
  - apply whoHas_loop_same_store.
  - intros Hrun. injection Hrun as <-. apply same_store_refl.
Qed.

Lemma readProperty_answer_same_store (lib : Bacpypes) (self self' : BACnetApp)
    (request : Request) (address : SockAddr) (invoke_key : option Z) (obj : ObjectIdentifier)
    (target : Obj.t) (name : option string) :
  readProperty_answer lib self request address invoke_key obj target name = Return self' ->
  same_store self self'.
Proof.
  unfold readProperty_answer.
  destruct (get_propertyIdentifier request) as [pid|]; cbn [bind]; [|discriminate].
  destruct (get_propertyArrayIndex request) as [idx|]; cbn [bind]; [|discriminate].
  destruct (read_or_null lib target pid idx) as [[v|cls code]|]; cbn [bind];
    try discriminate; intros Hrun; injection Hrun as <-;
    [apply same_store_answer | apply same_store_set_response].
Qed.

Lemma readProperty_same_store (lib : Bacpypes) (self self' : BACnetApp) (request : Request)
    (address : SockAddr) (invoke_key : option Z) (device : Device.t) :
  readProperty lib self request address invoke_key device = Return self' ->
  same_store self self'.
Proof.
  unfold readProperty. generalize (Device.objectList_value_1 device).
  intros objs. induction objs as [|obj objs IH]; cbn [readProperty_loop];
    destruct (get_objectIdentifier request) as [[rid|]|]; cbn [bind]; try discriminate.
  - intros Hrun. injection Hrun as <-. apply same_store_set_response.
  - destruct (readProperty_match rid obj); [|exact IH].
    destruct (dict_contains (objectIdentifier self) obj).
    + destruct (dict_getitem (objectIdentifier self) obj) as [o|]; cbn [bind];
        [|discriminate]. apply readProperty_answer_same_store.
    + apply readProperty_answer_same_store.
Qed.

Lemma readPropertyMultiple_same_store (lib : Bacpypes) (self self' : BACnetApp)
    (request : Request) (address : SockAddr) (invoke_key : option Z) (device : Device.t) :
  readPropertyMultiple lib self request address invoke_key device = Return self' ->
  same_store self self'.
Proof.
  unfold readPropertyMultiple.
  destruct (get_listOfReadAccessSpecs request) as [[specs|]|]; cbn [bind]; try discriminate.
  destruct (readPropertyMultiple_loop lib self device specs) as [results|]; cbn [bind];
    [|discriminate].
  intros Hrun. injection Hrun as <-. apply same_store_answer.
Qed.

(** Every handler that [getattr] can return only writes the response. *)
Lemma getattr_handler_same_store (lib : Bacpypes) (key : string) (h : Handler) :
  getattr lib key = IsHandler h ->
  forall self self' request address invoke_key device,
    h self request address invoke_key device = Return self' -> same_store self self'.
Proof.
  unfold getattr.
  repeat match goal with
         | |- context [if String.eqb key ?s then _ else _] => destruct (String.eqb key s)
         end;
    try (destruct (existsb _ other_attributes)); intros Hh; try discriminate Hh;
    injection Hh as <-; intros self self' request address invoke_key device.
  - unfold iAm. intros Hrun. injection Hrun as <-. apply same_store_set_response.
  - unfold iHave. intros Hrun. injection Hrun as <-. apply same_store_set_response.
  - apply whoIs_same_store.
  - apply whoHas_same_store.
  - apply readProperty_same_store.
  - apply readPropertyMultiple_same_store.
Qed.

Lemma call_handler_same_store (lib : Bacpypes) (self self' : BACnetApp) (key : string)
    (request : Request) (address : SockAddr) (invoke_key : option Z) (device : Device.t) :
  call_handler lib self key request address invoke_key device = Return self' ->
  same_store self self'.
Proof.
  unfold call_handler. destruct (getattr lib key) as [h| |] eqn:Hattr.
  - destruct (h self request address invoke_key device) as [self1|e] eqn:Hrun.
    + intros E. injection E as <-.
      exact (getattr_handler_same_store lib key h Hattr _ _ _ _ _ _ Hrun).
    + destruct (is_AttributeError e); [|discriminate].
      intros E. injection E as <-. apply same_store_set_response.
  - discriminate.
  - intros E. injection E as <-. apply same_store_set_response.
Qed.

(** X12: request processing is read-only on the device model: whenever
    [indication] returns, the device, both dictionaries and the device
    identifier are what they were, and nothing has been handed to the
    datagram server; only the response and the service name recorded for it
    can have changed. *)
Theorem indication_only_writes_the_response (lib : Bacpypes) (self self' : BACnetApp)
    (apdu : APDU) (address : SockAddr) (device : Device.t) :
  indication lib self apdu address device = Return self' ->
  localDevice self' = localDevice self /\
  objectName self' = objectName self /\
  objectIdentifier self' = objectIdentifier self /\
  deviceIdentifier self' = deviceIdentifier self /\
  datagram_server self' = datagram_server self.
Proof.
  intros Hrun. change (same_store self self'). revert Hrun.
  unfold indication. destruct (apdu_types lib (apduType apdu)) as [apdu_type|]; [|discriminate].
  destruct (pduType apdu_type =? 0)%Z.
  { unfold indication_confirmed.
    destruct (confirmed_request_types lib (apduService apdu)) as [apdu_service|];
      [|discriminate].
    destruct (decode lib apdu_service apdu) as [request raised].
    assert (Hdispatch : forall s,
      match service_key (ConfirmedServiceChoice lib) (serviceChoice apdu_service) with
      | Some key => call_handler lib self key request address (apduInvokeID apdu) device
      | None => Return (set_response self None)
      end = Return s -> same_store self s).
    { intros s. destruct (service_key _ _) as [key|].
      - apply call_handler_same_store.
      - intros E. injection E as <-. apply same_store_set_response. }
    destruct raised as [e|]; [|apply Hdispatch].
    destruct (is_AttributeError e || is_RuntimeError e || is_InvalidParameterDatatype e)%bool.
    - intros E. injection E as <-. apply same_store_refl.
    - destruct (is_DecodingError e); [apply Hdispatch | discriminate]. }
  destruct (pduType apdu_type =? 1)%Z.
  { unfold indication_unconfirmed.
    destruct (unconfirmed_request_types lib (apduService apdu)) as [apdu_service|];
      [|discriminate].
    destruct (decode lib apdu_service apdu) as [request raised].
    assert (Hdispatch : forall s,
      match service_key (UnconfirmedServiceChoice lib) (serviceChoice apdu_service) with
      | Some key => call_handler lib self key request address (apduInvokeID apdu) device
      | None => Return (set_response (set_response_service self "ErrorPDU")
                          (Some (ErrorPDU_to address)))
      end = Return s -> same_store self s).
    { intros s. destruct (service_key _ _) as [key|].
      - apply call_handler_same_store.
      - intros E. injection E as <-. apply same_store_answer. }
    destruct raised as [e|]; [|apply Hdispatch].
    destruct (is_AttributeError e || is_RuntimeError e)%bool.
    - intros E. injection E as <-. apply same_store_set_response.
    - destruct (is_DecodingError e); [apply Hdispatch | discriminate]. }
  repeat match goal with |- context [if ?b then _ else _] => destruct b end;
    intros E; injection E as <-; apply same_store_set_response.
Qed.

Lemma indication_only_writes_the_response_witness :
  exists self',
    indication (example_library (read_property ("analogInput", 14) "presentValue", None))
      example_app
      {| apduType := 0; apduService := 12; apduInvokeID := Some 101; pduData := [] |}
      example_address (localDevice example_app) = Return self' /\
    _response self' <> None /\
    localDevice self' = localDevice example_app /\
    objectName self' = objectName example_app /\
    objectIdentifier self' = objectIdentifier example_app /\
    deviceIdentifier self' = deviceIdentifier example_app /\
    datagram_server self' = datagram_server example_app.
Proof.
  eexists. split; [reflexivity|]. split; [discriminate|].
  apply (indication_only_writes_the_response
           (example_library (read_property ("analogInput", 14) "presentValue", None))
           example_app _
           {| apduType := 0; apduService := 12; apduInvokeID := Some 101; pduData := [] |}
           example_address (localDevice example_app) eq_refl).
Defined.

(** ** Exceptions raised by a handler *)

(** X13: what the dispatcher does when the handler of a decoded request
    raises: an [AttributeError] is taken for a missing command, and the
    dispatcher returns with the response cleared; an exception of any other
    class leaves [indication] uncaught. *)
Theorem indication_handler_exception (lib : Bacpypes) (self : BACnetApp) (apdu : APDU)
    (address : SockAddr) (device : Device.t) (apdu_type : ApduClass)
    (apdu_service : ServiceClass) (request : Request) (key : string) (h : Handler) (e : exn) :
  apdu_types lib (apduType apdu) = Some apdu_type ->
  (pduType apdu_type = 0 /\
   confirmed_request_types lib (apduService apdu) = Some apdu_service /\
   service_key (ConfirmedServiceChoice lib) (serviceChoice apdu_service) = Some key)
  \/
  (pduType apdu_type = 1 /\
   unconfirmed_request_types lib (apduService apdu) = Some apdu_service /\
   service_key (UnconfirmedServiceChoice lib) (serviceChoice apdu_service) = Some key) ->
  decode lib apdu_service apdu = (request, None) ->
  getattr lib key = IsHandler h ->
  h self request address (apduInvokeID apdu) device = Raise e ->
  (e = AttributeError ->
     exists self', indication lib self apdu address device = Return self' /\
                   _response self' = None /\ same_store self self') /\
  (e <> AttributeError -> indication lib self apdu address device = Raise e).
Proof.
  intros Hcls Hcase Hdec Hattr Hraise.
  assert (Hcall : call_handler lib self key request address (apduInvokeID apdu) device
                  = if is_AttributeError e then Return (set_response self None) else Raise e).
  { unfold call_handler. rewrite Hattr, Hraise. reflexivity. }
  assert (Hrun : indication lib self apdu address device
                 = if is_AttributeError e then Return (set_response self None) else Raise e).
  { unfold indication. rewrite Hcls.
    destruct Hcase as [(Ht & Hsvc & Hkey) | (Ht & Hsvc & Hkey)]; rewrite Ht;
      cbn [Z.eqb Pos.eqb].
    - unfold indication_confirmed. rewrite Hsvc, Hdec, Hkey. exact Hcall.
    - unfold indication_unconfirmed. rewrite Hsvc, Hdec, Hkey. exact Hcall. }
  rewrite Hrun. split.
  - intros ->. exists (set_response self None). repeat split.
  - intros Hne. destruct e; try reflexivity. contradiction.
Qed.

Lemma indication_handler_exception_witness :
  (exists self',
     indication (example_library (request_of (ReqOther "ReadPropertyRequest"), None))
       example_app
       {| apduType := 0; apduService := 12; apduInvokeID := Some 1; pduData := [] |}
       example_address (localDevice example_app) = Return self' /\
     _response self' = None) /\
  indication
    (example_library
       (request_of (ReqWhoHas {| WhoHasRequest.deviceInstanceRangeLowLimit := None;
                                 WhoHasRequest.deviceInstanceRangeHighLimit := None;
                                 WhoHasRequest.object_objectIdentifier := None;
                                 WhoHasRequest.object_objectName := Some "BI 01" |}), None))
    example_app
    {| apduType := 1; apduService := 7; apduInvokeID := None; pduData := [] |}
    example_address (localDevice example_app) = Raise TypeError.
Proof.
  split.
  - destruct (proj1 (indication_handler_exception
                (example_library (request_of (ReqOther "ReadPropertyRequest"), None))
                example_app
                {| apduType := 0; apduService := 12; apduInvokeID := Some 1; pduData := [] |}
                example_address (localDevice example_app)
                {| apdu_name := "ConfirmedRequestPDU"; pduType := 0 |}
                {| service_name := "ReadPropertyRequest"; serviceChoice := 12 |}
                (request_of (ReqOther "ReadPropertyRequest")) "readProperty"
                (readProperty (example_library
                                 (request_of (ReqOther "ReadPropertyRequest"), None)))
                AttributeError
                eq_refl (or_introl (conj eq_refl (conj eq_refl eq_refl)))
                eq_refl eq_refl eq_refl) eq_refl)
      as (self' & Hrun & Hresp & _).
    exists self'. split; assumption.
  - apply (proj2 (indication_handler_exception
                (example_library
                   (request_of (ReqWhoHas
                      {| WhoHasRequest.deviceInstanceRangeLowLimit := None;
                         WhoHasRequest.deviceInstanceRangeHighLimit := None;
                         WhoHasRequest.object_objectIdentifier := None;
                         WhoHasRequest.object_objectName := Some "BI 01" |}), None))
                example_app
                {| apduType := 1; apduService := 7; apduInvokeID := None; pduData := [] |}
                example_address (localDevice example_app)
                {| apdu_name := "UnconfirmedRequestPDU"; pduType := 1 |}
                {| service_name := "WhoHasRequest"; serviceChoice := 7 |}
                (request_of (ReqWhoHas
                      {| WhoHasRequest.deviceInstanceRangeLowLimit := None;
                         WhoHasRequest.deviceInstanceRangeHighLimit := None;
                         WhoHasRequest.object_objectIdentifier := None;
                         WhoHasRequest.object_objectName := Some "BI 01" |}))
                "whoHas" whoHas TypeError
                eq_refl (or_intror (conj eq_refl (conj eq_refl eq_refl)))
                eq_refl eq_refl eq_refl)).
    discriminate.
Defined.

(** X14: a Who-Has that references the object by name, not by identifier,
    is not served.  When it passes the range filter and the device owns at
    least one object besides itself, the handler raises [TypeError] at the
    first entry; when the device owns none, it returns without a response. *)
Theorem whoHas_by_name_is_not_served (self : BACnetApp) (r : WhoHasRequest.t)
    (src : option Address) (ik : option Z) (address : SockAddr) (invoke_key : option Z)
    (device : Device.t) :
  let request := {| pduSource := src; req_apduInvokeID := ik; body := ReqWhoHas r |} in
  WhoHasRequest.object_objectIdentifier r = None ->
  execute_flag self request = Return true ->
  whoHas self request address invoke_key device
    = match Device.objectList_value_2 device with
      | [] => Return self
      | _ :: _ => Raise TypeError
      end.
Proof.
  intros request Hname Hex. unfold whoHas. rewrite Hex; cbn [bind].
  destruct (Device.objectList_value_2 device) as [|obj objs]; cbn [whoHas_loop];
    [reflexivity|].
  unfold get_object_objectIdentifier; cbn [body request bind]. rewrite Hname. reflexivity.
Qed.

Lemma whoHas_by_name_is_not_served_witness :
  let r := {| WhoHasRequest.deviceInstanceRangeLowLimit := None;
              WhoHasRequest.deviceInstanceRangeHighLimit := None;
              WhoHasRequest.object_objectIdentifier := None;
              WhoHasRequest.object_objectName := Some "BI 01" |} in
  whoHas example_app (request_of (ReqWhoHas r)) example_address None (localDevice example_app)
    = Raise TypeError /\
  whoHas (init stock_Application_init example_device) (request_of (ReqWhoHas r))
         example_address None example_device
    = Return (init stock_Application_init example_device).
Proof.
  intros r. split.
  - apply (whoHas_by_name_is_not_served example_app r None None example_address None
             (localDevice example_app) eq_refl eq_refl).
  - apply (whoHas_by_name_is_not_served (init stock_Application_init example_device) r
             None None example_address None
             example_device eq_refl eq_refl).
Defined.

(** ** The range filter, exactly *)



(** ** Transmission *)

(** X16: whenever the transmitter sends, it appends exactly one datagram to
    what the datagram server was given, carrying the response, and addressed
    to the socket address of the requester itself: the branch that would
    send to the port on every interface is never reached, since a broadcast
    destination other than the local one has raised before.  Nothing else of
    the application changes. *)
Theorem response_sends_one_datagram_to_the_requester (self self' : BACnetApp) (r : Response)
    (address : SockAddr) :
  response self (Some r) address = Return self' ->
  exists f,
    datagram_server self'
      = (datagram_server self
         ++ [{| bvlciFunction := f; payload := r; sent_to := address |}])%list /\
    _response self' = _response self /\
    _response_service self' = _response_service self /\
    localDevice self' = localDevice self /\
    objectIdentifier self' = objectIdentifier self.
Proof.
  unfold response. destruct (pduDestination r) as [destination|]; [|discriminate].
  destruct destination; cbn [addrType bind address_eqb]; try discriminate;
    destruct (is_Reject_or_ErrorPDU r); intros Hrun; injection Hrun as <-;
    eexists; cbn; repeat split; reflexivity.
Qed.

Lemma response_sends_one_datagram_to_the_requester_witness :
  exists self' f,
    response example_app
      (Some (RespErrorPDU {| ErrorPDU.pduDestination := LocalBroadcast |}))
      example_address = Return self' /\
    datagram_server self'
      = [{| bvlciFunction := f;
            payload := RespErrorPDU {| ErrorPDU.pduDestination := LocalBroadcast |};
            sent_to := example_address |}].
Proof.
  eexists.
  destruct (response_sends_one_datagram_to_the_requester example_app _
              (RespErrorPDU {| ErrorPDU.pduDestination := LocalBroadcast |})
              example_address eq_refl) as (f & Hsent & _).
  exists f. split; [reflexivity | exact Hsent].
Defined.

(** X17: the I-Am of a Who-Is that executes goes out as one
    Original-Unicast-NPDU datagram to the requester: the handler addresses
    the response to [PduAddress(address)], a local station, and the
    transmitter frames and sends it accordingly. *)
Theorem whoIs_reply_is_sent_unicast (self : BACnetApp) (request : Request)
    (address : SockAddr) (invoke_key : option Z) (device : Device.t) :
  execute_flag self request = Return true ->
  exists self1 m,
    whoIs self request address invoke_key device = Return self1 /\
    _response self1 = Some (RespIAm m) /\
    response self1 (_response self1) address
      = Return (sendto self1 {| bvlciFunction := OriginalUnicastNPDU;
                                payload := RespIAm m;
                                sent_to := address |}).
Proof.
  intros Hex. unfold whoIs. rewrite Hex; cbn [bind].
  eexists. eexists. split; [reflexivity|]. split; reflexivity.
Qed.

Lemma whoIs_reply_is_sent_unicast_witness :
  exists self1 m,
    whoIs example_app (who_is None None) example_address None (localDevice example_app)
      = Return self1 /\
    _response self1 = Some (RespIAm m) /\
    response self1 (_response self1) example_address
      = Return (sendto self1 {| bvlciFunction := OriginalUnicastNPDU;
                                payload := RespIAm m;
                                sent_to := example_address |}).
Proof.
  apply (whoIs_reply_is_sent_unicast example_app (who_is None None) example_address None
           (localDevice example_app) eq_refl).
Defined.

(** X18: the Error that Read-Property answers for an unknown object is
    built from the request ([context=request]) and is given no destination
    of its own: it can be transmitted only when the request carries its
    source.  For a request without source the transmitter raises
    [AttributeError] and sends nothing; for a request that came from a local
    station it sends the Error to the requester as an Original-Unicast-NPDU. *)
Theorem unknownObject_error_needs_the_request_source (lib : Bacpypes) (self : BACnetApp)
    (r : ReadPropertyRequest.t) (src : option Address) (ik : option Z) (address : SockAddr)
    (invoke_key : option Z) (device : Device.t) (rid : ObjectIdentifier) :
  let request := {| pduSource := src; req_apduInvokeID := ik; body := ReqReadProperty r |} in
  ReadPropertyRequest.objectIdentifier r = Some rid ->
  find (readProperty_match rid) (Device.objectList device) = None ->
  exists self1,
    readProperty lib self request address invoke_key device = Return self1 /\
    _response self1 = Some (unknownObject_Error request) /\
    (src = None -> response self1 (_response self1) address = Raise AttributeError) /\
    (forall host port, src = Some (LocalStation host port) ->
       response self1 (_response self1) address
         = Return (sendto self1 {| bvlciFunction := OriginalUnicastNPDU;
                                   payload := unknownObject_Error request;
                                   sent_to := address |})).
Proof.
  intros request Hid Hfind. unfold readProperty, Device.objectList_value_1, request.
  rewrite (readProperty_loop_not_found lib self address invoke_key r src ik rid Hid _ Hfind).
  eexists. split; [reflexivity|]. split; [reflexivity|]. split.
  - intros ->. reflexivity.
  - intros host port ->. reflexivity.
Qed.

Lemma unknownObject_error_needs_the_request_source_witness :
  exists self1,
    readProperty (example_library (who_is None None, None)) example_app
      (read_property ("analogInput", 15) "presentValue") example_address (Some 101)
      (localDevice example_app) = Return self1 /\
    response self1 (_response self1) example_address = Raise AttributeError.
Proof.
  destruct (unknownObject_error_needs_the_request_source
              (example_library (who_is None None, None)) example_app
              {| ReadPropertyRequest.objectIdentifier := Some ("analogInput", 15);
                 ReadPropertyRequest.propertyIdentifier := "presentValue";
                 ReadPropertyRequest.propertyArrayIndex := None |}
              None None example_address (Some 101) (localDevice example_app)
              ("analogInput", 15) eq_refl eq_refl) as (self1 & Hrun & _ & Hnone & _).
  exists self1. split; [exact Hrun | apply Hnone; reflexivity].
Defined.

(** ** Keys and class names derived from the template *)

Ltac each_character c :=
  destruct c as [[] [] [] [] [] [] [] []]; vm_compute.

(** What matters of a lower-case letter: the string methods leave it or
    capitalise it, a capital goes back to it, and neither is deleted. *)
Lemma lower_letter (c : ascii) :
  is_lower c = true ->
  is_upper c = false /\
  lower_char c = c /\
  is_lower (upper_char c) = false /\
  is_upper (upper_char c) = true /\
  lower_char (upper_char c) = c /\
  existsb (Ascii.eqb c) key_class = false /\
  existsb (Ascii.eqb (upper_char c)) key_class = false /\
  existsb (Ascii.eqb c) [" "%char] = false /\
  existsb (Ascii.eqb (upper_char c)) [" "%char] = false /\
  Ascii.eqb c "-" = false.
Proof.
  each_character c; intros H; try discriminate H; repeat split; reflexivity.
Qed.

(** Case conversion moves no character into or out of a class of uncased
    characters. *)
Lemma case_keeps_class (c : ascii) :
  existsb (Ascii.eqb (lower_char c)) key_class = existsb (Ascii.eqb c) key_class /\
  existsb (Ascii.eqb (upper_char (lower_char c))) key_class
    = existsb (Ascii.eqb c) key_class /\
  existsb (Ascii.eqb (lower_char (lower_char c))) key_class
    = existsb (Ascii.eqb c) key_class.
Proof. each_character c; repeat split; reflexivity. Qed.

Lemma append_nil_r (s : string) : s ++ EmptyString = s.
Proof. induction s as [|c s IH]; cbn [append]; [reflexivity | rewrite IH; reflexivity]. Qed.

Lemma append_assoc (a b c : string) : (a ++ b) ++ c = a ++ (b ++ c).
Proof. induction a as [|x a IH]; cbn [append]; [reflexivity | rewrite IH; reflexivity]. Qed.

Lemma lower_word (w : string) : all_lower w = true -> lower w = w.
Proof.
  induction w as [|c w IH]; cbn [all_lower lower]; [reflexivity|].
  intros H. apply andb_true_iff in H. destruct H as [Hc Hw].
  destruct (lower_letter c Hc) as (_ & -> & _). rewrite (IH Hw). reflexivity.
Qed.

Lemma lower_app (a b : string) : lower (a ++ b) = lower a ++ lower b.
Proof. induction a as [|c a IH]; cbn [append lower]; [reflexivity | rewrite IH; reflexivity]. Qed.

Lemma re_sub_delete_app (cls : list ascii) (a b : string) :
  re_sub_delete cls (a ++ b) = re_sub_delete cls a ++ re_sub_delete cls b.
Proof.
  induction a as [|c a IH]; cbn [append re_sub_delete]; [reflexivity|].
  destruct (existsb (Ascii.eqb c) cls); cbn [append]; rewrite IH; reflexivity.
Qed.

(** Inside a word the title case changes nothing; at its start it
    capitalises. *)
Lemma title_inside_word (w s : string) :
  all_lower w = true -> title_from true (w ++ s) = w ++ title_from true s.
Proof.
  induction w as [|c w IH]; cbn [all_lower append title_from]; [reflexivity|].
  intros H. apply andb_true_iff in H. destruct H as [Hc Hw].
  rewrite Hc. cbn [orb]. destruct (lower_letter c Hc) as (_ & -> & _).
  rewrite (IH Hw). reflexivity.
Qed.

Lemma title_at_word (w s : string) :
  is_word w = true -> title_from false (w ++ s) = capitalize w ++ title_from true s.
Proof.
  destruct w as [|c w]; cbn [is_word all_lower]; [discriminate|].
  intros H. apply andb_true_iff in H. destruct H as [Hc Hw].
  cbn [append title_from capitalize]. rewrite Hc. cbn [orb].
  rewrite (title_inside_word w s Hw). reflexivity.
Qed.

Lemma title_from_nil (b : bool) : title_from b EmptyString = EmptyString.
Proof. reflexivity. Qed.

Lemma is_word_all_lower (w : string) : is_word w = true -> all_lower w = true.
Proof. destruct w; [discriminate | auto]. Qed.

Lemma all_lower_app (a b : string) :
  all_lower a = true -> all_lower b = true -> all_lower (a ++ b) = true.
Proof.
  induction a as [|c a IH]; cbn [append all_lower]; [auto|].
  intros H Hb. apply andb_true_iff in H. destruct H as [Hc Ha].
  rewrite Hc, (IH Ha Hb). reflexivity.
Qed.

Section Words.

(** A separator: one character that is not a letter. *)
Variable sep : ascii.
Hypothesis sep_uncased : is_lower sep || is_upper sep = false.

Let separator : string := String sep EmptyString.

Lemma lower_joined (words : list string) :
  forallb is_word words = true -> lower (join separator words) = join separator words.
Proof.
  assert (Hsep : lower_char sep = sep).
  { unfold lower_char. apply orb_false_iff in sep_uncased.
    destruct sep_uncased as [_ ->]. reflexivity. }
  induction words as [|w words IH]; [reflexivity|].
  cbn [forallb]. intros H. apply andb_true_iff in H. destruct H as [Hw Hws].
  destruct words as [|w' words].
  - apply lower_word, is_word_all_lower, Hw.
  - change (join separator (w :: w' :: words))
      with (w ++ String sep (join separator (w' :: words))).
    rewrite lower_app. rewrite (lower_word w (is_word_all_lower w Hw)).
    cbn [lower]. rewrite Hsep, (IH Hws). reflexivity.
Qed.

(** The title case of words joined by a separator capitalises each word. *)
Lemma title_joined (words : list string) :
  forallb is_word words = true ->
  title_from false (join separator words) = join separator (map capitalize words).
Proof.
  induction words as [|w words IH]; [reflexivity|].
  cbn [forallb]. intros H. apply andb_true_iff in H. destruct H as [Hw Hws].
  destruct words as [|w' words].
  - cbn [join map]. rewrite <- (append_nil_r w) at 1.
    rewrite (title_at_word w EmptyString Hw), title_from_nil. apply append_nil_r.
  - change (join separator (w :: w' :: words))
      with (w ++ String sep (join separator (w' :: words))).
    rewrite (title_at_word w _ Hw). cbn [title_from]. rewrite sep_uncased.
    rewrite (IH Hws). reflexivity.
Qed.

End Words.

Lemma delete_spares_word (cls : list ascii) (w : string) :
  (forall c, is_lower c = true -> existsb (Ascii.eqb c) cls = false) ->
  all_lower w = true -> re_sub_delete cls w = w.
Proof.
  intros Hcls. induction w as [|c w IH]; cbn [all_lower re_sub_delete]; [reflexivity|].
  intros H. apply andb_true_iff in H. destruct H as [Hc Hw].
  rewrite (Hcls c Hc), (IH Hw). reflexivity.
Qed.

Lemma delete_spares_capitalized (cls : list ascii) (w : string) :
  (forall c, is_lower c = true ->
     existsb (Ascii.eqb c) cls = false /\ existsb (Ascii.eqb (upper_char c)) cls = false) ->
  is_word w = true -> re_sub_delete cls (capitalize w) = capitalize w.
Proof.
  intros Hcls. destruct w as [|c w]; cbn [is_word all_lower]; [discriminate|].
  intros H. apply andb_true_iff in H. destruct H as [Hc Hw].
  cbn [capitalize re_sub_delete]. rewrite (proj2 (Hcls c Hc)).
  rewrite (delete_spares_word cls w (fun c' Hc' => proj1 (Hcls c' Hc')) Hw). reflexivity.
Qed.

(** Deleting a class from joined words that it spares deletes it from the
    separators only. *)
Lemma delete_joined (cls : list ascii) (sep : string) (words : list string) :
  Forall (fun w => re_sub_delete cls w = w) words ->
  re_sub_delete cls (join sep words) = join (re_sub_delete cls sep) words.
Proof.
  induction 1 as [|w words Hw Hws IH]; [reflexivity|].
  destruct words as [|w' words]; [exact Hw|].
  change (join sep (w :: w' :: words)) with (w ++ sep ++ join sep (w' :: words)).
  change (join (re_sub_delete cls sep) (w :: w' :: words))
    with (w ++ re_sub_delete cls sep ++ join (re_sub_delete cls sep) (w' :: words)).
  rewrite !re_sub_delete_app, Hw, IH. reflexivity.
Qed.

Lemma capitalized_words_spared (cls : list ascii) (words : list string) :
  (forall c, is_lower c = true ->
     existsb (Ascii.eqb c) cls = false /\ existsb (Ascii.eqb (upper_char c)) cls = false) ->
  forallb is_word words = true ->
  Forall (fun w => re_sub_delete cls w = w) (map capitalize words).
Proof.
  intros Hcls. induction words as [|w words IH]; cbn [forallb map]; [constructor|].
  intros H. apply andb_true_iff in H. destruct H as [Hw Hws].
  constructor; [apply delete_spares_capitalized; assumption | exact (IH Hws)].
Qed.

(** Putting the first character back in lower case undoes the capital of
    the first word. *)
Lemma first_lower_joined (sep w : string) (words : list string) :
  is_word w = true ->
  match join sep (capitalize w :: words) with
  | EmptyString => Raise IndexError
  | String c rest => Return (String (lower_char c) rest)
  end = Return (join sep (w :: words)).
Proof.
  destruct w as [|c w]; cbn [is_word all_lower]; [discriminate|].
  intros H. apply andb_true_iff in H. destruct H as [Hc _].
  destruct (lower_letter c Hc) as (_ & _ & _ & _ & Hback & _).
  destruct words as [|w' words]; cbn [join capitalize append]; rewrite Hback; reflexivity.
Qed.

(** X19: the property key derived from a tag made of lower-case words.
    Words separated by underscores give the camel-case key: the first word,
    then the others capitalised, with nothing between.  Words separated by
    hyphens keep their hyphens, which the pattern of the substitution does not
    match, so that such a tag does not give the camel-case key. *)
Theorem prop_key_of_words (w : string) (ws : list string) :
  is_word w = true ->
  forallb is_word ws = true ->
  prop_key_of (join "_" (w :: ws)) = Return (join EmptyString (w :: map capitalize ws)) /\
  prop_key_of (join "-" (w :: ws)) = Return (join "-" (w :: map capitalize ws)).
Proof.
  intros Hw Hws.
  assert (Hall : forallb is_word (w :: ws) = true) by (cbn [forallb]; rewrite Hw, Hws; reflexivity).
  assert (Hspare : forall c, is_lower c = true ->
            existsb (Ascii.eqb c) key_class = false /\
            existsb (Ascii.eqb (upper_char c)) key_class = false).
  { intros c Hc. destruct (lower_letter c Hc) as (_ & _ & _ & _ & _ & H1 & H2 & _). auto. }
  split; unfold prop_key_of, title.
  - rewrite (lower_joined "_"%char eq_refl _ Hall), (title_joined "_"%char eq_refl _ Hall).
    rewrite (delete_joined key_class "_" _ (capitalized_words_spared _ _ Hspare Hall)).
    change (re_sub_delete key_class "_") with EmptyString.
    cbn [map]. apply first_lower_joined, Hw.
  - rewrite (lower_joined "-"%char eq_refl _ Hall), (title_joined "-"%char eq_refl _ Hall).
    rewrite (delete_joined key_class "-" _ (capitalized_words_spared _ _ Hspare Hall)).
    change (re_sub_delete key_class "-") with "-".
    cbn [map]. apply first_lower_joined, Hw.
Qed.

Lemma prop_key_of_words_witness :
  prop_key_of "max_apdu_length_accepted" = Return "maxApduLengthAccepted" /\
  prop_key_of "object-type" = Return "object-Type".
Proof.
  split.
  - apply (proj1 (prop_key_of_words "max" ["apdu"; "length"; "accepted"] eq_refl eq_refl)).
  - apply (proj2 (prop_key_of_words "object" ["type"] eq_refl eq_refl)).
Defined.

Lemma delete_all_iff (b : bool) (s : string) :
  re_sub_delete key_class (title_from b (lower s)) = EmptyString <->
  forall c, In c (list_ascii_of_string s) -> In c key_class.
Proof.
  revert b. induction s as [|c s IH]; intros b; cbn [lower title_from list_ascii_of_string].
  - split; [intros _ c [] | reflexivity].
  - destruct (case_keeps_class c) as (Hl & Hu & Hll).
    assert (Hin : existsb (Ascii.eqb c) key_class = true <-> In c key_class).
    { rewrite existsb_exists. split.
      - intros (x & Hx & E). apply Ascii.eqb_eq in E. subst x. exact Hx.
      - intros Hx. exists c. split; [exact Hx | apply Ascii.eqb_refl]. }
    assert (Hstep : forall c' b', existsb (Ascii.eqb c') key_class
                                  = existsb (Ascii.eqb c) key_class ->
              (re_sub_delete key_class (String c' (title_from b' (lower s))) = EmptyString <->
               forall x, In x (c :: list_ascii_of_string s) -> In x key_class)).
    { intros c' b' Hsame. cbn [re_sub_delete]. rewrite Hsame.
      destruct (existsb (Ascii.eqb c) key_class) eqn:E.
      - rewrite (IH b'). split.
        + intros H x [<-|Hx]; [apply Hin; reflexivity | exact (H x Hx)].
        + intros H x Hx. apply H. right; exact Hx.
      - split; [discriminate|]. intros H. exfalso.
        assert (Hc : In c key_class) by (apply H; left; reflexivity).
        apply Hin in Hc. discriminate Hc. }
    destruct (is_lower (lower_char c) || is_upper (lower_char c))%bool.
    + destruct b; apply Hstep; assumption.
    + apply Hstep; assumption.
Qed.

(** X20: the key derivation fails exactly on the tags in which every
    character is a quote, an underscore or a comma (the empty tag among
    them): nothing is left of them to index, and [IndexError] is raised. *)
Theorem prop_key_of_raises_iff (tag : string) :
  prop_key_of tag = Raise IndexError <->
  forall c, In c (list_ascii_of_string tag) -> c = "'"%char \/ c = "_"%char \/ c = ","%char.
Proof.
  assert (Hclass : forall c, In c key_class <-> c = "'"%char \/ c = "_"%char \/ c = ","%char).
  { intros c. unfold key_class. cbn [In]. intuition congruence. }
  unfold prop_key_of, title. split.
  - intros Hraise c Hc. apply Hclass.
    apply (proj1 (delete_all_iff false tag)); [|exact Hc].
    destruct (re_sub_delete key_class (title_from false (lower tag)));
      [reflexivity | discriminate Hraise].
  - intros H.
    assert (E : re_sub_delete key_class (title_from false (lower tag)) = EmptyString)
      by (apply delete_all_iff; intros c Hc; apply Hclass, H, Hc).
    rewrite E. reflexivity.
Qed.

(** X21: the class name derived from an object type made of lower-case
    words, separated by hyphens or by spaces: the words capitalised and put
    together, followed by "Object". *)
Theorem object_type_of_words (words : list string) :
  forallb is_word words = true ->
  object_type_of (join "-" words) = join EmptyString (map capitalize words) ++ "Object" /\
  object_type_of (join " " words) = join EmptyString (map capitalize words) ++ "Object".
Proof.
  intros Hall.
  assert (Hspare : forall c, is_lower c = true ->
            existsb (Ascii.eqb c) [" "%char] = false /\
            existsb (Ascii.eqb (upper_char c)) [" "%char] = false).
  { intros c Hc. destruct (lower_letter c Hc) as (_ & _ & _ & _ & _ & _ & _ & H1 & H2 & _).
    auto. }
  assert (Hword : forall w, all_lower w = true -> re_sub_char "-" " " w = w).
  { induction w as [|c w IH]; cbn [all_lower re_sub_char]; [reflexivity|].
    intros H. apply andb_true_iff in H. destruct H as [Hc Hw].
    destruct (lower_letter c Hc) as (_ & _ & _ & _ & _ & _ & _ & _ & _ & ->).
    rewrite (IH Hw). reflexivity. }
  assert (Happ : forall a b, re_sub_char "-" " " (a ++ b)
                             = re_sub_char "-" " " a ++ re_sub_char "-" " " b).
  { induction a as [|c a IH]; intros b; cbn [append re_sub_char]; [reflexivity|].
    rewrite IH. reflexivity. }
  assert (Hsub : forall ws, forallb is_word ws = true ->
            re_sub_char "-" " " (join "-" ws) = join " " ws /\
            re_sub_char "-" " " (join " " ws) = join " " ws).
  { induction ws as [|w ws IH]; [split; reflexivity|].
    cbn [forallb]. intros H. apply andb_true_iff in H. destruct H as [Hw Hws].
    destruct ws as [|w' ws]; [split; apply Hword, is_word_all_lower, Hw|].
    destruct (IH Hws) as [IH1 IH2].
    change (join "-" (w :: w' :: ws)) with (w ++ "-" ++ join "-" (w' :: ws)).
    change (join " " (w :: w' :: ws)) with (w ++ " " ++ join " " (w' :: ws)).
    rewrite !Happ, IH1, IH2, (Hword w (is_word_all_lower w Hw)). split; reflexivity. }
  assert (Hgoal : re_sub_delete [" "%char] (title (lower (join " " words)))
                  = join EmptyString (map capitalize words)).
  { unfold title.
    rewrite (lower_joined " "%char eq_refl _ Hall), (title_joined " "%char eq_refl _ Hall).
    rewrite (delete_joined [" "%char] " " _ (capitalized_words_spared _ _ Hspare Hall)).
    reflexivity. }
  unfold object_type_of. destruct (Hsub words Hall) as [-> ->]. rewrite Hgoal.
  split; reflexivity.
Qed.

Lemma object_type_of_words_witness :
  object_type_of "multi-state-value" = "MultiStateValueObject" /\
  object_type_of "binary input" = "BinaryInputObject".
Proof.
  split.
  - apply (proj1 (object_type_of_words ["multi"; "state"; "value"] eq_refl)).
  - apply (proj2 (object_type_of_words ["binary"; "input"] eq_refl)).
Defined.

Lemma object_type_after_untagged (previous : option string)
    (property_list : list (string * string)) :
  (forall tag text, In (tag, text) property_list -> tag <> "object_type") ->
  object_type_after previous property_list = previous.
Proof.
  revert previous. induction property_list as [|[tag text] rest IH]; intros previous Hnone;
    cbn [object_type_after]; [reflexivity|].
  rewrite (proj2 (String.eqb_neq tag "object_type") (Hnone tag text (or_introl eq_refl))).
  apply IH. intros tag' text' Hin. apply (Hnone tag' text'). right; exact Hin.
Qed.

Lemma object_type_after_app (previous : option string) (a b : list (string * string)) :
  object_type_after previous (a ++ b)%list
    = object_type_after (object_type_after previous a) b.
Proof.
  revert previous. induction a as [|[tag text] a IH]; intros previous;
    cbn [app object_type_after]; [reflexivity|].
  destruct (String.eqb tag "object_type"); apply IH.
Qed.

(** X22: the object type used for one object of the template is that of
    the last of its properties tagged [object_type], whatever was left by
    the objects before; an object with no such property takes the type left
    by the object before it. *)
Theorem object_type_after_last_wins (previous : option string)
    (property_list : list (string * string)) :
  ((forall tag text, In (tag, text) property_list -> tag <> "object_type") ->
   object_type_after previous property_list = previous) /\
  (forall before text after,
     property_list = (before ++ ("object_type", text) :: after)%list ->
     (forall tag text', In (tag, text') after -> tag <> "object_type") ->
     object_type_after previous property_list = Some (object_type_of text)).
Proof.
  split; [apply object_type_after_untagged|].
  intros before text after -> Hafter.
  rewrite object_type_after_app. cbn [object_type_after].
  change (String.eqb "object_type" "object_type") with true. cbn iota.
  apply object_type_after_untagged, Hafter.
Qed.

Lemma object_type_after_last_wins_witness :
  object_type_after (Some "BinaryInputObject")
    [("object_name", "AI 01"); ("present_value", "68.0")] = Some "BinaryInputObject" /\
  object_type_after (Some "BinaryInputObject")
    [("object_type", "binary-input"); ("object_name", "AI 01");
     ("object_type", "analog-input"); ("present_value", "68.0")]
    = Some "AnalogInputObject".
Proof.
  split.
  - apply (proj1 (object_type_after_last_wins (Some "BinaryInputObject")
                    [("object_name", "AI 01"); ("present_value", "68.0")])).
    intros tag text [E|[E|[]]]; injection E as <- _; discriminate.
  - apply (proj2 (object_type_after_last_wins (Some "BinaryInputObject")
                    [("object_type", "binary-input"); ("object_name", "AI 01");
                     ("object_type", "analog-input"); ("present_value", "68.0")])
             [("object_type", "binary-input"); ("object_name", "AI 01")]
             "analog-input" [("present_value", "68.0")] eq_refl).
    intros tag text [E|[]]; injection E as <- _; discriminate.
Defined.

(** ** Dispatch to the handler *)

(** X23: a request of a class the tables list, decoded without error or
    with a [DecodingError] (which the dispatcher ignores), is handed to the
    method named by the first entry of the enumeration that carries its
    service choice, together with the address of the requester and the
    invoke id of the APDU; what that handler returns is what [indication]
    returns. *)
Theorem indication_runs_the_named_handler (lib : Bacpypes) (self self' : BACnetApp)
    (apdu : APDU) (address : SockAddr) (device : Device.t) (apdu_type : ApduClass)
    (apdu_service : ServiceClass) (request : Request) (raised : option exn) (key : string)
    (h : Handler) :
  apdu_types lib (apduType apdu) = Some apdu_type ->
  (pduType apdu_type = 0 /\
   confirmed_request_types lib (apduService apdu) = Some apdu_service /\
   service_key (ConfirmedServiceChoice lib) (serviceChoice apdu_service) = Some key)
  \/
  (pduType apdu_type = 1 /\
   unconfirmed_request_types lib (apduService apdu) = Some apdu_service /\
   service_key (UnconfirmedServiceChoice lib) (serviceChoice apdu_service) = Some key) ->
  decode lib apdu_service apdu = (request, raised) ->
  raised = None \/ raised = Some DecodingError ->
  getattr lib key = IsHandler h ->
  h self request address (apduInvokeID apdu) device = Return self' ->
  indication lib self apdu address device = Return self'.
Proof.
  intros Hcls Hcase Hdec Hraised Hattr Hrun.
  assert (Hcall : call_handler lib self key request address (apduInvokeID apdu) device
                  = Return self')
    by (unfold call_handler; rewrite Hattr, Hrun; reflexivity).
  unfold indication. rewrite Hcls.
  destruct Hcase as [(Ht & Hsvc & Hkey) | (Ht & Hsvc & Hkey)]; rewrite Ht;
    cbn [Z.eqb Pos.eqb].
  - unfold indication_confirmed. rewrite Hsvc, Hdec, Hkey.
    destruct Hraised as [-> | ->]; exact Hcall.
  - unfold indication_unconfirmed. rewrite Hsvc, Hdec, Hkey.
    destruct Hraised as [-> | ->]; exact Hcall.
Qed.

Lemma indication_runs_the_named_handler_witness :
  exists self' a,
    indication (example_library (read_property ("analogInput", 14) "presentValue", None))
      example_app
      {| apduType := 0; apduService := 12; apduInvokeID := Some 101; pduData := [] |}
      example_address (localDevice example_app) = Return self' /\
    _response self' = Some (RespReadPropertyACK a) /\
    ReadPropertyACK.apduInvokeID a = Some 101 /\
    ReadPropertyACK.objectName a = Some "AI 01" /\
    ReadPropertyACK.propertyValue a = AnyValue "Real" "68.0".
Proof.
  eexists. eexists. split.
  - apply (indication_runs_the_named_handler
             (example_library (read_property ("analogInput", 14) "presentValue", None))
             example_app _
             {| apduType := 0; apduService := 12; apduInvokeID := Some 101; pduData := [] |}
             example_address (localDevice example_app)
             {| apdu_name := "ConfirmedRequestPDU"; pduType := 0 |}
             {| service_name := "ReadPropertyRequest"; serviceChoice := 12 |}
             (read_property ("analogInput", 14) "presentValue") None "readProperty"
             (readProperty
                (example_library (read_property ("analogInput", 14) "presentValue", None)))
             eq_refl (or_introl (conj eq_refl (conj eq_refl eq_refl)))
             eq_refl (or_introl eq_refl) eq_refl eq_refl).
  - repeat split; reflexivity.
Defined.
